(** * ENS160 + AHT21 MicroPython drivers: a shallow embedding

    The two drivers of the repository ([aht21.py], [ens160.py]) are modelled
    as programs of a small state-and-exception monad over a simulated I2C
    bus.  The bus is an oracle: its answer to a transfer is a function of
    everything that happened before on the bus and of the request, so one
    model covers every deterministic transport behaviour.  Every transfer and
    every [time.sleep_ms] is recorded in a log, newest event first.

    Python integers are [Z]; [bytes] objects are lists of [Z] in [0, 256).
    The floats that the AHT21 driver returns are modelled by the exact
    rational values of its formulas; the floats of [set_compensation] are
    IEEE 754 numbers of the width of the port (binary32 or binary64), with
    every operation rounded to nearest, ties to even. *)

From Stdlib Require Import ZArith List Bool Lia QArith Qround Qabs Qpower.
From Stdlib Require Import SpecFloat.
Import ListNotations.
From Stdlib Require String.
Import String.StringSyntax.
Delimit Scope string_scope with string.

Local Open Scope Z_scope.

(** ** Exceptions raised by the drivers *)

Inductive exn : Type :=
| OSError
| AHT21CalibrationError
| AHT21CRCError
| AHT21TimeoutError
| ENS160InitError
| ENS160CommunicationError.

Definition exn_eqb (a b : exn) : bool :=
  match a, b with
  | OSError, OSError
  | AHT21CalibrationError, AHT21CalibrationError
  | AHT21CRCError, AHT21CRCError
  | AHT21TimeoutError, AHT21TimeoutError
  | ENS160InitError, ENS160InitError
  | ENS160CommunicationError, ENS160CommunicationError => true
  | _, _ => false
  end.

(** ** The simulated bus and clock *)

(** The four calls the drivers make on [machine.I2C]. *)
Inductive request : Type :=
| writeto (addr : Z) (buf : list Z)
| readfrom (addr : Z) (nbytes : nat)
| writeto_mem (addr memaddr : Z) (buf : list Z)
| readfrom_mem (addr memaddr : Z) (nbytes : nat).

(** A transfer is acknowledged (a read carries its bytes) or fails with
    [OSError]. *)
Inductive reply : Type :=
| Done (data : list Z)
| Fail.

Inductive event : Type :=
| Transfer (rq : request) (rp : reply)
| Sleep (ms : Z).

(** The transport: what the bus answers, given the events so far (newest
    first) and the request. *)
Definition bus : Type := list event -> request -> reply.

(** The world a driver runs in: the event log, the millisecond clock read by
    [time.ticks_ms], and the mutable fields of the driver object. The
    simulated clock is advanced by [time.sleep_ms] only. *)
Record world (Ob : Type) : Type := World {
  log : list event;
  clock : Z;
  obj : Ob
}.
Arguments World {Ob} _ _ _.
Arguments log {Ob} _.
Arguments clock {Ob} _.
Arguments obj {Ob} _.

(** ** Outcomes and the driver monad *)

Inductive outcome (A : Type) : Type :=
| Ok (a : A)
| Raise (e : exn)
| OutOfFuel.
Arguments Ok {A} _.
Arguments Raise {A} _.
Arguments OutOfFuel {A}.

Definition M (Ob A : Type) : Type := world Ob -> outcome A * world Ob.

Definition ret {Ob A} (a : A) : M Ob A := fun w => (Ok a, w).

Definition bind {Ob A B} (m : M Ob A) (k : A -> M Ob B) : M Ob B :=
  fun w =>
    match m w with
    | (Ok a, w') => k a w'
    | (Raise e, w') => (Raise e, w')
    | (OutOfFuel, w') => (OutOfFuel, w')
    end.

Definition raise {Ob A} (e : exn) : M Ob A := fun w => (Raise e, w).

Definition out_of_fuel {Ob A} : M Ob A := fun w => (OutOfFuel, w).

(** [try: m except (e1, e2, ...): h]: the handler runs for the exceptions
    selected by [handles]; the others propagate. *)
Definition try_except {Ob A} (m : M Ob A) (handles : exn -> bool)
    (h : exn -> M Ob A) : M Ob A :=
  fun w =>
    match m w with
    | (Raise e, w') => if handles e then h e w' else (Raise e, w')
    | r => r
    end.

(** [try: m finally: f]: [f] runs on every exit of [m]; an exception of [f]
    replaces the pending result. *)
Definition try_finally {Ob A} (m : M Ob A) (f : M Ob unit) : M Ob A :=
  fun w =>
    match m w with
    | (OutOfFuel, w') => (OutOfFuel, w')
    | (r, w') =>
        match f w' with
        | (Ok _, w'') => (r, w'')
        | (Raise e, w'') => (Raise e, w'')
        | (OutOfFuel, w'') => (OutOfFuel, w'')
        end
    end.

Declare Scope drv_scope.
Delimit Scope drv_scope with drv.
Notation "x <- m ;; k" := (bind m (fun x => k))
  (at level 61, m at next level, right associativity) : drv_scope.
Notation "m ;; k" := (bind m (fun _ => k))
  (at level 61, right associativity) : drv_scope.
Local Open Scope drv_scope.

(** A [bytes] object returned by a read holds exactly the requested number of
    bytes, each in [0, 256): the oracle's answer is coerced to that shape. *)
Definition as_bytes (n : nat) (data : list Z) : list Z :=
  map (fun b => b mod 256) (firstn n (data ++ repeat 0 n)).

Definition nbytes_of (rq : request) : nat :=
  match rq with
  | readfrom _ n | readfrom_mem _ _ n => n
  | writeto _ _ | writeto_mem _ _ _ => 0%nat
  end.

Section Transport.

Variable i2c : bus.
Context {Ob : Type}.

(** One bus transfer: ask the oracle, log the exchange, raise [OSError] on
    failure. *)
Definition transfer (rq : request) : M Ob (list Z) :=
  fun w =>
    match i2c (log w) rq with
    | Done data =>
        let d := as_bytes (nbytes_of rq) data in
        (Ok d, World (Transfer rq (Done d) :: log w) (clock w) (obj w))
    | Fail =>
        (Raise OSError, World (Transfer rq Fail :: log w) (clock w) (obj w))
    end.

Definition sleep_ms (ms : Z) : M Ob unit :=
  fun w => (Ok tt, World (Sleep ms :: log w) (clock w + ms) (obj w)).

Definition ticks_ms : M Ob Z := fun w => (Ok (clock w), w).

Definition get_obj : M Ob Ob := fun w => (Ok (obj w), w).

Definition set_obj (o : Ob) : M Ob unit :=
  fun w => (Ok tt, World (log w) (clock w) o).

End Transport.

(** [data[i]] on a bytes object returned by a read. The index is always in
    range in the drivers, a read of [n] bytes returns [n] bytes ([as_bytes]),
    so the default is never used. *)
Definition getitem (data : list Z) (i : nat) : Z := nth i data 0.

(** [time.ticks_diff(a, b)] away from the wrap-around of the tick counter. *)
Definition ticks_diff (a b : Z) : Z := a - b.

(** * AHT21 *)

Module AHT21.

Definition AHT21_I2C_ADDR : Z := 0x38.
Definition AHT21_CMD_STATUS : Z := 0x71.
Definition AHT21_CMD_SOFTRESET : Z := 0xBA.
Definition AHT21_CMD_INITIALIZE : Z := 0xBE.
Definition AHT21_CMD_TRIGGER : Z := 0xAC.
Definition AHT21_STATUS_BUSY : Z := 0x80.
Definition AHT21_STATUS_CALIBRATED : Z := 0x18.
Definition AHT21_CRC_POLYNOMIAL : Z := 0x31.
Definition AHT21_CRC_INIT : Z := 0xFF.
Definition AHT21_POWERUP_DELAY : Z := 100.
Definition AHT21_SOFTRESET_DELAY : Z := 20.
Definition AHT21_INIT_DELAY : Z := 10.
Definition AHT21_MEASUREMENT_DELAY : Z := 80.
Definition AHT21_BUSY_TIMEOUT : Z := 150.

(** *** CRC *)

(** One pass of [for _ in range(8)]: the accumulator is a Python integer
    and is not masked inside the loop. *)
Definition crc_shift (crc : Z) : Z :=
  if Z.land crc 0x80 =? 0
  then Z.shiftl crc 1
  else Z.lxor (Z.shiftl crc 1) AHT21_CRC_POLYNOMIAL.

Fixpoint crc_shifts (n : nat) (crc : Z) : Z :=
  match n with
  | O => crc
  | S n' => crc_shifts n' (crc_shift crc)
  end.

(** The body of [for byte in data[0:6]]. *)
Definition crc_byte (crc byte : Z) : Z :=
  Z.land (crc_shifts 8 (Z.lxor crc byte)) 0xFF.

Definition _calculate_crc8 (data : list Z) : Z :=
  fold_left crc_byte (firstn 6 data) AHT21_CRC_INIT.

(** *** The driver object and its methods *)

(** [self._address]; [self._i2c] is the bus the methods run on. *)
Record t : Type := { _address : Z }.

Section Methods.

Variable i2c : bus.
Context {Ob : Type}.

Definition _read_status (self : t) : M Ob Z :=
  transfer i2c (writeto (_address self) [AHT21_CMD_STATUS]) ;;
  data <- transfer i2c (readfrom (_address self) 1) ;;
  ret (getitem data 0).

Definition _is_busy (self : t) : M Ob bool :=
  status <- _read_status self ;;
  ret (negb (Z.land status AHT21_STATUS_BUSY =? 0)).

Definition _is_calibrated (self : t) : M Ob bool :=
  status <- _read_status self ;;
  ret (Z.land status AHT21_STATUS_CALIBRATED =? 0x18).

(** [for attempt in range(3)] of the constructor, [n] iterations left;
    falling out of the loop raises. *)
Fixpoint calibration_loop (self : t) (n : nat) : M Ob unit :=
  match n with
  | O => raise AHT21CalibrationError
  | S n' =>
      calibrated <- _is_calibrated self ;;
      if calibrated then ret tt
      else
        transfer i2c
          (writeto (_address self) [AHT21_CMD_INITIALIZE; 0x08; 0x00]) ;;
        sleep_ms AHT21_INIT_DELAY ;;
        calibration_loop self n'
  end.

Definition __init__ (address : Z) : M Ob t :=
  let self := {| _address := address |} in
  sleep_ms AHT21_POWERUP_DELAY ;;
  transfer i2c (writeto (_address self) [AHT21_CMD_SOFTRESET]) ;;
  sleep_ms AHT21_SOFTRESET_DELAY ;;
  calibration_loop self 3 ;;
  ret self.

(** [while self._is_busy(): ...]. On the simulated clock each pass of the
    loop advances the time by 5 ms, so [poll_fuel] passes always suffice
    (lemma [busy_loop_spec]). *)
Fixpoint busy_loop (self : t) (start_time : Z) (fuel : nat) : M Ob unit :=
  match fuel with
  | O => out_of_fuel
  | S fuel' =>
      busy <- _is_busy self ;;
      if busy then
        now <- ticks_ms ;;
        if ticks_diff now start_time >? AHT21_BUSY_TIMEOUT
        then raise AHT21TimeoutError
        else sleep_ms 5 ;; busy_loop self start_time fuel'
      else ret tt
  end.

Definition poll_fuel : nat := Z.to_nat (AHT21_BUSY_TIMEOUT / 5 + 2).

Definition raw_humidity (data : list Z) : Z :=
  Z.lor (Z.lor (Z.shiftl (getitem data 1) 12) (Z.shiftl (getitem data 2) 4))
        (Z.shiftr (getitem data 3) 4).

Definition raw_temperature (data : list Z) : Z :=
  Z.lor (Z.lor (Z.shiftl (Z.land (getitem data 3) 0x0F) 16)
               (Z.shiftl (getitem data 4) 8))
        (getitem data 5).

(** The body of the [try] block: one measurement attempt. *)
Definition measure (self : t) : M Ob (Q * Q) :=
  transfer i2c (writeto (_address self) [AHT21_CMD_TRIGGER; 0x33; 0x00]) ;;
  sleep_ms AHT21_MEASUREMENT_DELAY ;;
  start_time <- ticks_ms ;;
  busy_loop self start_time poll_fuel ;;
  data <- transfer i2c (readfrom (_address self) 7) ;;
  let calculated_crc := _calculate_crc8 (firstn 6 data) in
  if negb (calculated_crc =? getitem data 6) then raise AHT21CRCError
  else
    let humidity :=
      ((inject_Z (raw_humidity data) / 1048576) * 100)%Q in
    let temperature :=
      ((inject_Z (raw_temperature data) / 1048576) * 200 - 50)%Q in
    ret (temperature, humidity).

Definition crc_or_timeout (e : exn) : bool :=
  match e with
  | AHT21CRCError | AHT21TimeoutError => true
  | _ => false
  end.

(** [for attempt in range(retries)], [n] iterations left. The [try]
    statement yields [Some v] when its body returned [v] and [None] when
    the handler finished and the loop goes on; a function that falls off
    its end returns [None]. *)
Fixpoint retry_loop (self : t) (retries attempt : Z) (n : nat)
    : M Ob (option (Q * Q)) :=
  match n with
  | O => ret None
  | S n' =>
      r <- try_except
             (v <- measure self ;; ret (Some v))
             crc_or_timeout
             (fun e =>
                if attempt =? retries - 1 then raise e
                else sleep_ms 50 ;; ret None) ;;
      match r with
      | Some v => ret (Some v)
      | None => retry_loop self retries (attempt + 1) n'
      end
  end.

Definition read_temperature_humidity (self : t) (retries : Z)
    : M Ob (option (Q * Q)) :=
  retry_loop self retries 0 (Z.to_nat retries).

End Methods.

End AHT21.

(** * ENS160 *)

(** [a < b] on rationals. *)
Definition Qltb (a b : Q) : bool :=
  (Qnum a * Z.pos (Qden b) <? Qnum b * Z.pos (Qden a))%Z.

(** The nearest integer, ties to the even one: Python's [round(x)], and the
    rounding of IEEE 754. *)
Definition py_round (x : Q) : Z :=
  let f := Qfloor x in
  let twice := (2 * (x - inject_Z f))%Q in
  if Qltb twice 1 then f
  else if Qltb 1 twice then f + 1
  else if Z.even f then f else f + 1.

(** ** Floats

    A MicroPython float is an IEEE 754 binary32 or binary64 number,
    depending on the port. *)
Inductive float_format : Type := Binary32 | Binary64.

(** Bits of the significand, and the exponent of the infinities. *)
Definition prec (fmt : float_format) : Z :=
  match fmt with Binary32 => 24 | Binary64 => 53 end.

Definition emax (fmt : float_format) : Z :=
  match fmt with Binary32 => 128 | Binary64 => 1024 end.

(** The exponent of the last bit of the subnormal numbers. *)
Definition emin (fmt : float_format) : Z := 3 - emax fmt - prec fmt.

(** A float: not-a-number, an infinity, or a finite value (the sign of a
    zero is not kept: nothing in the drivers depends on it). *)
Inductive pyfloat : Type :=
| Nan
| Inf (negative : bool)
| Finite (value : Q).

Definition pow2 (e : Z) : Q := (2 ^ e)%Q.

(** The exponent of the binade of [x > 0]: [2^e <= x < 2^(e+1)]. *)
Definition ilog2 (x : Q) : Z :=
  let e0 := Z.log2 (Qnum x) - Z.log2 (Z.pos (Qden x)) in
  if Qltb x (pow2 e0) then e0 - 1 else e0.

(** The exponent of the last bit of the floats next to [x]. *)
Definition gexp (fmt : float_format) (x : Q) : Z :=
  Z.max (ilog2 (Qabs x) + 1 - prec fmt) (emin fmt).

(** [x] rounded to the nearest multiple of its last bit, ties to even. *)
Definition round_value (fmt : float_format) (x : Q) : Q :=
  let e := gexp fmt x in
  (inject_Z (py_round (x / pow2 e)) * pow2 e)%Q.

(** The float that an operation with exact result [x] returns. *)
Definition fl_round (fmt : float_format) (x : Q) : pyfloat :=
  if Qeq_bool x 0 then Finite 0
  else
    let r := round_value fmt x in
    if Qltb (Qabs r) (pow2 (emax fmt)) then Finite (Qred r)
    else Inf (Qltb x 0).

(** A decimal literal [num/den] of the source. *)
Definition literal (fmt : float_format) (num : Z) (den : positive) : pyfloat :=
  fl_round fmt (num # den).

Definition fadd (fmt : float_format) (a b : pyfloat) : pyfloat :=
  match a, b with
  | Nan, _ | _, Nan => Nan
  | Inf s, Inf s' => if Bool.eqb s s' then a else Nan
  | Inf _, Finite _ => a
  | Finite _, Inf _ => b
  | Finite x, Finite y => fl_round fmt (x + y)
  end.

Definition fmul (fmt : float_format) (a b : pyfloat) : pyfloat :=
  match a, b with
  | Nan, _ | _, Nan => Nan
  | Inf s, Inf s' => Inf (xorb s s')
  | Inf s, Finite y =>
      if Qeq_bool y 0 then Nan else Inf (xorb s (Qltb y 0))
  | Finite x, Inf s =>
      if Qeq_bool x 0 then Nan else Inf (xorb (Qltb x 0) s)
  | Finite x, Finite y => fl_round fmt (x * y)
  end.

(** [a < b] on floats: false when one of them is not a number. *)
Definition flt (a b : pyfloat) : bool :=
  match a, b with
  | Nan, _ | _, Nan => false
  | Inf s, Inf s' => s && negb s'
  | Inf s, Finite _ => s
  | Finite _, Inf s => negb s
  | Finite x, Finite y => Qltb x y
  end.

(** Python's two-argument [min] and [max]: the first argument is kept unless
    the second is strictly smaller (larger). *)
Definition py_min (a b : pyfloat) : pyfloat := if flt b a then b else a.
Definition py_max (a b : pyfloat) : pyfloat := if flt a b then b else a.

(** [int(x)] on a float: truncation toward zero. On a float that is not
    finite [int] raises; [set_compensation] never calls it on one (lemmas
    [temp_value_range] and [rh_value_range]). *)
Definition py_int (x : pyfloat) : Z :=
  match x with
  | Finite q => Z.quot (Qnum q) (Z.pos (Qden q))
  | _ => 0
  end.

(** [struct.pack('<H', v)] and [struct.unpack('<H', b)[0]]. MicroPython's
    [pack] keeps the low 16 bits of [v]. *)
Definition pack_H (v : Z) : list Z :=
  [Z.land v 0xFF; Z.land (Z.shiftr v 8) 0xFF].

Definition unpack_H (b : list Z) : Z :=
  Z.lor (getitem b 0) (Z.shiftl (getitem b 1) 8).

(** A call that checks its argument before it does anything else: either the
    check fails and [ValueError] is raised before any transfer, or the body
    runs. *)
Inductive checked (A : Type) : Type :=
| ValueError
| Checked (body : A).
Arguments ValueError {A}.
Arguments Checked {A} _.

(** [d.get(key, default)] on a dict with integer keys, as the list of its
    items. *)
Fixpoint dict_get {V : Type} (d : list (Z * V)) (key : Z) (default : V) : V :=
  match d with
  | [] => default
  | (k, v) :: d' => if k =? key then v else dict_get d' key default
  end.

Module ENS160.

Definition _REG_PART_ID : Z := 0x00.
Definition _REG_OPMODE : Z := 0x10.
Definition _REG_COMMAND : Z := 0x12.
Definition _REG_TEMP_IN : Z := 0x13.
Definition _REG_RH_IN : Z := 0x15.
Definition _REG_DEVICE_STATUS : Z := 0x20.
Definition _REG_GPR_READ : Z := 0x48.
Definition _OPMODE_IDLE : Z := 0x01.
Definition _OPMODE_STANDARD : Z := 0x02.
Definition _OPMODE_RESET : Z := 0xF0.
Definition _CMD_GET_APPVER : Z := 0x0E.
Definition _TIMING_RESET : Z := 20.
Definition _TIMING_MODE_SWITCH : Z := 10.

(** The fields of the driver object. *)
Record t : Type := {
  _address : Z;
  _aqi : Z;
  _tvoc : Z;
  _eco2 : Z;
  _validity_flag : Z
}.

Definition is_OSError (e : exn) : bool := exn_eqb e OSError.

Section Methods.

Variable fmt : float_format.
Variable i2c : bus.

Definition set_aqi (v : Z) : M t unit :=
  self <- get_obj ;;
  set_obj {| _address := _address self; _aqi := v; _tvoc := _tvoc self;
             _eco2 := _eco2 self; _validity_flag := _validity_flag self |}.

Definition set_tvoc (v : Z) : M t unit :=
  self <- get_obj ;;
  set_obj {| _address := _address self; _aqi := _aqi self; _tvoc := v;
             _eco2 := _eco2 self; _validity_flag := _validity_flag self |}.

Definition set_eco2 (v : Z) : M t unit :=
  self <- get_obj ;;
  set_obj {| _address := _address self; _aqi := _aqi self;
             _tvoc := _tvoc self; _eco2 := v;
             _validity_flag := _validity_flag self |}.

Definition set_validity_flag (v : Z) : M t unit :=
  self <- get_obj ;;
  set_obj {| _address := _address self; _aqi := _aqi self;
             _tvoc := _tvoc self; _eco2 := _eco2 self;
             _validity_flag := v |}.

(** The four register helpers: one transparent retry after 10 ms, then
    [ENS160CommunicationError]. *)
Definition with_retry {A} (op : M t A) : M t A :=
  try_except op is_OSError
    (fun _ =>
       sleep_ms 10 ;;
       try_except op is_OSError
         (fun _ => raise ENS160CommunicationError)).

Definition _read_register (reg : Z) : M t Z :=
  self <- get_obj ;;
  with_retry
    (data <- transfer i2c (readfrom_mem (_address self) reg 1) ;;
     ret (getitem data 0)).

Definition _read_registers (reg : Z) (count : nat) : M t (list Z) :=
  self <- get_obj ;;
  with_retry (transfer i2c (readfrom_mem (_address self) reg count)).

Definition _write_register (reg value : Z) : M t unit :=
  self <- get_obj ;;
  with_retry
    (transfer i2c (writeto_mem (_address self) reg [value]) ;; ret tt).

Definition _write_register_16 (reg value : Z) : M t unit :=
  self <- get_obj ;;
  let data := pack_H value in
  with_retry
    (transfer i2c (writeto_mem (_address self) reg data) ;; ret tt).

(** The bounds [-40.0], [85.0], [0.0], [100.0] and the factors [64] and
    [512] are floats of both widths as they stand; [273.15] is not. *)
Definition clip_temperature (temperature_c : pyfloat) : pyfloat :=
  py_max (Finite (-40)) (py_min (Finite 85) temperature_c).

Definition clip_humidity (humidity_rh : pyfloat) : pyfloat :=
  py_max (Finite 0) (py_min (Finite 100) humidity_rh).

Definition temp_value (temperature_c : pyfloat) : Z :=
  py_int (fmul fmt (fadd fmt (clip_temperature temperature_c)
                      (literal fmt 27315 100))
            (Finite 64)).

Definition rh_value (humidity_rh : pyfloat) : Z :=
  py_int (fmul fmt (clip_humidity humidity_rh) (Finite 512)).

Definition set_compensation (temperature_c humidity_rh : pyfloat)
    : M t unit :=
  _write_register_16 _REG_TEMP_IN (temp_value temperature_c) ;;
  _write_register_16 _REG_RH_IN (rh_value humidity_rh).

Definition reset : M t unit :=
  _write_register _REG_OPMODE _OPMODE_RESET ;;
  sleep_ms _TIMING_RESET ;;
  _write_register _REG_OPMODE _OPMODE_IDLE ;;
  sleep_ms _TIMING_MODE_SWITCH ;;
  set_compensation (Finite 25) (Finite 50) ;;
  _write_register _REG_OPMODE _OPMODE_STANDARD ;;
  sleep_ms _TIMING_MODE_SWITCH ;;
  set_aqi 0 ;;
  set_tvoc 0 ;;
  set_eco2 400 ;;
  set_validity_flag 1.

(** Step 1 of the constructor: the [try] statement that reads and checks
    the part identifier. *)
Definition verify_part_id : M t unit :=
  try_except
    (part_id_bytes <- _read_registers _REG_PART_ID 2 ;;
     let part_id := unpack_H part_id_bytes in
     if negb (part_id =? 0x0160) then raise ENS160InitError else ret tt)
    is_OSError
    (fun _ => raise ENS160InitError).

Definition __init__ (address : Z) : M t unit :=
  set_obj {| _address := address; _aqi := 0; _tvoc := 0; _eco2 := 400;
             _validity_flag := 1 |} ;;
  verify_part_id ;;
  _write_register _REG_OPMODE _OPMODE_RESET ;;
  sleep_ms _TIMING_RESET ;;
  _write_register _REG_OPMODE _OPMODE_IDLE ;;
  sleep_ms _TIMING_MODE_SWITCH ;;
  set_compensation (Finite 25) (Finite 50) ;;
  _write_register _REG_OPMODE _OPMODE_STANDARD ;;
  sleep_ms _TIMING_MODE_SWITCH.

(** [update] calls itself after a recovery; [fuel] bounds the depth of
    these calls, [update (S n)] allowing [n] nested self-calls. *)
Fixpoint update (fuel : nat) : M t bool :=
  match fuel with
  | O => out_of_fuel
  | S fuel' =>
      status_byte <- _read_register _REG_DEVICE_STATUS ;;
      if Z.land status_byte 0x02 =? 0 then ret false
      else
        data <- _read_registers _REG_DEVICE_STATUS 6 ;;
        set_validity_flag (Z.land (Z.shiftr (getitem data 0) 2) 0x03) ;;
        set_aqi (Z.land (getitem data 1) 0x07) ;;
        set_tvoc (unpack_H (firstn 2 (skipn 2 data))) ;;
        set_eco2 (unpack_H (firstn 2 (skipn 4 data))) ;;
        self <- get_obj ;;
        if _validity_flag self =? 3 then
          reset ;;
          sleep_ms 200 ;;
          update fuel'
        else ret (_validity_flag self =? 0)
  end.

(** The version is returned as the triple (major, minor, release) that
    the source formats into a string. *)
Definition get_firmware_version : M t (Z * Z * Z) :=
  let current_mode := _OPMODE_STANDARD in
  try_finally
    (_write_register _REG_OPMODE _OPMODE_IDLE ;;
     sleep_ms _TIMING_MODE_SWITCH ;;
     _write_register _REG_COMMAND _CMD_GET_APPVER ;;
     sleep_ms 10 ;;
     gpr_data <- _read_registers _REG_GPR_READ 8 ;;
     let major := getitem gpr_data 4 in
     let minor := getitem gpr_data 5 in
     let release := getitem gpr_data 6 in
     ret (major, minor, release))
    (_write_register _REG_OPMODE current_mode ;;
     sleep_ms _TIMING_MODE_SWITCH).

(** The class attribute [AQI_RATINGS] and the read-only properties. *)
Definition AQI_RATINGS : list (Z * String.string) :=
  [(1, "Excellent"%string); (2, "Good"%string); (3, "Moderate"%string);
   (4, "Poor"%string); (5, "Unhealthy"%string)].

Definition aqi : M t Z := self <- get_obj ;; ret (_aqi self).

Definition tvoc : M t Z := self <- get_obj ;; ret (_tvoc self).

Definition eco2 : M t Z := self <- get_obj ;; ret (_eco2 self).

Definition status : M t String.string :=
  let status_map :=
    [(0, "OK"%string); (1, "Warm-up"%string);
     (2, "Initial Startup"%string); (3, "Error"%string)] in
  self <- get_obj ;;
  ret (dict_get status_map (_validity_flag self) "Unknown"%string).

Definition warming_up : M t bool :=
  self <- get_obj ;; ret (_validity_flag self =? 1).

Definition get_raw_resistance (sensor_num : Z) : checked (M t Z) :=
  if negb ((sensor_num =? 1) || (sensor_num =? 4)) then ValueError
  else
    Checked
      (gpr_data <- _read_registers _REG_GPR_READ 8 ;;
       if sensor_num =? 1 then ret (unpack_H (firstn 2 (skipn 0 gpr_data)))
       else ret (unpack_H (firstn 2 (skipn 6 gpr_data)))).

End Methods.

End ENS160.

(** * Reference definitions, written from the specification *)

(** The CRC-8 of the specification, [crc8(data, poly, init)], on an 8-bit
    register: seed with [init]; for each of the first six bytes, XOR it into
    the register, then shift left eight times, XORing with [poly] when the
    high bit of the register was set; the register keeps 8 bits. *)
Definition reg8_shift (poly r : Z) : Z :=
  Z.land (if Z.testbit r 7 then Z.lxor (Z.shiftl r 1) poly else Z.shiftl r 1)
         0xFF.

Fixpoint reg8_shifts (poly : Z) (n : nat) (r : Z) : Z :=
  match n with
  | O => r
  | S n' => reg8_shifts poly n' (reg8_shift poly r)
  end.

Definition crc8_reference (poly init : Z) (data : list Z) : Z :=
  fold_left (fun r byte => Z.land (reg8_shifts poly 8 (Z.lxor r byte)) 0xFF)
            (firstn 6 data) init.

(** * Reading the event log *)

(** [count p l]: how many events of [l] satisfy [p]. *)
Definition count (p : event -> bool) (l : list event) : Z :=
  Z.of_nat (length (filter p l)).

(** [adjacent R l]: every event of the newest-first log [l] and the event
    just before it in time are related by [R newer older]. *)
Fixpoint adjacent (R : event -> event -> bool) (l : list event) : bool :=
  match l with
  | newer :: tl =>
      match tl with
      | older :: _ => R newer older && adjacent R tl
      | [] => true
      end
  | [] => true
  end.

Definition is_failed (ev : event) : bool :=
  match ev with
  | Transfer _ Fail => true
  | _ => false
  end.

(** No transfer of [l] failed. *)
Definition all_acked (l : list event) : bool :=
  forallb (fun ev => negb (is_failed ev)) l.

Definition is_sleep (ms : Z) (ev : event) : bool :=
  match ev with
  | Sleep ms' => ms' =? ms
  | _ => false
  end.

Fixpoint list_eqb (a b : list Z) : bool :=
  match a, b with
  | [], [] => true
  | x :: a', y :: b' => (x =? y) && list_eqb a' b'
  | _, _ => false
  end.

Definition is_writeto (a : Z) (buf : list Z) (ev : event) : bool :=
  match ev with
  | Transfer (writeto a' buf') _ => list_eqb buf' buf && (a' =? a)
  | _ => false
  end.

(** The events of an AHT21 measurement. *)
Definition is_trigger (a : Z) : event -> bool :=
  is_writeto a [AHT21.AHT21_CMD_TRIGGER; 0x33; 0x00].

Definition is_retry_delay : event -> bool := is_sleep 50.

(** A 7-byte frame read whose checksum does not match. *)
Definition is_crc_mismatch (ev : event) : bool :=
  match ev with
  | Transfer (readfrom _ 7) (Done frame) =>
      negb (AHT21._calculate_crc8 (firstn 6 frame) =? getitem frame 6)
  | _ => false
  end.

(** A status read that reports the sensor busy. *)
Definition is_busy_status (ev : event) : bool :=
  match ev with
  | Transfer (readfrom _ 1) (Done st) =>
      negb (Z.land (getitem st 0) AHT21.AHT21_STATUS_BUSY =? 0)
  | _ => false
  end.

Definition retryable_failure (ev : event) : bool :=
  is_crc_mismatch ev || is_busy_status ev.

(** The retry discipline of [read_temperature_humidity], on two neighbouring
    events: a 50 ms delay comes directly after a CRC mismatch or a busy
    status, a trigger that has an event before it comes directly after a
    50 ms delay, and a 50 ms delay is directly followed by a trigger. *)
Definition retry_discipline (a : Z) (newer older : event) : bool :=
  implb (is_retry_delay newer) (retryable_failure older)
  && implb (is_trigger a newer) (is_retry_delay older)
  && implb (is_retry_delay older) (is_trigger a newer).

(** A transfer that the bus refused. *)
Definition failed_transfer (ev : event) : Prop :=
  exists rq, ev = Transfer rq Fail.

(** The newest event [ev] (with the events [older] before it) of an attempt
    that returned [v]: a 7-byte frame with a matching checksum, read after a
    status that was not busy, and [v] decoded from it. *)
Definition frame_accepted (a : Z) (ev : event) (older : list event)
    (v : Q * Q) : Prop :=
  exists frame,
    ev = Transfer (readfrom a 7) (Done frame)
    /\ length frame = 7%nat
    /\ Forall (fun b => 0 <= b < 256) frame
    /\ is_crc_mismatch ev = false
    /\ (exists st older', older = st :: older'
                      /\ is_busy_status st = false /\ is_failed st = false)
    /\ v = (((inject_Z (AHT21.raw_temperature frame) / 1048576) * 200 - 50)%Q,
            ((inject_Z (AHT21.raw_humidity frame) / 1048576) * 100)%Q).

(** The newest event [ev] of an attempt that raised [e]. *)
Definition attempt_failed (e : exn) (ev : event) : Prop :=
  (e = AHT21CRCError /\ is_crc_mismatch ev = true)
  \/ (e = AHT21TimeoutError /\ is_busy_status ev = true)
  \/ (e = OSError /\ failed_transfer ev).

(** An event that is neither a trigger nor a 50 ms delay. *)
Definition plain (a : Z) (ev : event) : bool :=
  negb (is_trigger a ev) && negb (is_retry_delay ev).

(** * Simulated transports *)

(** The number of transfers in a log. *)
Fixpoint transfers (l : list event) : nat :=
  match l with
  | [] => O
  | Transfer _ _ :: l' => S (transfers l')
  | Sleep _ :: l' => transfers l'
  end.

(** A scripted bus: the k-th transfer gets the k-th reply of the script, and
    [default] once the script is used up. *)
Definition scripted (script : list reply) (default : reply) : bus :=
  fun history _ => nth (transfers history) script default.

Definition world0 {Ob} (o : Ob) : world Ob := World [] 0 o.

Definition ack : reply := Done [].

(** The events of the AHT21 constructor: a completed status read is a
    calibration check, passed when both calibration bits are set. *)
Definition is_check (ev : event) : bool :=
  match ev with
  | Transfer (readfrom _ 1) (Done _) => true
  | _ => false
  end.

Definition check_passed (ev : event) : bool :=
  match ev with
  | Transfer (readfrom _ 1) (Done st) =>
      Z.land (getitem st 0) AHT21.AHT21_STATUS_CALIBRATED =? 0x18
  | _ => false
  end.

Definition check_failed (ev : event) : bool :=
  is_check ev && negb (check_passed ev).

Definition is_init_command (a : Z) : event -> bool :=
  is_writeto a [AHT21.AHT21_CMD_INITIALIZE; 0x08; 0x00].

(** The calibration discipline, on two neighbouring events: a failed check
    is directly followed by the initialize command, an acknowledged
    initialize command by a 10 ms wait, and nothing follows a passed
    check. *)
Definition calibration_discipline (a : Z) (newer older : event) : bool :=
  implb (check_failed older) (is_init_command a newer)
  && implb (is_init_command a older && negb (is_failed older))
           (is_sleep AHT21.AHT21_INIT_DELAY newer)
  && negb (check_passed older).

(** ** Runs of a script *)

(** What a driver method does on the bus when no branch depends on the
    data: a script of register or bus accesses and waits. *)
Inductive step : Type :=
| Access (rq : request)
| Wait (ms : Z).

(** A run goes through the whole script, or ends at a refused access. *)
Inductive run_end : Type :=
| Completed
| Aborted.

Definition request_eqb (x y : request) : bool :=
  match x, y with
  | writeto a b, writeto a' b' => (a =? a') && list_eqb b b'
  | readfrom a n, readfrom a' n' => (a =? a') && Nat.eqb n n'
  | writeto_mem a r b, writeto_mem a' r' b' =>
      (a =? a') && (r =? r') && list_eqb b b'
  | readfrom_mem a r n, readfrom_mem a' r' n' =>
      (a =? a') && (r =? r') && Nat.eqb n n'
  | _, _ => false
  end.

(** [run_of retry script evs]: the events [evs], OLDEST first, are exactly
    those of a run of [script], and how the run ends. A wait is its
    [Sleep]. An access is its transfer, acknowledged, after which the run
    goes on. Without [retry] (the AHT21 driver) a refused transfer ends the
    run, nothing coming after it. With [retry] (the register helpers of the
    ENS160 driver) a refused transfer is followed by 10 ms and the same
    transfer once more: acknowledged, the run goes on; refused, the run
    ends there. Any other list of events is not a run ([None]). *)
Fixpoint run_of (retry : bool) (script : list step) (evs : list event)
    : option run_end :=
  match script with
  | [] =>
      match evs with
      | [] => Some Completed
      | _ :: _ => None
      end
  | Wait ms :: rest =>
      match evs with
      | Sleep ms' :: tl => if ms' =? ms then run_of retry rest tl else None
      | _ => None
      end
  | Access rq :: rest =>
      match evs with
      | Transfer rq1 (Done _) :: tl =>
          if request_eqb rq1 rq then run_of retry rest tl else None
      | Transfer rq1 Fail :: tl =>
          if request_eqb rq1 rq then
            if retry then
              match tl with
              | Sleep ms :: Transfer rq2 rp :: tl' =>
                  if (ms =? 10) && request_eqb rq2 rq then
                    match rp with
                    | Done _ => run_of retry rest tl'
                    | Fail =>
                        match tl' with
                        | [] => Some Aborted
                        | _ :: _ => None
                        end
                    end
                  else None
              | _ => None
              end
            else
              match tl with
              | [] => Some Aborted
              | _ :: _ => None
              end
          else None
      | _ => None
      end
  end.

(** One calibration check of the AHT21 constructor, and what follows a
    failed check. *)
Definition aht21_check_script (a : Z) : list step :=
  [Access (writeto a [AHT21.AHT21_CMD_STATUS]); Access (readfrom a 1)].

Definition aht21_initialize_script (a : Z) : list step :=
  [Access (writeto a [AHT21.AHT21_CMD_INITIALIZE; 0x08; 0x00]);
   Wait AHT21.AHT21_INIT_DELAY].

(** The AHT21 constructor: power-up wait, soft reset, its wait, [rounds]
    times a check with the initialize command and its wait, then [more]. *)
Definition aht21_init_script (a : Z) (rounds : nat) (more : list step)
    : list step :=
  [Wait AHT21.AHT21_POWERUP_DELAY;
   Access (writeto a [AHT21.AHT21_CMD_SOFTRESET]);
   Wait AHT21.AHT21_SOFTRESET_DELAY]
  ++ concat (repeat (aht21_check_script a ++ aht21_initialize_script a)
               rounds)
  ++ more.

(** An acknowledged initialize command of the AHT21 at [a]. *)
Definition is_acked_init_command (a : Z) (ev : event) : bool :=
  is_init_command a ev && negb (is_failed ev).

(** The start-up sequence of the ENS160 constructor and of [reset]: Reset,
    Idle, the compensation for 25 degrees C (19081 = 0x4A89) and 50 %RH
    (25600 = 0x6400), Standard, each mode switch with its settle time. *)
Definition ens160_startup_script (a : Z) : list step :=
  [Access (writeto_mem a ENS160._REG_OPMODE [ENS160._OPMODE_RESET]);
   Wait ENS160._TIMING_RESET;
   Access (writeto_mem a ENS160._REG_OPMODE [ENS160._OPMODE_IDLE]);
   Wait ENS160._TIMING_MODE_SWITCH;
   Access (writeto_mem a ENS160._REG_TEMP_IN [0x89; 0x4A]);
   Access (writeto_mem a ENS160._REG_RH_IN [0x00; 0x64]);
   Access (writeto_mem a ENS160._REG_OPMODE [ENS160._OPMODE_STANDARD]);
   Wait ENS160._TIMING_MODE_SWITCH].

(** The identity check of the ENS160 constructor, and the constructor. *)
Definition ens160_identity_script (a : Z) : list step :=
  [Access (readfrom_mem a ENS160._REG_PART_ID 2)].

Definition ens160_init_script (a : Z) : list step :=
  ens160_identity_script a ++ ens160_startup_script a.

(** [get_firmware_version]: the [try] block and the [finally] block. *)
Definition version_script (a : Z) : list step :=
  [Access (writeto_mem a ENS160._REG_OPMODE [ENS160._OPMODE_IDLE]);
   Wait ENS160._TIMING_MODE_SWITCH;
   Access (writeto_mem a ENS160._REG_COMMAND [ENS160._CMD_GET_APPVER]);
   Wait 10;
   Access (readfrom_mem a ENS160._REG_GPR_READ 8)].

Definition restore_script (a : Z) : list step :=
  [Access (writeto_mem a ENS160._REG_OPMODE [ENS160._OPMODE_STANDARD]);
   Wait ENS160._TIMING_MODE_SWITCH].

(** The status byte is [0x00] at the first check and [0x18] at the second. *)
Definition calibrates_late_bus : bus :=
  scripted [ack; ack; Done [0x00]; ack; ack; Done [0x18]] Fail.

(** The status byte never shows the calibration bits. *)
Definition never_calibrated_bus : bus :=
  fun _ rq =>
    match rq with
    | readfrom _ 1 => Done [0x08]
    | _ => ack
    end.

(** Every check fails, and the third initialize command is refused. *)
Definition init_refused_bus : bus :=
  scripted [ack; ack; Done [0]; ack; ack; Done [0]; ack; ack; Done [0]] Fail.

(** An AHT21 at its default address. *)
Definition sensor : AHT21.t := {| AHT21._address := AHT21.AHT21_I2C_ADDR |}.

(** A frame with humidity field 0x80000 and temperature field 0x50000, with
    its checksum, and the same frame with a wrong checksum. *)
Definition good_frame : list Z := [0x1C; 0x80; 0x00; 0x05; 0x00; 0x00; 0x84].
Definition bad_frame : list Z := [0x1C; 0x80; 0x00; 0x05; 0x00; 0x00; 0x00].

(** One attempt on a sensor that is not busy: trigger, status command,
    status byte, frame. *)
Definition attempt_script (frame : list Z) : list reply :=
  [ack; ack; Done [0x1C]; Done frame].

(** The frame fails its checksum in the first two attempts and is valid in
    the third. *)
Definition crc_twice_bus : bus :=
  scripted (attempt_script bad_frame ++ attempt_script bad_frame
            ++ attempt_script good_frame) Fail.

(** A bus on which nothing answers. *)
Definition dead_bus : bus := scripted [] Fail.

(** ** ENS160 events and transports *)

(** The 6-byte burst read of [update]. *)
Definition is_burst_read (ev : event) : bool :=
  match ev with
  | Transfer (readfrom_mem _ reg 6) _ => reg =? ENS160._REG_DEVICE_STATUS
  | _ => false
  end.

(** A write of [mode] to the operating-mode register. *)
Definition is_opmode_write (mode : Z) (ev : event) : bool :=
  match ev with
  | Transfer (writeto_mem _ reg buf) _ =>
      (reg =? ENS160._REG_OPMODE) && list_eqb buf [mode]
  | _ => false
  end.

(** The newest write to register [reg] of device [a] in a log, with the
    answer of the bus. *)
Fixpoint last_write (a reg : Z) (l : list event) : option (list Z * reply) :=
  match l with
  | [] => None
  | Transfer (writeto_mem a' reg' buf) rp :: tl =>
      if (a' =? a) && (reg' =? reg) then Some (buf, rp)
      else last_write a reg tl
  | _ :: tl => last_write a reg tl
  end.

(** The newest acknowledged write to register [reg] of device [a]: what the
    register holds after the events of the log. *)
Fixpoint last_acked_write (a reg : Z) (l : list event) : option (list Z) :=
  match l with
  | [] => None
  | Transfer (writeto_mem a' reg' buf) (Done _) :: tl =>
      if (a' =? a) && (reg' =? reg) then Some buf
      else last_acked_write a reg tl
  | _ :: tl => last_acked_write a reg tl
  end.

(** A driver object as the constructor leaves it, and one with a cached
    reading. *)
Definition ens_fresh : ENS160.t :=
  {| ENS160._address := 0x53; ENS160._aqi := 0; ENS160._tvoc := 0;
     ENS160._eco2 := 400; ENS160._validity_flag := 1 |}.

Definition ens_cached : ENS160.t :=
  {| ENS160._address := 0x53; ENS160._aqi := 2; ENS160._tvoc := 300;
     ENS160._eco2 := 600; ENS160._validity_flag := 0 |}.

(** Burst data with validity Error (status 0x0E), and with validity Normal
    (status 0x02): AQI 2, TVOC 300 ppb, eCO2 600 ppm. *)
Definition burst_error : list Z := [0x0E; 0x00; 0x00; 0x00; 0x00; 0x00].
Definition burst_normal : list Z := [0x02; 0x02; 0x2C; 0x01; 0x58; 0x02].

(** The status register always shows new data; the first [n] burst reads
    report validity Error, the later ones Normal. *)
Definition error_times_bus (n : Z) : bus :=
  fun history rq =>
    match rq with
    | readfrom_mem _ _ 1 => Done [0x02]
    | readfrom_mem _ _ 6 =>
        if count is_burst_read history <? n then Done burst_error
        else Done burst_normal
    | _ => ack
    end.

(** Every burst read reports validity Error. *)
Definition always_error_bus : bus :=
  fun _ rq =>
    match rq with
    | readfrom_mem _ _ 1 => Done [0x02]
    | readfrom_mem _ _ 6 => Done burst_error
    | _ => ack
    end.

(** The status register shows no new data. *)
Definition no_new_data_bus : bus := fun _ _ => Done [0x0D].

(** Every transfer is acknowledged; the general-purpose registers hold the
    firmware version 7.3.1 and the part identifier reads 0x0160. *)
Definition healthy_bus : bus :=
  fun _ rq =>
    match rq with
    | readfrom_mem _ _ 8 => Done [0; 0; 0; 0; 7; 3; 1; 0]
    | readfrom_mem _ _ 2 => Done [0x60; 0x01]
    | readfrom_mem _ _ 6 => Done burst_normal
    | _ => Done [0x02]
    end.

(** Every transfer is acknowledged, but the part identifier reads 0x0161. *)
Definition wrong_part_bus : bus := fun _ _ => Done [0x61; 0x01].

(** The first transfer is acknowledged, every later one refused. *)
Definition dies_after_first_bus : bus := scripted [ack] Fail.

(** A program of the ENS160 driver is [steady] when it leaves the driver
    object alone, only adds events to the log, comes to an end, and raises
    nothing but [ENS160CommunicationError]. *)
Definition steady {A : Type} (m : M ENS160.t A) : Prop :=
  forall w,
    obj (snd (m w)) = obj w
    /\ (exists evs, log (snd (m w)) = evs ++ log w)
    /\ fst (m w) <> OutOfFuel
    /\ (forall e, fst (m w) = Raise e -> e = ENS160CommunicationError).

(** The outcome of a register access with its one retry, as a function of
    the answers of the bus to the request [rq]: [f] turns the bytes of an
    acknowledged transfer into the result. *)
Definition retried {A : Type} (i2c : bus) (rq : request) (f : list Z -> A)
    (w : world ENS160.t) : outcome A * world ENS160.t :=
  match i2c (log w) rq with
  | Done d =>
      let d' := as_bytes (nbytes_of rq) d in
      (Ok (f d'), World (Transfer rq (Done d') :: log w) (clock w) (obj w))
  | Fail =>
      let l1 := Sleep 10 :: Transfer rq Fail :: log w in
      match i2c l1 rq with
      | Done d =>
          let d' := as_bytes (nbytes_of rq) d in
          (Ok (f d'),
           World (Transfer rq (Done d') :: l1) (clock w + 10) (obj w))
      | Fail =>
          (Raise ENS160CommunicationError,
           World (Transfer rq Fail :: l1) (clock w + 10) (obj w))
      end
  end.

(** A transport on which the AHT21 at address [a] acknowledges every command
    and reports itself busy at every status read. *)
Definition always_busy (a : Z) (i2c : bus) : Prop :=
  forall history,
    (forall buf, i2c history (writeto a buf) <> Fail)
    /\ exists d,
         i2c history (readfrom a 1) = Done d
         /\ Z.land (getitem (as_bytes 1 d) 0) AHT21.AHT21_STATUS_BUSY <> 0.

Definition always_busy_bus : bus :=
  fun _ rq =>
    match rq with
    | readfrom _ 1 => Done [0x80]
    | _ => ack
    end.

(** ** More on the ENS160 *)

(** What a register access of the ENS160 driver does, given the request [rq]
    it sends and the function [f] from the bytes of the answer to its
    result: one acknowledged transfer; or a refused transfer, 10 ms, and an
    acknowledged one; or two refused transfers around the 10 ms and
    [ENS160CommunicationError]. The driver object is left alone. *)
Definition access_outcome {A : Type} (rq : request) (f : list Z -> A)
    (w : world ENS160.t) (res : outcome A * world ENS160.t) : Prop :=
  let '(r, w') := res in
  obj w' = obj w
  /\ ((exists d,
         length d = nbytes_of rq /\ r = Ok (f d)
         /\ log w' = Transfer rq (Done d) :: log w
         /\ clock w' = clock w)
      \/ (exists d,
            length d = nbytes_of rq /\ r = Ok (f d)
            /\ log w' = Transfer rq (Done d) :: Sleep 10
                         :: Transfer rq Fail :: log w
            /\ clock w' = clock w + 10)
      \/ (r = Raise ENS160CommunicationError
          /\ log w' = Transfer rq Fail :: Sleep 10
                       :: Transfer rq Fail :: log w
          /\ clock w' = clock w + 10)).

(** The cached reading as the constructor and [reset] set it. *)
Definition default_cache (a : Z) : ENS160.t :=
  {| ENS160._address := a; ENS160._aqi := 0; ENS160._tvoc := 0;
     ENS160._eco2 := 400; ENS160._validity_flag := 1 |}.

(** The cached fields are within what [update] can store: three bits of
    AQI, 16 bits of TVOC and of eCO2, two bits of validity. *)
Definition cache_in_range (self : ENS160.t) : Prop :=
  0 <= ENS160._aqi self <= 7
  /\ 0 <= ENS160._tvoc self < 65536
  /\ 0 <= ENS160._eco2 self < 65536
  /\ 0 <= ENS160._validity_flag self <= 3.

(** An acknowledged write of [mode] to the operating-mode register. *)
Definition is_acked_opmode_write (mode : Z) (ev : event) : bool :=
  is_opmode_write mode ev && negb (is_failed ev).

(** The settle times of a mode switch, on two neighbouring events: an
    acknowledged Reset is directly followed by the 20 ms wait, an
    acknowledged Idle or Standard by the 10 ms wait. *)
Definition settle_discipline (newer older : event) : bool :=
  implb (is_acked_opmode_write ENS160._OPMODE_RESET older)
        (is_sleep ENS160._TIMING_RESET newer)
  && implb (is_acked_opmode_write ENS160._OPMODE_IDLE older
            || is_acked_opmode_write ENS160._OPMODE_STANDARD older)
           (is_sleep ENS160._TIMING_MODE_SWITCH newer).

(** A transfer that writes to a device. *)
Definition is_write (ev : event) : bool :=
  match ev with
  | Transfer (writeto _ _) _ | Transfer (writeto_mem _ _ _) _ => true
  | _ => false
  end.

(** An acknowledged read of the part identifier of device [a] that gave
    0x0160. *)
Definition is_part_id_ok (a : Z) (ev : event) : bool :=
  match ev with
  | Transfer (readfrom_mem a' reg 2) (Done b) =>
      (a' =? a) && (reg =? ENS160._REG_PART_ID) && (unpack_H b =? 0x0160)
  | _ => false
  end.

(** Every write of the newest-first log [l] comes after an acknowledged
    read of the part identifier of device [a] that gave 0x0160. *)
Fixpoint verified_before_write (a : Z) (l : list event) : bool :=
  match l with
  | [] => true
  | ev :: older =>
      (negb (is_write ev) || existsb (is_part_id_ok a) older)
      && verified_before_write a older
  end.

(** The cached reading that [update] stores from the six bytes of a burst
    read. *)
Definition decode_burst (a : Z) (data : list Z) : ENS160.t :=
  {| ENS160._address := a;
     ENS160._aqi := Z.land (getitem data 1) 0x07;
     ENS160._tvoc := unpack_H (firstn 2 (skipn 2 data));
     ENS160._eco2 := unpack_H (firstn 2 (skipn 4 data));
     ENS160._validity_flag := Z.land (Z.shiftr (getitem data 0) 2) 0x03 |}.

(** ** The Standard Library's IEEE 754 arithmetic, to compare with *)

(** A float of [SpecFloat] as a float of this model. *)
Definition SF2Q (f : spec_float) : pyfloat :=
  match f with
  | S754_zero _ => Finite 0
  | S754_finite s m e =>
      Finite (Qred ((if s then -1 else 1) * inject_Z (Z.pos m) * pow2 e))
  | S754_infinity s => Inf s
  | S754_nan => Nan
  end.

Definition sf_of_Z (fmt : float_format) (n : Z) : spec_float :=
  binary_normalize (prec fmt) (emax fmt) n 0 false.

(** The float nearest to [num / den], for integers that are floats. *)
Definition sf_literal (fmt : float_format) (num : Z) (den : positive)
    : spec_float :=
  SFdiv (prec fmt) (emax fmt) (sf_of_Z fmt num) (sf_of_Z fmt (Z.pos den)).

(** [(c + 273.15) * 64] in [SpecFloat]. *)
Definition sf_temp (fmt : float_format) (c : spec_float) : spec_float :=
  SFmul (prec fmt) (emax fmt)
    (SFadd (prec fmt) (emax fmt) c (sf_literal fmt 27315 100))
    (sf_of_Z fmt 64).

(** Equality of floats as values. *)
Definition pyfloat_eqb (a b : pyfloat) : bool :=
  match a, b with
  | Nan, Nan => true
  | Inf s, Inf s' => Bool.eqb s s'
  | Finite x, Finite y => Qeq_bool x y
  | _, _ => false
  end.

(** [h * 512] in [SpecFloat]. *)
Definition sf_rh (fmt : float_format) (h : spec_float) : spec_float :=
  SFmul (prec fmt) (emax fmt) h (sf_of_Z fmt 512).

(** Some floats to compare: not-a-number, the infinities, zero, the bounds
    of the clipping and numbers around them. *)
Definition sf_samples (fmt : float_format) : list spec_float :=
  [S754_nan; S754_infinity true; S754_infinity false; S754_zero false]
  ++ map (fun n => sf_literal fmt n 10)
       [-1000; -401; -400; -399; -1; 1; 250; 849; 850; 851; 999; 1000; 1001].

(** * Properties of the CRC *)

Section CRC.

Import AHT21.

Lemma testbit_255 (i : Z) : 0 <= i -> Z.testbit 255 i = (i <? 8).
Proof.
  intros Hi. change 255 with (Z.ones 8).
  apply Z.testbit_ones_nonneg; lia.
Qed.

Lemma land_0x80 (c : Z) : (Z.land c 0x80 =? 0) = negb (Z.testbit c 7).
Proof.
  destruct (Z.testbit c 7) eqn:Hb; cbn [negb].
  - apply Z.eqb_neq. intros H0.
    assert (Hc : Z.testbit (Z.land c 0x80) 7 = true).
    { rewrite Z.land_spec, Hb. reflexivity. }
    rewrite H0 in Hc. discriminate Hc.
  - apply Z.eqb_eq. apply Z.bits_inj'. intros i Hi.
    rewrite Z.land_spec, Z.bits_0.
    change 0x80 with (2 ^ 7). rewrite Z.pow2_bits_eqb by lia.
    destruct (Z.eqb_spec 7 i) as [<- | _].
    + rewrite Hb. reflexivity.
    + apply andb_false_r.
Qed.

Lemma crc_shift_reg8 (c : Z) :
  Z.land (crc_shift c) 0xFF = reg8_shift AHT21_CRC_POLYNOMIAL c.
Proof.
  unfold crc_shift, reg8_shift. rewrite land_0x80.
  destruct (Z.testbit c 7); reflexivity.
Qed.

(** A shift of the register sees the low 8 bits of its input only. *)
Lemma reg8_shift_low (poly c : Z) :
  reg8_shift poly (Z.land c 0xFF) = reg8_shift poly c.
Proof.
  unfold reg8_shift.
  assert (H7 : Z.testbit (Z.land c 0xFF) 7 = Z.testbit c 7).
  { rewrite Z.land_spec. apply andb_true_r. }
  rewrite H7.
  assert (Hs : forall i, 0 <= i ->
            (Z.testbit (Z.shiftl (Z.land c 0xFF) 1) i && Z.testbit 255 i
             = Z.testbit (Z.shiftl c 1) i && Z.testbit 255 i)%bool).
  { intros i Hi. rewrite testbit_255 by lia.
    destruct (Z.ltb_spec i 8); [ | now rewrite !andb_false_r ].
    rewrite !andb_true_r, !Z.shiftl_spec by lia.
    destruct (Z.eq_dec i 0) as [-> | Hn].
    - reflexivity.
    - rewrite Z.land_spec, testbit_255 by lia.
      destruct (Z.ltb_spec (i - 1) 8); [ apply andb_true_r | lia ]. }
  destruct (Z.testbit c 7); apply Z.bits_inj'; intros i Hi;
    rewrite ?Z.land_spec, ?Z.lxor_spec.
  - specialize (Hs i Hi). revert Hs.
    destruct (Z.testbit (Z.shiftl (Z.land c 255) 1) i),
             (Z.testbit (Z.shiftl c 1) i), (Z.testbit 255 i),
             (Z.testbit poly i); cbn; congruence.
  - apply Hs, Hi.
Qed.

Lemma reg8_shifts_low (poly : Z) (n : nat) (c : Z) :
  Z.land (reg8_shifts poly n (Z.land c 0xFF)) 0xFF
  = Z.land (reg8_shifts poly n c) 0xFF.
Proof.
  destruct n as [ | n]; cbn [reg8_shifts].
  - rewrite <- Z.land_assoc. reflexivity.
  - rewrite reg8_shift_low. reflexivity.
Qed.

Lemma crc_shifts_reg8 (n : nat) (c : Z) :
  Z.land (crc_shifts n c) 0xFF
  = Z.land (reg8_shifts AHT21_CRC_POLYNOMIAL n c) 0xFF.
Proof.
  revert c. induction n as [ | n IH]; intros c; cbn [crc_shifts reg8_shifts].
  - reflexivity.
  - rewrite IH, <- crc_shift_reg8. apply eq_sym, reg8_shifts_low.
Qed.

Lemma crc_byte_range (crc byte : Z) : 0 <= crc_byte crc byte < 256.
Proof.
  unfold crc_byte. change 0xFF with (Z.ones 8). rewrite Z.land_ones by lia.
  change (2 ^ 8) with 256. apply Z.mod_pos_bound. lia.
Qed.

Lemma fold_crc_range (l : list Z) (acc : Z) :
  0 <= acc < 256 -> 0 <= fold_left crc_byte l acc < 256.
Proof.
  revert acc. induction l as [ | b l IH]; intros acc Hacc; cbn [fold_left].
  - exact Hacc.
  - apply IH, crc_byte_range.
Qed.

Lemma calculate_crc8_range (data : list Z) :
  0 <= _calculate_crc8 data < 256.
Proof.
  unfold _calculate_crc8. apply fold_crc_range.
  unfold AHT21_CRC_INIT. lia.
Qed.

Lemma fold_crc_reference (l : list Z) (acc : Z) :
  fold_left crc_byte l acc
  = fold_left
      (fun r byte =>
         Z.land (reg8_shifts AHT21_CRC_POLYNOMIAL 8 (Z.lxor r byte)) 0xFF)
      l acc.
Proof.
  revert acc. induction l as [ | b l IH]; intros acc; cbn [fold_left].
  - reflexivity.
  - rewrite <- crc_shifts_reg8. apply IH.
Qed.

Lemma calculate_crc8_firstn (data : list Z) :
  _calculate_crc8 (firstn 6 data) = _calculate_crc8 data.
Proof. unfold _calculate_crc8. rewrite firstn_firstn. reflexivity. Qed.

(** C5. [_calculate_crc8] is a function of its argument alone (it takes no
    world and returns none); its result is the reference CRC-8 with
    polynomial 0x31 and initial value 0xFF of the specification, lies in
    [0, 256), and is the same for two inputs that agree on their first six
    bytes: bytes past the sixth never change it. *)
Theorem calculate_crc8_is_reference_crc (data : list Z) :
  _calculate_crc8 data = crc8_reference 0x31 0xFF data
  /\ 0 <= _calculate_crc8 data < 256
  /\ _calculate_crc8 data = _calculate_crc8 (firstn 6 data)
  /\ (forall b0 b1 b2 b3 b4 b5 rest rest',
        _calculate_crc8 (b0 :: b1 :: b2 :: b3 :: b4 :: b5 :: rest)
        = _calculate_crc8 (b0 :: b1 :: b2 :: b3 :: b4 :: b5 :: rest')).
Proof.
  split; [ | split; [ | split ] ].
  - apply fold_crc_reference.
  - apply calculate_crc8_range.
  - apply eq_sym, calculate_crc8_firstn.
  - intros. unfold _calculate_crc8. cbn [firstn]. reflexivity.
Qed.

(** The check value published for this CRC (polynomial 0x31, initial value
    0xFF): the bytes 0xBE 0xEF have checksum 0x92. *)
Example calculate_crc8_test_vector : _calculate_crc8 [0xBE; 0xEF] = 0x92.
Proof. reflexivity. Qed.

End CRC.


(** * Event logs *)

Section Logs.

Lemma count_cons (p : event -> bool) (x : event) (l : list event) :
  count p (x :: l) = (if p x then 1 else 0) + count p l.
Proof.
  unfold count. cbn [filter]. destruct (p x); cbn [length]; lia.
Qed.

Lemma count_app (p : event -> bool) (a b : list event) :
  count p (a ++ b) = count p a + count p b.
Proof.
  unfold count. rewrite filter_app, length_app. lia.
Qed.

Lemma count_nonneg (p : event -> bool) (l : list event) : 0 <= count p l.
Proof. unfold count. lia. Qed.

Lemma count_none (p q : event -> bool) (l : list event) :
  (forall ev, q ev = true -> p ev = false) ->
  forallb q l = true -> count p l = 0.
Proof.
  intros Hpq. induction l as [ | x l IH]; cbn [forallb]; intros H.
  - reflexivity.
  - apply andb_prop in H as [Hx Hl]. rewrite count_cons, (Hpq x Hx), IH; auto.
Qed.

Lemma adjacent_app (R : event -> event -> bool) (a : list event)
    (x y : event) (b : list event) :
  adjacent R ((a ++ [x]) ++ y :: b)
  = adjacent R (a ++ [x]) && R x y && adjacent R (y :: b).
Proof.
  induction a as [ | z a IH].
  - cbn. destruct (R x y); reflexivity.
  - destruct a as [ | z' a].
    + cbn in *. destruct (R z x), (R x y); reflexivity.
    + change (adjacent R (((z :: z' :: a) ++ [x]) ++ y :: b))
        with (R z z' && adjacent R (((z' :: a) ++ [x]) ++ y :: b)).
      change (adjacent R ((z :: z' :: a) ++ [x]))
        with (R z z' && adjacent R ((z' :: a) ++ [x])).
      rewrite IH. now rewrite !andb_assoc.
Qed.

Lemma plain_not_trigger (a : Z) (ev : event) :
  plain a ev = true -> is_trigger a ev = false.
Proof.
  unfold plain. intros H. apply andb_prop in H as [H _].
  now apply negb_true_iff in H.
Qed.

Lemma plain_not_delay (a : Z) (ev : event) :
  plain a ev = true -> is_retry_delay ev = false.
Proof.
  unfold plain. intros H. apply andb_prop in H as [_ H].
  now apply negb_true_iff in H.
Qed.

(** A run of plain events after a first event that is no delay keeps the
    retry discipline. *)
Lemma adjacent_plain (a : Z) (l : list event) (y : event) :
  forallb (plain a) l = true -> is_retry_delay y = false ->
  adjacent (retry_discipline a) (l ++ [y]) = true.
Proof.
  intros Hl Hy. induction l as [ | x l IH].
  - reflexivity.
  - cbn [forallb] in Hl. apply andb_prop in Hl as [Hx Hl].
    specialize (IH Hl).
    assert (Hh : forall h, is_retry_delay h = false ->
                           retry_discipline a x h = true).
    { intros h Hh. unfold retry_discipline.
      rewrite (plain_not_delay _ _ Hx), (plain_not_trigger _ _ Hx), Hh.
      reflexivity. }
    destruct l as [ | x' l].
    + cbn. now rewrite Hh.
    + change (adjacent (retry_discipline a) ((x :: x' :: l) ++ [y]))
        with (retry_discipline a x x'
              && adjacent (retry_discipline a) ((x' :: l) ++ [y])).
      rewrite IH, Hh; [ reflexivity | ].
      cbn [forallb] in Hl. apply andb_prop in Hl as [Hx' _].
      exact (plain_not_delay _ _ Hx').
Qed.

Lemma as_bytes_length (n : nat) (data : list Z) :
  length (as_bytes n data) = n.
Proof.
  unfold as_bytes. rewrite length_map, length_firstn, length_app, repeat_length.
  lia.
Qed.

Lemma as_bytes_range (n : nat) (data : list Z) :
  Forall (fun b => 0 <= b < 256) (as_bytes n data).
Proof.
  unfold as_bytes. apply Forall_map, Forall_forall. intros b _.
  apply Z.mod_pos_bound. lia.
Qed.

Lemma as_bytes_1 (data : list Z) :
  exists s, as_bytes 1 data = [s] /\ 0 <= s < 256.
Proof.
  pose proof (as_bytes_length 1 data) as Hl.
  pose proof (as_bytes_range 1 data) as Hr.
  destruct (as_bytes 1 data) as [ | s [ | ? ?]]; try discriminate Hl.
  exists s. split; [ reflexivity | ]. now inversion Hr.
Qed.

End Logs.

(** * Runs of a script *)

Section Runs.

Lemma list_eqb_refl (l : list Z) : list_eqb l l = true.
Proof.
  induction l as [ | x l IH]; [ reflexivity | ].
  cbn [list_eqb]. now rewrite Z.eqb_refl, IH.
Qed.

Lemma request_eqb_refl (rq : request) : request_eqb rq rq = true.
Proof.
  destruct rq; cbn [request_eqb];
    now rewrite ?Z.eqb_refl, ?list_eqb_refl, ?Nat.eqb_refl.
Qed.

Lemma run_of_wait (retry : bool) (ms : Z) (rest : list step)
    (tl : list event) :
  run_of retry (Wait ms :: rest) (Sleep ms :: tl) = run_of retry rest tl.
Proof. cbn [run_of]. now rewrite Z.eqb_refl. Qed.

Lemma run_of_ack (retry : bool) (rq : request) (d : list Z)
    (rest : list step) (tl : list event) :
  run_of retry (Access rq :: rest) (Transfer rq (Done d) :: tl)
  = run_of retry rest tl.
Proof. cbn [run_of]. now rewrite request_eqb_refl. Qed.

Lemma run_of_retry_ack (rq : request) (d : list Z) (rest : list step)
    (tl : list event) :
  run_of true (Access rq :: rest)
    (Transfer rq Fail :: Sleep 10 :: Transfer rq (Done d) :: tl)
  = run_of true rest tl.
Proof. cbn [run_of]. now rewrite request_eqb_refl. Qed.

Lemma run_of_refused (rq : request) (rest : list step) :
  run_of true (Access rq :: rest)
    [Transfer rq Fail; Sleep 10; Transfer rq Fail]
  = Some Aborted.
Proof. cbn [run_of]. now rewrite request_eqb_refl. Qed.

Lemma run_of_fail (rq : request) (rest : list step) :
  run_of false (Access rq :: rest) [Transfer rq Fail] = Some Aborted.
Proof. cbn [run_of]. now rewrite request_eqb_refl. Qed.

(** A completed run of a script, followed by a run of a second script, is
    a run of the two scripts one after the other. *)
Lemma run_of_app (retry : bool) (s1 s2 : list step) (e1 e2 : list event) :
  run_of retry s1 e1 = Some Completed ->
  run_of retry (s1 ++ s2) (e1 ++ e2) = run_of retry s2 e2.
Proof.
  revert e1. induction s1 as [ | [rq | ms] rest IH]; intros e1 H.
  - destruct e1; [ reflexivity | discriminate H ].
  - cbn [run_of app] in *.
    destruct e1 as [ | [rq1 [d | ] | ms1] tl]; try discriminate H;
      cbn [app].
    + destruct (request_eqb rq1 rq); [ now apply IH | discriminate H ].
    + destruct (request_eqb rq1 rq); [ | discriminate H ].
      destruct retry.
      * destruct tl as [ | [ | ms] [ | [rq2 rp | ] tl']];
          try discriminate H; cbn [app].
        destruct ((ms =? 10) && request_eqb rq2 rq); [ | discriminate H ].
        destruct rp as [d | ]; [ now apply IH | ].
        destruct tl'; discriminate H.
      * destruct tl; discriminate H.
  - cbn [run_of app] in *.
    destruct e1 as [ | [rq1 rp | ms1] tl]; try discriminate H; cbn [app].
    destruct (ms1 =? ms); [ now apply IH | discriminate H ].
Qed.

(** A run that ends at a refused access is a run of every script that
    goes on after it. *)
Lemma run_of_aborted (retry : bool) (s1 s2 : list step) (e1 : list event) :
  run_of retry s1 e1 = Some Aborted ->
  run_of retry (s1 ++ s2) e1 = Some Aborted.
Proof.
  revert e1. induction s1 as [ | [rq | ms] rest IH]; intros e1 H.
  - destruct e1; discriminate H.
  - cbn [run_of app] in *.
    destruct e1 as [ | [rq1 [d | ] | ms1] tl]; try discriminate H.
    + destruct (request_eqb rq1 rq); [ now apply IH | discriminate H ].
    + destruct (request_eqb rq1 rq); [ | discriminate H ].
      destruct retry.
      * destruct tl as [ | [ | ms] [ | [rq2 rp | ] tl']];
          try discriminate H.
        destruct ((ms =? 10) && request_eqb rq2 rq); [ | discriminate H ].
        destruct rp as [d | ]; [ now apply IH | exact H ].
      * exact H.
  - cbn [run_of app] in *.
    destruct e1 as [ | [rq1 rp | ms1] tl]; try discriminate H.
    destruct (ms1 =? ms); [ now apply IH | discriminate H ].
Qed.

End Runs.

(** * AHT21: one measurement attempt *)

Section AHT21Attempt.

Import AHT21.

Variable i2c : bus.
Context {Ob : Type}.
Variable self : AHT21.t.

Lemma failed_transfer_is_failed (ev : event) :
  failed_transfer ev -> is_failed ev = true.
Proof. intros [rq ->]. reflexivity. Qed.

Lemma read_status_spec (w : world Ob) :
  let '(r, w') := _read_status i2c self w in
  exists evs,
    log w' = evs ++ log w /\ clock w' = clock w /\ obj w' = obj w
    /\ forallb (plain (_address self)) evs = true
    /\ all_acked (tl evs) = true
    /\ match r with
       | Ok s =>
           0 <= s < 256
           /\ exists older, evs = Transfer (readfrom (_address self) 1) (Done [s]) :: older
       | Raise e =>
           e = OSError /\ exists ev older, evs = ev :: older /\ failed_transfer ev
       | OutOfFuel => False
       end.
Proof.
  unfold _read_status, bind, transfer, ret.
  destruct (i2c (log w) (writeto (_address self) [AHT21_CMD_STATUS])) as [d0 | ] eqn:E0;
    cbn [log clock obj].
  - destruct (i2c _ (readfrom (_address self) 1)) as [d1 | ] eqn:E1; cbn [log clock obj].
    + destruct (as_bytes_1 d1) as (s & Hs & Hr). cbn [nbytes_of]. rewrite Hs.
      eexists [_; _]. repeat split; try reflexivity; try apply Hr.
      now eexists.
    + eexists [_; _]. repeat split; try reflexivity.
      do 2 eexists. split; [ reflexivity | now eexists ].
  - eexists [_]. repeat split; try reflexivity.
    do 2 eexists. split; [ reflexivity | now eexists ].
Qed.

Lemma is_busy_spec (w : world Ob) :
  let '(r, w') := _is_busy i2c self w in
  exists evs,
    log w' = evs ++ log w /\ clock w' = clock w /\ obj w' = obj w
    /\ forallb (plain (_address self)) evs = true
    /\ all_acked (tl evs) = true
    /\ match r with
       | Ok b =>
           exists ev older,
             evs = ev :: older /\ is_busy_status ev = b
             /\ is_failed ev = false /\ plain (_address self) ev = true
       | Raise e =>
           e = OSError /\ exists ev older, evs = ev :: older /\ failed_transfer ev
       | OutOfFuel => False
       end.
Proof.
  unfold _is_busy, bind, ret.
  pose proof (read_status_spec w) as H.
  destruct (_read_status i2c self w) as [[s | e | ] w1]; [ | exact H | exact H ].
  destruct H as (evs & Hlog & Hclk & Hobj & Hplain & Hack & Hs & older & ->).
  exists (Transfer (readfrom (_address self) 1) (Done [s]) :: older).
  repeat split; try assumption.
  do 2 eexists. repeat split.
Qed.

(** The polling loop ends within [poll_fuel] passes: each pass that finds the
    sensor busy either times out or sleeps 5 ms. *)
Lemma busy_loop_spec (start_time : Z) (fuel : nat) (w : world Ob) :
  (0 < fuel)%nat ->
  clock w - start_time + 5 * Z.of_nat fuel > AHT21_BUSY_TIMEOUT + 5 ->
  let '(r, w') := busy_loop i2c self start_time fuel w in
  exists ev older,
    log w' = (ev :: older) ++ log w /\ obj w' = obj w
    /\ forallb (plain (_address self)) (ev :: older) = true
    /\ all_acked older = true
    /\ match r with
       | Ok _ => is_busy_status ev = false /\ is_failed ev = false
       | Raise e =>
           (e = AHT21TimeoutError /\ is_busy_status ev = true)
           \/ (e = OSError /\ failed_transfer ev)
       | OutOfFuel => False
       end.
Proof.
  revert w. induction fuel as [ | fuel IH]; intros w Hpos Hfuel.
  - inversion Hpos.
  - cbn [busy_loop]. unfold bind at 1.
    pose proof (is_busy_spec w) as H.
    destruct (_is_busy i2c self w) as [[b | e | ] w1].
    + destruct H as (evs & Hlog & Hclk & Hobj & Hplain & Hack
                     & ev & older & -> & Hb & Hf & Hp).
      destruct b.
      * unfold bind at 1, ticks_ms at 1, ticks_diff.
        destruct (clock w1 - start_time >? AHT21_BUSY_TIMEOUT) eqn:Ht.
        -- exists ev, older. unfold raise. repeat split; auto.
        -- unfold bind at 1, sleep_ms at 1.
           set (w2 := World (Sleep 5 :: log w1) (clock w1 + 5) (obj w1)).
           specialize (IH w2).
           destruct (busy_loop i2c self start_time fuel w2) as [r w3].
           rewrite Z.gtb_ltb in Ht. apply Z.ltb_ge in Ht.
           destruct IH as (ev' & older' & Hlog' & Hobj' & Hplain' & Hack' & Hr).
           { lia. }
           { subst w2. cbn [clock]. rewrite Hclk. lia. }
           exists ev', (older' ++ Sleep 5 :: ev :: older).
           subst w2. cbn [log obj] in *. rewrite Hlog', Hlog.
           split; [ cbn [app]; rewrite <- app_assoc; reflexivity | ].
           split; [ congruence | ].
           split.
           { change (ev' :: older' ++ Sleep 5 :: ev :: older)
               with ((ev' :: older') ++ Sleep 5 :: ev :: older).
             rewrite forallb_app, Hplain'. cbn [forallb andb].
             exact Hplain. }
           split; [ | exact Hr ].
           unfold all_acked in *. rewrite forallb_app, Hack'.
           cbn [forallb]. cbn [tl] in Hack. rewrite Hack, Hf. reflexivity.
      * exists ev, older. repeat split; auto.
    + destruct H as (evs & Hlog & Hclk & Hobj & Hplain & Hack
                     & -> & ev & older & -> & Hf).
      exists ev, older. repeat split; auto.
    + destruct H as (evs & _ & _ & _ & _ & _ & []).
Qed.

Lemma poll_fuel_enough (c : Z) :
  (0 < poll_fuel)%nat
  /\ c - c + 5 * Z.of_nat poll_fuel > AHT21_BUSY_TIMEOUT + 5.
Proof.
  change poll_fuel with 32%nat. unfold AHT21_BUSY_TIMEOUT. lia.
Qed.

Lemma trigger_is_trigger (rp : reply) :
  is_trigger (_address self)
    (Transfer (writeto (_address self) [AHT21_CMD_TRIGGER; 0x33; 0x00]) rp)
  = true.
Proof. unfold is_trigger, is_writeto. cbn. apply Z.eqb_refl. Qed.

(** One attempt: its first event is the trigger command, the rest is plain,
    a transfer fails at most as the last thing that happens, and the newest
    event tells the outcome. *)
Lemma measure_spec (w : world Ob) :
  let '(r, w') := measure i2c self w in
  exists rest rp,
    let trig :=
      Transfer (writeto (_address self) [AHT21_CMD_TRIGGER; 0x33; 0x00]) rp in
    log w' = (rest ++ [trig]) ++ log w /\ obj w' = obj w
    /\ forallb (plain (_address self)) rest = true
    /\ all_acked (tl (rest ++ [trig])) = true
    /\ exists ev older,
         rest ++ [trig] = ev :: older
         /\ match r with
            | Ok v => frame_accepted (_address self) ev older v
            | Raise e => attempt_failed e ev
            | OutOfFuel => False
            end.
Proof.
  unfold measure, frame_accepted, attempt_failed.
  unfold bind at 1, transfer at 1.
  destruct (i2c (log w) _) as [d0 | ]; cbn [nbytes_of].
  2:{ exists [], Fail. cbn [app log obj tl]. repeat split.
      do 2 eexists. split; [ reflexivity | ].
      right; right. split; [ reflexivity | now eexists ]. }
  unfold bind at 1, sleep_ms at 1. unfold bind at 1, ticks_ms at 1.
  cbn [log clock obj]. unfold bind at 1.
  set (trig := Transfer _ (Done (as_bytes 0 d0))).
  set (w1 := World (Sleep AHT21_MEASUREMENT_DELAY :: trig :: log w) _ _).
  change (clock w + AHT21_MEASUREMENT_DELAY) with (clock w1).
  destruct (poll_fuel_enough (clock w1)) as [Hpos Hfuel].
  pose proof (busy_loop_spec (clock w1) poll_fuel w1 Hpos Hfuel) as H.
  destruct (busy_loop i2c self (clock w1) poll_fuel w1) as [[[] | e | ] w2].
  - destruct H as (st & older & Hlog & Hobj & Hplain & Hack & Hbusy & Hfail).
    unfold bind at 1, transfer at 1. cbv beta.
    destruct (i2c (log w2) (readfrom (_address self) 7)) as [d1 | ];
      cbn [nbytes_of].
    + set (frame := as_bytes 7 d1).
      destruct (_calculate_crc8 (firstn 6 frame) =? getitem frame 6) eqn:Hcrc;
        cbn [negb]; unfold raise, ret; cbv beta iota;
        exists (Transfer (readfrom (_address self) 7) (Done frame)
                :: (st :: older) ++ [Sleep AHT21_MEASUREMENT_DELAY]),
               (Done (as_bytes 0 d0));
        cbn [log obj]; rewrite Hlog; subst w1; cbn [log obj].
      * split; [ cbn [app]; rewrite <- !app_assoc; reflexivity | ].
        split; [ exact Hobj | ].
        split; [ cbn [forallb]; rewrite forallb_app, Hplain; reflexivity | ].
        split.
        { cbn [app tl]. unfold all_acked in *. cbn [forallb].
          rewrite Hfail, !forallb_app, Hack. reflexivity. }
        do 2 eexists. split; [ reflexivity | ].
        exists frame. split; [ reflexivity | ].
        split; [ apply as_bytes_length | ].
        split; [ apply as_bytes_range | ].
        split; [ cbn [is_crc_mismatch]; rewrite Hcrc; reflexivity | ].
        split; [ | reflexivity ].
        do 2 eexists. split; [ reflexivity | now split ].
      * split; [ cbn [app]; rewrite <- !app_assoc; reflexivity | ].
        split; [ exact Hobj | ].
        split; [ cbn [forallb]; rewrite forallb_app, Hplain; reflexivity | ].
        split.
        { cbn [app tl]. unfold all_acked in *. cbn [forallb].
          rewrite Hfail, !forallb_app, Hack. reflexivity. }
        do 2 eexists. split; [ reflexivity | ].
        left. split; [ reflexivity | ].
        cbn [is_crc_mismatch]. rewrite Hcrc. reflexivity.
    + exists (Transfer (readfrom (_address self) 7) Fail
              :: (st :: older) ++ [Sleep AHT21_MEASUREMENT_DELAY]),
             (Done (as_bytes 0 d0)).
      cbn [log obj]. rewrite Hlog. subst w1. cbn [log obj].
      split; [ cbn [app]; rewrite <- !app_assoc; reflexivity | ].
      split; [ exact Hobj | ].
      split; [ cbn [forallb]; rewrite forallb_app, Hplain; reflexivity | ].
      split.
      { cbn [app tl]. unfold all_acked in *. cbn [forallb].
        rewrite Hfail, !forallb_app, Hack. reflexivity. }
      do 2 eexists. split; [ reflexivity | ].
      right; right. split; [ reflexivity | now eexists ].
  - destruct H as (st & older & Hlog & Hobj & Hplain & Hack & Hr).
    exists ((st :: older) ++ [Sleep AHT21_MEASUREMENT_DELAY]),
           (Done (as_bytes 0 d0)).
    rewrite Hlog. subst w1. cbn [log obj] in *.
    split; [ cbn [app]; rewrite <- !app_assoc; reflexivity | ].
    split; [ exact Hobj | ].
    split; [ rewrite forallb_app, Hplain; reflexivity | ].
    split.
    { cbn [app tl]. unfold all_acked in *.
      rewrite !forallb_app, Hack. reflexivity. }
    do 2 eexists. split; [ reflexivity | ].
    destruct Hr as [[-> Hb] | [-> Hf]]; [ right; left | right; right ];
      now split.
  - destruct H as (? & ? & _ & _ & _ & _ & []).
Qed.

Lemma retryable_not_delay (ev : event) :
  retryable_failure ev = true -> is_retry_delay ev = false.
Proof. destruct ev as [rq rp | ms]; [ reflexivity | discriminate ]. Qed.

Lemma attempt_failed_retryable (e : exn) (ev : event) :
  attempt_failed e ev -> crc_or_timeout e = true ->
  retryable_failure ev = true.
Proof.
  unfold retryable_failure.
  intros [[-> H] | [[-> H] | [-> _]]] He; try discriminate He; rewrite H.
  - reflexivity.
  - apply orb_true_r.
Qed.

Lemma retryable_not_failed (ev : event) :
  retryable_failure ev = true -> is_failed ev = false.
Proof.
  destruct ev as [rq [d | ] | ms]; try reflexivity.
  destruct rq as [? ? | ? [ | [ | [ | [ | [ | [ | [ | [ | n]]]]]]]] | ? ? ? | ? ? ?];
    discriminate.
Qed.

Lemma frame_accepted_app (ev : event) (older more : list event) (v : Q * Q) :
  frame_accepted (_address self) ev older v ->
  frame_accepted (_address self) ev (older ++ more) v.
Proof.
  intros (frame & H1 & H2 & H3 & H4 & (st & older' & -> & H5) & H6).
  exists frame. repeat split; try assumption.
  exists st, (older' ++ more). split; [ reflexivity | exact H5 ].
Qed.

Lemma trigger_not_delay (rp : reply) :
  is_retry_delay
    (Transfer (writeto (_address self) [AHT21_CMD_TRIGGER; 0x33; 0x00]) rp)
  = false.
Proof. reflexivity. Qed.

(** The events of one attempt: exactly one trigger, no 50 ms delay, and the
    retry discipline holds among them. *)
Lemma attempt_events (rest : list event) (rp : reply) :
  forallb (plain (_address self)) rest = true ->
  let trig :=
    Transfer (writeto (_address self) [AHT21_CMD_TRIGGER; 0x33; 0x00]) rp in
  count (is_trigger (_address self)) (rest ++ [trig]) = 1
  /\ count is_retry_delay (rest ++ [trig]) = 0
  /\ adjacent (retry_discipline (_address self)) (rest ++ [trig]) = true.
Proof.
  intros Hplain trig. rewrite !count_app, !count_cons.
  rewrite (count_none _ _ rest (plain_not_trigger (_address self)) Hplain).
  rewrite (count_none _ _ rest (plain_not_delay (_address self)) Hplain).
  subst trig. rewrite trigger_is_trigger, trigger_not_delay.
  repeat split. apply adjacent_plain; [ exact Hplain | reflexivity ].
Qed.

(** The retry loop with [n] passes left, the last of them being pass
    [retries - 1]. *)
Lemma retry_loop_spec (retries : Z) (n : nat) :
  forall (attempt : Z) (w : world Ob),
    (0 < n)%nat -> attempt + Z.of_nat n = retries ->
    let '(r, w') := retry_loop i2c self retries attempt n w in
    exists evs rp,
      let all :=
        evs ++ [Transfer
                  (writeto (_address self) [AHT21_CMD_TRIGGER; 0x33; 0x00])
                  rp] in
      log w' = all ++ log w /\ obj w' = obj w
      /\ adjacent (retry_discipline (_address self)) all = true
      /\ 1 <= count (is_trigger (_address self)) all <= Z.of_nat n
      /\ count is_retry_delay all
         = count (is_trigger (_address self)) all - 1
      /\ all_acked (tl all) = true
      /\ exists ev older,
           all = ev :: older
           /\ match r with
              | Ok (Some v) => frame_accepted (_address self) ev older v
              | Ok None => False
              | Raise e =>
                  attempt_failed e ev
                  /\ (crc_or_timeout e = true ->
                      count (is_trigger (_address self)) all = Z.of_nat n)
              | OutOfFuel => False
              end.
Proof.
  induction n as [ | n IH]; intros attempt w Hpos Hn; [ inversion Hpos | ].
  cbn [retry_loop]. unfold bind at 1, try_except at 1. unfold bind at 1.
  pose proof (measure_spec w) as H.
  destruct (measure i2c self w) as [[v | e | ] w1].
  - (* the attempt returned *)
    destruct H as (rest & rp & Hlog & Hobj & Hplain & Hack & ev & older & Hev & Hv).
    destruct (attempt_events rest rp Hplain) as (Ht & Hd & Hadj).
    unfold ret. exists rest, rp. cbv zeta.
    rewrite Ht, Hd. repeat split; try assumption; try lia.
    exists ev, older. split; assumption.
  - (* the attempt raised *)
    destruct H as (rest & rp & Hlog & Hobj & Hplain & Hack & ev & older & Hev & He).
    destruct (attempt_events rest rp Hplain) as (Ht & Hd & Hadj).
    destruct (crc_or_timeout e) eqn:Hce.
    + destruct (attempt =? retries - 1) eqn:Hlast.
      * (* last pass: the failure is raised *)
        apply Z.eqb_eq in Hlast. unfold raise.
        exists rest, rp. cbv zeta.
        rewrite Ht, Hd. repeat split; try assumption; try lia.
        exists ev, older. repeat split; try assumption. lia.
      * (* 50 ms, then the next pass *)
        apply Z.eqb_neq in Hlast.
        unfold bind at 1, sleep_ms at 1, ret at 1. cbv beta iota.
        set (w2 := World (Sleep 50 :: log w1) (clock w1 + 50) (obj w1)).
        specialize (IH (attempt + 1) w2).
        destruct (retry_loop i2c self retries (attempt + 1) n w2) as [r w3].
        destruct IH as (evs' & rp' & Hlog' & Hobj' & Hadj' & Ht' & Hd' & Hack'
                        & ev' & older' & Hev' & Hr); [ lia | lia | ].
        set (trig := Transfer (writeto (_address self)
                                 [AHT21_CMD_TRIGGER; 0x33; 0x00]) rp) in *.
        set (trig' := Transfer (writeto (_address self)
                                  [AHT21_CMD_TRIGGER; 0x33; 0x00]) rp') in *.
        exists ((evs' ++ [trig']) ++ Sleep 50 :: rest), rp. cbv zeta.
        fold trig.
        assert (Hall : ((evs' ++ [trig']) ++ Sleep 50 :: rest) ++ [trig]
                       = (evs' ++ [trig']) ++ Sleep 50 :: (rest ++ [trig])).
        { rewrite <- (app_assoc (evs' ++ [trig'])). reflexivity. }
        rewrite Hall.
        assert (Hret : retryable_failure ev = true)
          by (eapply attempt_failed_retryable; eassumption).
        split.
        { rewrite Hlog'. subst w2. cbn [log]. rewrite Hlog.
          rewrite <- (app_assoc (evs' ++ [trig'])). reflexivity. }
        split; [ rewrite Hobj'; subst w2; exact Hobj | ].
        split.
        { rewrite adjacent_app, Hadj'. rewrite Hev.
          change (adjacent (retry_discipline (_address self))
                    (Sleep 50 :: ev :: older))
            with (retry_discipline (_address self) (Sleep 50) ev
                  && adjacent (retry_discipline (_address self)) (ev :: older)).
          rewrite <- Hev, Hadj. unfold retry_discipline.
          rewrite Hret, (retryable_not_delay _ Hret).
          subst trig'. rewrite trigger_is_trigger. reflexivity. }
        rewrite !count_app, !(count_cons _ (Sleep 50)), !count_app in *.
        change (is_trigger (_address self) (Sleep 50)) with false.
        change (is_retry_delay (Sleep 50)) with true.
        split; [ lia | ].
        split; [ lia | ].
        split.
        { rewrite Hev' in *. cbn [tl app] in *. unfold all_acked in *.
          rewrite forallb_app, Hack'. cbn [forallb is_failed negb andb].
          rewrite Hev in *. cbn [forallb tl] in *.
          rewrite (retryable_not_failed _ Hret), Hack. reflexivity. }
        exists ev', (older' ++ Sleep 50 :: rest ++ [trig]).
        split; [ rewrite Hev'; reflexivity | ].
        destruct r as [[v | ] | e' | ]; try contradiction.
        -- apply frame_accepted_app, Hr.
        -- destruct Hr as [Hf Hc]. split; [ exact Hf | ].
           intros Hc'. specialize (Hc Hc'). lia.
    + (* another exception propagates *)
      exists rest, rp. cbv zeta.
      rewrite Ht, Hd. repeat split; try assumption; try lia.
      exists ev, older. repeat split; try assumption.
      intros Hc. congruence.
  - destruct H as (? & ? & _ & _ & _ & _ & ? & ? & _ & []).
Qed.

End AHT21Attempt.

(** * AHT21: [read_temperature_humidity] *)

Section AHT21Read.

Import AHT21.

Lemma land_disjoint (hi lo k : Z) :
  0 <= k -> 0 <= lo < 2 ^ k -> Z.land (hi * 2 ^ k) lo = 0.
Proof.
  intros Hk Hlo. apply Z.bits_inj'. intros i Hi.
  rewrite Z.land_spec, Z.bits_0, <- Z.shiftl_mul_pow2 by exact Hk.
  destruct (Z.lt_ge_cases i k) as [Hlt | Hge].
  - rewrite Z.shiftl_spec_low by exact Hlt. reflexivity.
  - rewrite <- (Z.mod_small lo (2 ^ k)) by exact Hlo.
    rewrite Z.mod_pow2_bits_high by lia. apply andb_false_r.
Qed.

Lemma lor_disjoint (hi lo k : Z) :
  0 <= k -> 0 <= lo < 2 ^ k -> Z.lor (hi * 2 ^ k) lo = hi * 2 ^ k + lo.
Proof.
  intros Hk Hlo. rewrite <- Z.add_lor_land, (land_disjoint hi lo k Hk Hlo).
  lia.
Qed.






(** One pass of the loop whose attempt returns. *)
Lemma retry_loop_returns (i2c : bus) (Ob : Type) (self : AHT21.t)
    (retries attempt : Z) (n : nat) (w : world Ob) (v : Q * Q) :
  fst (measure i2c self w) = Ok v ->
  retry_loop i2c self retries attempt (S n) w
  = (Ok (Some v), snd (measure i2c self w)).
Proof.
  intros H. cbn [retry_loop]. unfold bind at 1, try_except at 1, bind at 1.
  destruct (measure i2c self w) as [o w1]. cbn [fst snd] in *. subst o.
  reflexivity.
Qed.

(** One pass of the loop, not the last, whose attempt fails with a CRC
    mismatch or a timeout: 50 ms, then the next pass. *)
Lemma retry_loop_retries (i2c : bus) (Ob : Type) (self : AHT21.t)
    (retries attempt : Z) (n : nat) (w : world Ob) (e : exn) :
  fst (measure i2c self w) = Raise e -> crc_or_timeout e = true ->
  attempt <> retries - 1 ->
  retry_loop i2c self retries attempt (S n) w
  = retry_loop i2c self retries (attempt + 1) n
      (snd (sleep_ms 50 (snd (measure i2c self w)))).
Proof.
  intros H He Hn. cbn [retry_loop].
  unfold bind at 1, try_except at 1, bind at 1.
  destruct (measure i2c self w) as [o w1]. cbn [fst snd] in *. subst o.
  rewrite He. apply Z.eqb_neq in Hn. rewrite Hn. reflexivity.
Qed.

(** The whole call, for [retries >= 1]. *)
Lemma read_spec (i2c : bus) (Ob : Type) (self : AHT21.t) (retries : Z)
    (w : world Ob) :
  1 <= retries ->
  let '(r, w') := read_temperature_humidity i2c self retries w in
  exists evs rp,
    let all :=
      evs ++ [Transfer
                (writeto (_address self) [AHT21_CMD_TRIGGER; 0x33; 0x00])
                rp] in
    log w' = all ++ log w /\ obj w' = obj w
    /\ adjacent (retry_discipline (_address self)) all = true
    /\ 1 <= count (is_trigger (_address self)) all <= retries
    /\ count is_retry_delay all = count (is_trigger (_address self)) all - 1
    /\ all_acked (tl all) = true
    /\ exists ev older,
         all = ev :: older
         /\ match r with
            | Ok (Some v) => frame_accepted (_address self) ev older v
            | Ok None => False
            | Raise e =>
                attempt_failed e ev
                /\ (crc_or_timeout e = true ->
                    count (is_trigger (_address self)) all = retries)
            | OutOfFuel => False
            end.
Proof.
  intros Hr. unfold read_temperature_humidity.
  pose proof (retry_loop_spec i2c self retries (Z.to_nat retries) 0 w) as H.
  destruct (retry_loop i2c self retries 0 (Z.to_nat retries) w) as [r w'].
  rewrite Z2Nat.id in H by lia. apply H; lia.
Qed.

(** C4. For every transport and every [retries >= 1]: the call makes between
    one and [retries] attempts (trigger commands); there is exactly one 50 ms
    delay between two consecutive attempts, and a delay comes directly after
    a CRC mismatch or a busy status only; a CRC or timeout failure is raised
    only after attempt number [retries], and it is the failure of that last
    attempt; a refused transfer ([OSError]) is the last thing that happens
    in the call; the call never returns [None]. When the first two attempts
    end in a CRC mismatch and the third returns a value, the call with
    [retries = 3] returns that value. *)
Theorem read_temperature_humidity_retry_policy (i2c : bus) (Ob : Type)
    (self : AHT21.t) (retries : Z) (w : world Ob) :
  1 <= retries ->
  (let '(r, w') := read_temperature_humidity i2c self retries w in
   exists evs,
     log w' = evs ++ log w
     /\ 1 <= count (is_trigger (_address self)) evs <= retries
     /\ count is_retry_delay evs
        = count (is_trigger (_address self)) evs - 1
     /\ adjacent (retry_discipline (_address self)) evs = true
     /\ all_acked (tl evs) = true
     /\ exists ev older,
          evs = ev :: older
          /\ match r with
             | Ok (Some v) => frame_accepted (_address self) ev older v
             | Ok None => False
             | Raise e =>
                 (e = AHT21CRCError /\ is_crc_mismatch ev = true
                  /\ count (is_trigger (_address self)) evs = retries)
                 \/ (e = AHT21TimeoutError /\ is_busy_status ev = true
                     /\ count (is_trigger (_address self)) evs = retries)
                 \/ (e = OSError /\ failed_transfer ev)
             | OutOfFuel => False
             end)
  /\ (retries = 3 ->
      let r1 := measure i2c self w in
      let r2 := measure i2c self (snd (sleep_ms 50 (snd r1))) in
      let r3 := measure i2c self (snd (sleep_ms 50 (snd r2))) in
      fst r1 = Raise AHT21CRCError -> fst r2 = Raise AHT21CRCError ->
      forall v, fst r3 = Ok v ->
      read_temperature_humidity i2c self retries w = (Ok (Some v), snd r3)).
Proof.
  intros Hr. split.
  - pose proof (read_spec i2c Ob self retries w Hr) as H.
    destruct (read_temperature_humidity i2c self retries w) as [r w'].
    destruct H as (evs & rp & Hlog & _ & Hadj & Ht & Hd & Hack
                   & ev & older & Hev & Hv).
    eexists. split; [ exact Hlog | ].
    repeat (split; [ assumption || lia | ]).
    exists ev, older. split; [ exact Hev | ].
    destruct r as [[v | ] | e | ]; try assumption.
    destruct Hv as [[[-> Hc] | [[-> Hc] | [-> Hc]]] Hn].
    + left. repeat split; auto.
    + right; left. repeat split; auto.
    + right; right. split; auto.
  - intros -> r1 r2 r3 H1 H2 v H3.
    unfold read_temperature_humidity. change (Z.to_nat 3) with 3%nat.
    rewrite (retry_loop_retries i2c Ob self 3 0 2 w AHT21CRCError)
      by (assumption || reflexivity || lia).
    rewrite (retry_loop_retries i2c Ob self 3 (0 + 1) 1 _ AHT21CRCError)
      by (assumption || reflexivity || lia).
    apply retry_loop_returns. exact H3.
Qed.

Lemma read_temperature_humidity_retry_witness :
  1 <= 3
  /\ exists t h,
       fst (read_temperature_humidity crc_twice_bus sensor 3 (world0 tt))
       = Ok (Some (t, h))
       /\ (t == 12.5)%Q /\ (h == 50)%Q.
Proof.
  split; [ lia | ].
  destruct (read_temperature_humidity_retry_policy
              crc_twice_bus unit sensor 3 (world0 tt) ltac:(lia))
    as [_ H].
  specialize (H eq_refl). cbv zeta in H.
  assert (H1 : fst (measure crc_twice_bus sensor (world0 tt))
               = Raise AHT21CRCError) by (vm_compute; reflexivity).
  assert (H2 : fst (measure crc_twice_bus sensor
                      (snd (sleep_ms 50
                              (snd (measure crc_twice_bus sensor
                                      (world0 tt))))))
               = Raise AHT21CRCError) by (vm_compute; reflexivity).
  specialize (H H1 H2).
  eexists. eexists. split.
  - rewrite (H _ ltac:(vm_compute; reflexivity)). reflexivity.
  - split; vm_compute; reflexivity.
Defined.



(** C10. With [retries <= 0] the loop body never runs: the call returns
    [None] and leaves the world as it was (no transfer, no delay), whatever
    the transport would have answered. *)
Theorem read_temperature_humidity_no_attempt (i2c : bus) (Ob : Type)
    (self : AHT21.t) (retries : Z) (w : world Ob) :
  retries <= 0 ->
  read_temperature_humidity i2c self retries w = (Ok None, w).
Proof.
  intros Hr. unfold read_temperature_humidity.
  replace (Z.to_nat retries) with 0%nat by lia. reflexivity.
Qed.

Lemma read_temperature_humidity_no_attempt_witness :
  0 <= 0
  /\ read_temperature_humidity dead_bus sensor 0 (world0 tt)
     = (Ok None, world0 tt)
  /\ read_temperature_humidity crc_twice_bus sensor (-1) (world0 tt)
     = (Ok None, world0 tt).
Proof.
  split; [ lia | ]. split.
  - apply (read_temperature_humidity_no_attempt dead_bus unit sensor 0).
    lia.
  - apply (read_temperature_humidity_no_attempt crc_twice_bus unit sensor (-1)).
    lia.
Defined.

End AHT21Read.

(** * AHT21: construction *)

Section AHT21Init.

Import AHT21.

Variable i2c : bus.
Context {Ob : Type}.

Lemma adjacent_app_any (R : event -> event -> bool) (l : list event)
    (y : event) (b : list event) :
  (forall x, R x y = true) ->
  adjacent R l = true -> adjacent R (y :: b) = true ->
  adjacent R (l ++ y :: b) = true.
Proof.
  intros Hy Hl Hb. induction l as [ | x l IH].
  - exact Hb.
  - destruct l as [ | x' l].
    + change (adjacent R ([x] ++ y :: b))
        with (R x y && adjacent R (y :: b)).
      now rewrite Hy, Hb.
    + change (adjacent R ((x :: x' :: l) ++ y :: b))
        with (R x x' && adjacent R ((x' :: l) ++ y :: b)).
      change (adjacent R (x :: x' :: l))
        with (R x x' && adjacent R (x' :: l)) in Hl.
      apply andb_prop in Hl as [Hx Hl]. now rewrite Hx, IH.
Qed.

Lemma init_command_is_init (a : Z) (rp : reply) :
  is_init_command a
    (Transfer (writeto a [AHT21_CMD_INITIALIZE; 0x08; 0x00]) rp) = true.
Proof. unfold is_init_command, is_writeto. cbn. apply Z.eqb_refl. Qed.

(** The calibration loop with [n] checks left. *)
Lemma calibration_loop_spec (self : AHT21.t) (n : nat) :
  forall w : world Ob,
    let '(r, w') := calibration_loop i2c self n w in
    exists evs,
      log w' = evs ++ log w
      /\ count is_check evs <= Z.of_nat n
      /\ adjacent (calibration_discipline (_address self)) evs = true
      /\ match r with
         | Ok _ =>
             exists ev older,
               evs = ev :: older /\ check_passed ev = true
               /\ count check_passed older = 0 /\ all_acked evs = true
         | Raise e =>
             (e = AHT21CalibrationError
              /\ count is_check evs = Z.of_nat n
              /\ count check_passed evs = 0 /\ all_acked evs = true)
             \/ (e = OSError
                 /\ exists ev older,
                      evs = ev :: older /\ failed_transfer ev
                      /\ count check_passed evs = 0
                      /\ all_acked older = true)
         | OutOfFuel => False
         end.
Proof.
  induction n as [ | n IH]; intros w.
  - cbn [calibration_loop]. unfold raise. exists [].
    split; [ reflexivity | ]. split; [ cbn; lia | ].
    split; [ reflexivity | ]. left. repeat split.
  - cbn [calibration_loop].
    unfold bind at 1, _is_calibrated at 1, bind at 1, _read_status at 1.
    unfold bind at 1, transfer at 1.
    destruct (i2c (log w) (writeto (_address self) [AHT21_CMD_STATUS]))
      as [d0 | ]; cbn [nbytes_of].
    2:{ eexists [_]. repeat split; try (cbn; lia).
        right. split; [ reflexivity | ].
        do 2 eexists. repeat split. now eexists. }
    unfold bind at 1, transfer at 1. cbn [log clock obj].
    set (stw := Transfer (writeto (_address self) [AHT21_CMD_STATUS])
                  (Done (as_bytes 0 d0))).
    destruct (i2c (stw :: log w) (readfrom (_address self) 1)) as [d1 | ];
      cbn [nbytes_of].
    2:{ eexists [_; stw]. repeat split; try (cbn; lia).
        right. split; [ reflexivity | ].
        do 2 eexists. repeat split. now eexists. }
    destruct (as_bytes_1 d1) as (s & Hs & Hrange). rewrite Hs.
    unfold ret at 1. cbv beta iota. unfold ret at 1. cbv beta iota.
    cbn [getitem nth log clock obj].
    set (chk := Transfer (readfrom (_address self) 1) (Done [s])).
    destruct (Z.land s AHT21_STATUS_CALIBRATED =? 24) eqn:Hcal.
    + (* calibrated *)
      unfold ret. exists [chk; stw].
      assert (Hp : check_passed chk = true) by exact Hcal.
      split; [ reflexivity | ].
      split; [ cbn; lia | ].
      split; [ reflexivity | ].
      exists chk, [stw]. repeat split. exact Hp.
    + (* not calibrated: initialize, wait, check again *)
      assert (Hp : check_passed chk = false) by exact Hcal.
      assert (Hf : check_failed chk = true).
      { unfold check_failed. rewrite Hp. reflexivity. }
      unfold bind at 1, transfer at 1. cbn [log clock obj].
      destruct (i2c (chk :: stw :: log w)
                  (writeto (_address self) [AHT21_CMD_INITIALIZE; 8; 0]))
        as [d2 | ]; cbn [nbytes_of].
      2:{ eexists [_; chk; stw].
          split; [ reflexivity | ].
          split; [ rewrite !count_cons; cbn; lia | ].
          split.
          { cbn [adjacent]. unfold calibration_discipline at 1.
            rewrite Hf, Hp, init_command_is_init. reflexivity. }
          right. split; [ reflexivity | ].
          do 2 eexists. split; [ reflexivity | ].
          split; [ now eexists | ].
          split; [ | reflexivity ].
          rewrite !count_cons, Hp. reflexivity. }
      set (ini := Transfer (writeto (_address self)
                              [AHT21_CMD_INITIALIZE; 8; 0])
                    (Done (as_bytes 0 d2))).
      unfold bind at 1, sleep_ms at 1. cbn [log clock obj].
      set (w1 := World _ _ _).
      specialize (IH w1).
      destruct (calibration_loop i2c self n w1) as [r w2].
      destruct IH as (evs & Hlog & Hcount & Hadj & Hr).
      set (iter := [Sleep AHT21_INIT_DELAY; ini; chk; stw]).
      assert (Hiter_adj :
                adjacent (calibration_discipline (_address self)) iter = true).
      { subst iter. cbn [adjacent]. unfold calibration_discipline.
        rewrite Hf, Hp. subst ini. rewrite init_command_is_init.
        reflexivity. }
      assert (Hiter_chk : count is_check iter = 1) by reflexivity.
      assert (Hiter_pass : count check_passed iter = 0).
      { subst iter. rewrite !count_cons, Hp. reflexivity. }
      assert (Hiter_ack : all_acked iter = true) by reflexivity.
      exists (evs ++ iter).
      split; [ rewrite Hlog, <- app_assoc; reflexivity | ].
      split; [ rewrite count_app; lia | ].
      split.
      { apply adjacent_app_any; try assumption. intros x; reflexivity. }
      destruct r as [[] | e | ]; [ | | exact Hr ].
      * destruct Hr as (ev & older & -> & Hpass & Hnone & Hack).
        exists ev, (older ++ iter). split; [ reflexivity | ].
        split; [ exact Hpass | ].
        split; [ rewrite count_app; lia | ].
        unfold all_acked in *.
        change ((ev :: older) ++ iter) with (ev :: older ++ iter).
        cbn [forallb] in *. apply andb_prop in Hack as [Ha Hb].
        rewrite Ha, forallb_app, Hb. exact Hiter_ack.
      * destruct Hr as [(-> & Hc & Hnone & Hack)
                       | (-> & ev & older & -> & Hfail & Hnone & Hack)].
        -- left. split; [ reflexivity | ].
           split; [ rewrite count_app; lia | ].
           split; [ rewrite count_app; lia | ].
           unfold all_acked in *. rewrite forallb_app, Hack. exact Hiter_ack.
        -- right. split; [ reflexivity | ].
           exists ev, (older ++ iter). split; [ reflexivity | ].
           split; [ exact Hfail | ].
           split; [ rewrite count_app; lia | ].
           unfold all_acked in *. rewrite forallb_app, Hack. exact Hiter_ack.
Qed.

Lemma count_passed_head (ev : event) (older : list event) :
  check_passed ev = true -> count check_passed (ev :: older) <> 0.
Proof.
  intros H. rewrite count_cons, H.
  pose proof (count_nonneg check_passed older). lia.
Qed.

(** The calibration loop with [n] checks left, as a run: [rounds] times
    a failed check with the initialize command and its wait, and then a
    passed check, or nothing more when the [n] checks are used up, or a
    refused transfer in the next round. *)
Lemma calibration_loop_run (self : AHT21.t) (n : nat) :
  forall w : world Ob,
    let a := _address self in
    let round := aht21_check_script a ++ aht21_initialize_script a in
    let '(r, w') := calibration_loop i2c self n w in
    exists evs rounds,
      log w' = evs ++ log w
      /\ count (is_init_command a) evs = count check_failed evs
      /\ count (is_acked_init_command a) evs = Z.of_nat rounds
      /\ count (is_sleep AHT21_INIT_DELAY) evs = Z.of_nat rounds
      /\ count (is_writeto a [AHT21_CMD_SOFTRESET]) evs = 0
      /\ clock w' = clock w + 10 * Z.of_nat rounds
      /\ match r with
         | Ok _ =>
             (rounds < n)%nat
             /\ count check_failed evs = Z.of_nat rounds
             /\ run_of false
                  (concat (repeat round rounds) ++ aht21_check_script a)
                  (rev evs)
                = Some Completed
         | Raise e =>
             (e = AHT21CalibrationError /\ rounds = n
              /\ count check_failed evs = Z.of_nat rounds
              /\ match n with
                 | O => evs = []
                 | S _ => hd_error evs = Some (Sleep AHT21_INIT_DELAY)
                 end
              /\ run_of false (concat (repeat round rounds) ++ []) (rev evs)
                 = Some Completed)
             \/ (e = OSError /\ (rounds < n)%nat
                 /\ run_of false (concat (repeat round rounds) ++ round)
                      (rev evs)
                    = Some Aborted)
         | OutOfFuel => False
         end.
Proof.
  cbv zeta. set (a := _address self).
  set (round := aht21_check_script a ++ aht21_initialize_script a).
  induction n as [ | n IH]; intros w.
  - cbn [calibration_loop]. unfold raise. exists [], O.
    repeat (split; [ reflexivity || (cbn [clock]; lia) | ]).
    left. repeat split.
  - cbn [calibration_loop].
    unfold bind at 1, _is_calibrated at 1, bind at 1, _read_status at 1.
    unfold bind at 1, transfer at 1. fold a.
    set (cmd := writeto a [AHT21_CMD_STATUS]).
    set (rd := readfrom a 1).
    set (ini := writeto a [AHT21_CMD_INITIALIZE; 8; 0]).
    assert (Hround : round = [Access cmd; Access rd; Access ini;
                              Wait AHT21_INIT_DELAY]) by reflexivity.
    destruct (i2c (log w) cmd) as [d0 | ]; cbn [nbytes_of].
    2:{ exists [Transfer cmd Fail], O.
        split; [ reflexivity | ]. split; [ reflexivity | ].
        split; [ reflexivity | ]. split; [ reflexivity | ].
        split; [ reflexivity | ]. split; [ cbn [clock]; lia | ].
        right. split; [ reflexivity | ]. split; [ lia | ].
        cbn [repeat concat app rev]. rewrite Hround. apply run_of_fail. }
    unfold bind at 1, transfer at 1. cbn [log clock obj].
    set (e0 := Transfer cmd (Done (as_bytes (nbytes_of cmd) d0))).
    destruct (i2c (e0 :: log w) rd) as [d1 | ]; cbn [nbytes_of].
    2:{ exists [Transfer rd Fail; e0], O.
        split; [ reflexivity | ]. split; [ reflexivity | ].
        split; [ reflexivity | ]. split; [ reflexivity | ].
        split; [ reflexivity | ]. split; [ cbn [clock]; lia | ].
        right. split; [ reflexivity | ]. split; [ lia | ].
        cbn [repeat concat app rev]. rewrite Hround. unfold e0.
        rewrite run_of_ack. apply run_of_fail. }
    destruct (as_bytes_1 d1) as (s & Hs & Hrange).
    change (nbytes_of rd) with 1%nat. rewrite Hs.
    unfold ret at 1. cbv beta iota. unfold ret at 1. cbv beta iota.
    cbn [getitem nth log clock obj].
    set (e1 := Transfer rd (Done [s])).
    destruct (Z.land s AHT21_STATUS_CALIBRATED =? 24) eqn:Hcal.
    + unfold ret. exists [e1; e0], O.
      assert (Hp : check_passed e1 = true) by exact Hcal.
      assert (Hf : check_failed e1 = false).
      { unfold check_failed. rewrite Hp. apply andb_false_r. }
      split; [ reflexivity | ].
      split; [ rewrite !count_cons, Hf; reflexivity | ].
      split; [ reflexivity | ]. split; [ reflexivity | ].
      split; [ reflexivity | ]. split; [ cbn [clock]; lia | ].
      split; [ lia | ].
      split; [ rewrite !count_cons, Hf; reflexivity | ].
      cbn [repeat concat app rev]. unfold aht21_check_script.
      fold cmd rd. unfold e0, e1. now rewrite !run_of_ack.
    + assert (Hp : check_passed e1 = false) by exact Hcal.
      assert (Hf : check_failed e1 = true).
      { unfold check_failed. rewrite Hp. reflexivity. }
      unfold bind at 1, transfer at 1. cbn [log clock obj]. fold ini.
      destruct (i2c (e1 :: e0 :: log w) ini) as [d2 | ]; cbn [nbytes_of].
      2:{ exists [Transfer ini Fail; e1; e0], O.
          split; [ reflexivity | ].
          split.
          { rewrite !count_cons, Hf. unfold ini, is_init_command, is_writeto.
            cbn [list_eqb]. rewrite !Z.eqb_refl. reflexivity. }
          split.
          { rewrite !count_cons. unfold is_acked_init_command.
            cbn [is_failed negb]. rewrite !andb_false_r. reflexivity. }
          split; [ reflexivity | ].
          split.
          { rewrite !count_cons. unfold ini, e1, e0, cmd, rd, is_writeto.
            cbn [list_eqb]. reflexivity. }
          split; [ cbn [clock]; lia | ].
          right. split; [ reflexivity | ]. split; [ lia | ].
          cbn [repeat concat app rev]. rewrite Hround. unfold e0, e1.
          rewrite !run_of_ack. apply run_of_fail. }
      set (e2 := Transfer ini (Done (as_bytes 0 d2))).
      unfold bind at 1, sleep_ms at 1. cbn [log clock obj].
      set (w1 := World _ _ _).
      specialize (IH w1).
      destruct (calibration_loop i2c self n w1) as [r w2].
      destruct IH as (evs & rounds & Hlog & Hini & Hack & Hsl & Hrs & Hck
                      & Hr).
      set (iter := [Sleep AHT21_INIT_DELAY; e2; e1; e0]).
      assert (Hi1 : count (is_init_command a) iter = 1).
      { subst iter. rewrite !count_cons.
        unfold e2, ini, is_init_command, is_writeto at 1 2.
        cbn [list_eqb]. rewrite !Z.eqb_refl. reflexivity. }
      assert (Hi2 : count check_failed iter = 1).
      { subst iter. rewrite !count_cons, Hf. reflexivity. }
      assert (Hi3 : count (is_acked_init_command a) iter = 1).
      { subst iter. rewrite !count_cons.
        unfold e2, ini, is_acked_init_command, is_init_command,
          is_writeto at 1 2.
        cbn [list_eqb is_failed negb]. rewrite !Z.eqb_refl. reflexivity. }
      assert (Hi4 : count (is_sleep AHT21_INIT_DELAY) iter = 1)
        by reflexivity.
      assert (Hi5 : count (is_writeto a [AHT21_CMD_SOFTRESET]) iter = 0).
      { subst iter. rewrite !count_cons. unfold e2, e1, e0, ini, cmd, rd,
          is_writeto. cbn [list_eqb]. reflexivity. }
      assert (Hrun : forall more,
                run_of false (concat (repeat round (S rounds)) ++ more)
                  (rev (evs ++ iter))
                = run_of false (concat (repeat round rounds) ++ more)
                    (rev evs)).
      { intros more. rewrite rev_app_distr. cbn [repeat concat].
        rewrite <- app_assoc. apply run_of_app.
        rewrite Hround. subst iter. cbn [rev app]. unfold e0, e1, e2.
        now rewrite !run_of_ack, run_of_wait. }
      exists (evs ++ iter), (S rounds).
      split; [ rewrite Hlog, <- app_assoc; reflexivity | ].
      rewrite !count_app, Hi1, Hi2, Hi3, Hi4, Hi5.
      split; [ lia | ]. split; [ lia | ]. split; [ lia | ].
      split; [ lia | ].
      split; [ rewrite Hck; subst w1; cbn [clock];
               unfold AHT21_INIT_DELAY; lia | ].
      destruct r as [[] | e | ]; [ | | exact Hr ].
      * destruct Hr as (Hlt & Hcf & Hr). split; [ lia | ].
        split; [ lia | ]. now rewrite Hrun.
      * destruct Hr as [(-> & -> & Hcf & Hhd & Hr) | (-> & Hlt & Hr)].
        -- left. split; [ reflexivity | ]. split; [ reflexivity | ].
           split; [ lia | ].
           split; [ | now rewrite Hrun ].
           destruct n; [ now rewrite Hhd | ].
           destruct evs; [ discriminate Hhd | exact Hhd ].
        -- right. split; [ reflexivity | ]. split; [ lia | ].
           now rewrite Hrun.
Qed.

(** C8 (as amended). For every transport: the constructor makes at most 3
    calibration checks and sends the initialize command
    (0xBE, 0x08, 0x00) once after each failed check, directly after it,
    every acknowledged initialize command being directly followed by the
    10 ms wait. It returns an instance exactly when a check passes: the
    events are then a run of the power-up wait, the soft reset and its
    wait, at most two rounds of a failed check with the initialize command
    and its wait, and the check that passes, which is the last thing that
    happens. [AHT21CalibrationError] is raised if and only if three checks
    were made, none passed, and the transport acknowledged every transfer:
    the events are then a run with three such rounds, the third initialize
    command and its wait included. A transfer that the transport refuses
    ends the run at once with [OSError]. When the constructor raises, no
    instance is returned. *)
Theorem aht21_init_calibration (address : Z) (w : world Ob) :
  let '(r, w') := AHT21.__init__ i2c address w in
  exists evs,
    log w' = evs ++ log w
    /\ count is_check evs <= 3
    /\ count (is_init_command address) evs = count check_failed evs
    /\ adjacent (calibration_discipline address) evs = true
    /\ match r with
       | Ok self =>
           _address self = address
           /\ (exists rounds,
                 (rounds <= 2)%nat
                 /\ count check_failed evs = Z.of_nat rounds
                 /\ run_of false
                      (aht21_init_script address rounds
                         (aht21_check_script address))
                      (rev evs)
                    = Some Completed)
           /\ exists ev older,
                evs = ev :: older /\ check_passed ev = true
                /\ count check_passed older = 0 /\ all_acked evs = true
       | Raise e =>
           (e = AHT21CalibrationError
            /\ run_of false (aht21_init_script address 3 []) (rev evs)
               = Some Completed
            /\ hd_error evs = Some (Sleep AHT21_INIT_DELAY)
            /\ count check_failed evs = 3
            /\ count is_check evs = 3
            /\ count check_passed evs = 0 /\ all_acked evs = true)
           \/ (e = OSError
               /\ (exists rounds,
                     (rounds <= 2)%nat
                     /\ run_of false
                          (aht21_init_script address rounds
                             (aht21_check_script address
                              ++ aht21_initialize_script address))
                          (rev evs)
                        = Some Aborted)
               /\ count check_passed evs = 0
               /\ exists ev older,
                    evs = ev :: older /\ failed_transfer ev
                    /\ all_acked older = true)
       | OutOfFuel => False
       end
    /\ (r = Raise AHT21CalibrationError
        <-> count is_check evs = 3
            /\ count check_passed evs = 0 /\ all_acked evs = true).
Proof.
  unfold __init__. unfold bind at 1, sleep_ms at 1.
  unfold bind at 1, transfer at 1. cbn [log clock obj _address].
  destruct (i2c (Sleep AHT21_POWERUP_DELAY :: log w)
              (writeto address [AHT21_CMD_SOFTRESET])) as [d0 | ];
    cbn [nbytes_of].
  2:{ eexists [_; _]. split; [ reflexivity | ].
      split; [ cbn; lia | ]. split; [ reflexivity | ].
      split; [ reflexivity | ].
      split.
      - right. split; [ reflexivity | ].
        split.
        { exists O. split; [ lia | ].
          unfold aht21_init_script. cbn [repeat concat app rev].
          rewrite run_of_wait. apply run_of_fail. }
        split; [ reflexivity | ].
        do 2 eexists. split; [ reflexivity | ].
        split; [ now eexists | reflexivity ].
      - split; [ discriminate | ]. intros (_ & _ & Hack). discriminate Hack. }
  unfold bind at 1, sleep_ms at 1. cbn [log clock obj]. unfold bind at 1.
  set (pre := [Sleep AHT21_SOFTRESET_DELAY;
               Transfer (writeto address [AHT21_CMD_SOFTRESET])
                 (Done (as_bytes 0 d0));
               Sleep AHT21_POWERUP_DELAY]).
  set (w1 := World _ _ _).
  pose proof (calibration_loop_spec {| _address := address |} 3 w1) as H.
  pose proof (calibration_loop_run {| _address := address |} 3 w1) as H'.
  cbv zeta in H'.
  destruct (calibration_loop i2c {| _address := address |} 3 w1) as [r w2].
  destruct H as (evs & Hlog & Hcount & Hadj & Hr). cbn [_address] in *.
  destruct H' as (evs' & rounds & Hlog' & Hini & _ & _ & _ & _ & Hr').
  assert (He : evs' = evs).
  { apply (app_inv_tail (log w1)). congruence. }
  subst evs'.
  assert (Hpre_adj : adjacent (calibration_discipline address) pre = true)
    by reflexivity.
  assert (Hpre_chk : count is_check pre = 0) by reflexivity.
  assert (Hpre_pass : count check_passed pre = 0) by reflexivity.
  assert (Hpre_ack : all_acked pre = true) by reflexivity.
  assert (Hpre_fail : count check_failed pre = 0) by reflexivity.
  assert (Hpre_ini : count (is_init_command address) pre = 0).
  { subst pre. rewrite !count_cons. unfold is_init_command, is_writeto.
    cbn [list_eqb]. reflexivity. }
  assert (Hrun : forall k more,
            run_of false (aht21_init_script address k more)
              (rev (evs ++ pre))
            = run_of false
                (concat
                   (repeat (aht21_check_script address
                            ++ aht21_initialize_script address) k)
                 ++ more)
                (rev evs)).
  { intros k more. rewrite rev_app_distr. unfold aht21_init_script.
    apply run_of_app. subst pre. cbn [rev app].
    now rewrite run_of_wait, run_of_ack, run_of_wait. }
  assert (Hall : log w2 = (evs ++ pre) ++ log w).
  { rewrite Hlog, <- app_assoc. reflexivity. }
  assert (Hadj' : adjacent (calibration_discipline address) (evs ++ pre)
                  = true).
  { apply adjacent_app_any; try assumption. intros x; reflexivity. }
  assert (Hini' : count (is_init_command address) (evs ++ pre)
                  = count check_failed (evs ++ pre)).
  { rewrite !count_app. lia. }
  change (Z.of_nat 3) with 3 in *.
  destruct r as [[] | e | ]; unfold ret; cbv beta iota.
  - destruct Hr as (ev & older & -> & Hpass & Hnone & Hack).
    destruct Hr' as (Hlt & Hcf & Hr').
    exists ((ev :: older) ++ pre).
    split; [ exact Hall | ]. split; [ rewrite count_app; lia | ].
    split; [ exact Hini' | ].
    split; [ exact Hadj' | ].
    assert (Hack' : all_acked ((ev :: older) ++ pre) = true).
    { unfold all_acked in *. rewrite forallb_app, Hack. exact Hpre_ack. }
    split.
    + split; [ reflexivity | ].
      split.
      { exists rounds. split; [ lia | ].
        split; [ rewrite count_app; lia | ]. now rewrite Hrun. }
      exists ev, (older ++ pre). split; [ reflexivity | ].
      split; [ exact Hpass | ].
      split; [ rewrite count_app; lia | exact Hack' ].
    + split; [ discriminate | ]. intros (_ & Hnone' & _).
      exfalso. exact (count_passed_head ev (older ++ pre) Hpass Hnone').
  - exists (evs ++ pre).
    split; [ exact Hall | ]. split; [ rewrite count_app; lia | ].
    split; [ exact Hini' | ].
    split; [ exact Hadj' | ].
    destruct Hr as [(-> & Hc & Hnone & Hack)
                   | (-> & ev & older & -> & Hfail & Hnone & Hack)].
    + destruct Hr' as [(_ & -> & Hcf & Hhd & Hr') | (Hne & _)];
        [ | discriminate Hne ].
      assert (Hack' : all_acked (evs ++ pre) = true).
      { unfold all_acked in *. rewrite forallb_app, Hack. exact Hpre_ack. }
      assert (Hgoal : count is_check (evs ++ pre) = 3
                      /\ count check_passed (evs ++ pre) = 0
                      /\ all_acked (evs ++ pre) = true).
      { rewrite !count_app. repeat split; try lia. exact Hack'. }
      split.
      * left. split; [ reflexivity | ].
        split; [ now rewrite Hrun | ].
        split; [ destruct evs; [ discriminate Hhd | exact Hhd ] | ].
        split; [ rewrite count_app; change (Z.of_nat 3) with 3 in Hcf; lia
               | exact Hgoal ].
      * split; [ intros _; exact Hgoal | reflexivity ].
    + destruct Hr' as [(Hne & _) | (_ & Hlt & Hr')];
        [ discriminate Hne | ].
      split.
      * right. split; [ reflexivity | ].
        split.
        { exists rounds. split; [ lia | ]. now rewrite Hrun. }
        split; [ rewrite count_app; lia | ].
        exists ev, (older ++ pre). split; [ reflexivity | ].
        split; [ exact Hfail | ].
        unfold all_acked in *. rewrite forallb_app, Hack. exact Hpre_ack.
      * split; [ discriminate | ]. intros (_ & _ & Hack').
        destruct Hfail as [rq ->]. discriminate Hack'.
  - contradiction.
Qed.

End AHT21Init.

(** The sensor reports itself calibrated at the second check: the
    constructor returns after two checks and one initialize command. *)
Example aht21_init_second_check :
  let '(r, w') := AHT21.__init__ calibrates_late_bus 0x38 (world0 tt) in
  r = Ok sensor
  /\ count is_check (log w') = 2
  /\ count (is_init_command 0x38) (log w') = 1.
Proof. vm_compute. repeat split. Qed.

(** The sensor never reports itself calibrated: three checks, three
    initialize commands, then [AHT21CalibrationError]. *)
Example aht21_init_never_calibrated :
  let '(r, w') := AHT21.__init__ never_calibrated_bus 0x38 (world0 tt) in
  r = Raise AHT21CalibrationError
  /\ count is_check (log w') = 3
  /\ count (is_init_command 0x38) (log w') = 3.
Proof. vm_compute. repeat split. Qed.

(** All three checks fail and the transport refuses the third initialize
    command: the constructor raises [OSError], not
    [AHT21CalibrationError]. *)
Lemma aht21_init_third_init_refused :
  count is_check (log (snd (AHT21.__init__ init_refused_bus 0x38 (world0 tt))))
  = 3
  /\ count check_passed
       (log (snd (AHT21.__init__ init_refused_bus 0x38 (world0 tt)))) = 0
  /\ fst (AHT21.__init__ init_refused_bus 0x38 (world0 tt)) = Raise OSError
  /\ fst (AHT21.__init__ init_refused_bus 0x38 (world0 tt))
     <> Raise AHT21CalibrationError.
Proof. vm_compute. repeat split. discriminate. Qed.

(** * ENS160: [update] *)

Section ENS160Update.

Import ENS160.

Lemma land_2 (s : Z) : (Z.land s 0x02 =? 0) = negb (Z.testbit s 1).
Proof.
  destruct (Z.testbit s 1) eqn:Hb; cbn [negb].
  - apply Z.eqb_neq. intros H0.
    assert (Hc : Z.testbit (Z.land s 0x02) 1 = true).
    { rewrite Z.land_spec, Hb. reflexivity. }
    rewrite H0 in Hc. discriminate Hc.
  - apply Z.eqb_eq. apply Z.bits_inj'. intros i Hi.
    rewrite Z.land_spec, Z.bits_0.
    change 0x02 with (2 ^ 1). rewrite Z.pow2_bits_eqb by lia.
    destruct (Z.eqb_spec 1 i) as [<- | _].
    + rewrite Hb. reflexivity.
    + apply andb_false_r.
Qed.

(** Reading a register leaves the driver object alone. *)
Lemma read_register_obj (i2c : bus) (reg : Z) (w : world ENS160.t) :
  obj (snd (_read_register i2c reg w)) = obj w.
Proof.
  unfold _read_register, bind, get_obj, with_retry, try_except, transfer,
    sleep_ms, raise, ret.
  cbv beta iota. cbn [log clock obj].
  destruct (i2c (log w) (readfrom_mem (_address (obj w)) reg 1));
    cbn [is_OSError exn_eqb log clock obj snd nbytes_of];
    [ reflexivity | ].
  unfold bind. cbv beta iota. cbn [log clock obj].
  destruct (i2c _ (readfrom_mem (_address (obj w)) reg 1)); reflexivity.
Qed.

(** C9. When the status byte read at the start of [update] has bit 1 clear,
    [update] returns [False] right after that read: nothing else happens on
    the bus, and the driver object, hence each of the cached fields [_aqi],
    [_tvoc], [_eco2] and [_validity_flag], is what it was before the call. *)
Theorem update_no_new_data (fmt : float_format) (i2c : bus) (fuel : nat)
    (w w1 : world ENS160.t) (status_byte : Z) :
  _read_register i2c _REG_DEVICE_STATUS w = (Ok status_byte, w1) ->
  Z.testbit status_byte 1 = false ->
  update fmt i2c (S fuel) w = (Ok false, w1)
  /\ obj w1 = obj w
  /\ _aqi (obj w1) = _aqi (obj w)
  /\ _tvoc (obj w1) = _tvoc (obj w)
  /\ _eco2 (obj w1) = _eco2 (obj w)
  /\ _validity_flag (obj w1) = _validity_flag (obj w).
Proof.
  intros Hread Hbit.
  assert (Hobj : obj w1 = obj w).
  { pose proof (read_register_obj i2c _REG_DEVICE_STATUS w) as H.
    rewrite Hread in H. exact H. }
  split; [ | rewrite Hobj; repeat split ].
  cbn [update]. unfold bind at 1. rewrite Hread.
  rewrite land_2, Hbit. reflexivity.
Qed.

Lemma update_no_new_data_witness :
  Z.testbit 0x0D 1 = false
  /\ fst (update Binary32 no_new_data_bus 1 (world0 ens_cached)) = Ok false
  /\ obj (snd (update Binary32 no_new_data_bus 1 (world0 ens_cached)))
     = ens_cached.
Proof.
  split; [ reflexivity | ].
  assert (Hread : _read_register no_new_data_bus _REG_DEVICE_STATUS
                    (world0 ens_cached)
                  = (Ok 0x0D,
                     snd (_read_register no_new_data_bus _REG_DEVICE_STATUS
                            (world0 ens_cached))))
    by (vm_compute; reflexivity).
  destruct (update_no_new_data Binary32 no_new_data_bus 0 (world0 ens_cached)
              _ 0x0D Hread eq_refl) as (Hu & Ho & _).
  rewrite Hu. split; [ reflexivity | exact Ho ].
Defined.

(** One Error reading, then a Normal one: one reset, one retry, and the call
    returns [True] with the reading of the retry. *)
Example update_error_then_normal (fmt : float_format) :
  let '(r, w') := update fmt (error_times_bus 1) 2 (world0 ens_fresh) in
  r = Ok true
  /\ count is_burst_read (log w') = 2
  /\ count (is_opmode_write _OPMODE_RESET) (log w') = 1
  /\ count (is_sleep 200) (log w') = 1
  /\ obj w' = ens_cached.
Proof. destruct fmt; vm_compute; repeat split. Qed.

(** C1 (the code departs from the claim). Two Error readings, then a Normal
    one: the retry of the first recovery does not return [False]; it resets
    the device a second time and runs a third update, whose reading the
    call returns with [True]. With room for one nested call only
    ([update 2]) the call does not come to an end. *)
Theorem update_error_twice_runs_third_update (fmt : float_format) :
  fst (update fmt (error_times_bus 2) 3 (world0 ens_fresh)) = Ok true
  /\ count is_burst_read
       (log (snd (update fmt (error_times_bus 2) 3 (world0 ens_fresh)))) = 3
  /\ count (is_opmode_write _OPMODE_RESET)
       (log (snd (update fmt (error_times_bus 2) 3 (world0 ens_fresh)))) = 2
  /\ fst (update fmt (error_times_bus 2) 2 (world0 ens_fresh)) = OutOfFuel.
Proof. destruct fmt; vm_compute; repeat split. Qed.

(** On a device that keeps reporting Error the recursion never ends: no
    depth of nested calls is enough for [update] to return. *)
Lemma update_always_error_diverges (fmt : float_format) (fuel : nat)
    (w : world ENS160.t) :
  fst (update fmt always_error_bus fuel w) = OutOfFuel.
Proof.
  revert w. induction fuel as [ | fuel IH]; intros w; [ reflexivity | ].
  destruct fmt; lazy; apply IH.
Qed.

End ENS160Update.

(** * ENS160: register helpers *)

Section ENS160Registers.

Import ENS160.

Variable i2c : bus.

Ltac run_retry rq :=
  unfold retried, bind, get_obj, with_retry, try_except, transfer, sleep_ms,
    raise, ret;
  cbv beta iota; cbn [log clock obj];
  destruct (i2c (log _) rq); cbn [is_OSError exn_eqb];
  [ reflexivity | ];
  unfold bind; cbv beta iota; cbn [log clock obj];
  destruct (i2c (Sleep 10 :: _) rq); reflexivity.

Lemma read_register_eq (reg : Z) (w : world ENS160.t) :
  _read_register i2c reg w
  = retried i2c (readfrom_mem (_address (obj w)) reg 1)
      (fun d => getitem d 0) w.
Proof.
  unfold _read_register.
  run_retry (readfrom_mem (_address (obj w)) reg 1).
Qed.

Lemma read_registers_eq (reg : Z) (n : nat) (w : world ENS160.t) :
  _read_registers i2c reg n w
  = retried i2c (readfrom_mem (_address (obj w)) reg n) (fun d => d) w.
Proof.
  unfold _read_registers.
  run_retry (readfrom_mem (_address (obj w)) reg n).
Qed.

Lemma write_register_eq (reg value : Z) (w : world ENS160.t) :
  _write_register i2c reg value w
  = retried i2c (writeto_mem (_address (obj w)) reg [value])
      (fun _ => tt) w.
Proof.
  unfold _write_register.
  run_retry (writeto_mem (_address (obj w)) reg [value]).
Qed.

Lemma write_register_16_eq (reg value : Z) (w : world ENS160.t) :
  _write_register_16 i2c reg value w
  = retried i2c (writeto_mem (_address (obj w)) reg (pack_H value))
      (fun _ => tt) w.
Proof.
  unfold _write_register_16.
  run_retry (writeto_mem (_address (obj w)) reg (pack_H value)).
Qed.

Lemma steady_ret {A : Type} (a : A) : steady (ret a).
Proof.
  intros w. cbn. repeat split; try discriminate. now exists [].
Qed.

Lemma steady_sleep (ms : Z) : steady (sleep_ms ms).
Proof.
  intros w. cbn. repeat split; try discriminate. now exists [Sleep ms].
Qed.

Lemma steady_bind {A B : Type} (m : M ENS160.t A) (k : A -> M ENS160.t B) :
  steady m -> (forall a, steady (k a)) -> steady (bind m k).
Proof.
  intros Hm Hk w. unfold bind.
  destruct (Hm w) as (Ho & (evs & Hl) & Hf & He).
  destruct (m w) as [[a | e | ] w1]; cbn [fst snd] in *.
  - destruct (Hk a w1) as (Ho' & (evs' & Hl') & Hf' & He').
    split; [ congruence | ]. split; [ | split; assumption ].
    exists (evs' ++ evs). rewrite Hl', Hl. apply app_assoc.
  - split; [ exact Ho | ]. split; [ now exists evs | ].
    split; [ discriminate | ].
    intros e' H. injection H as <-. now apply He.
  - now contradiction Hf.
Qed.

Lemma steady_retried {A : Type} (rq : world ENS160.t -> request)
    (f : list Z -> A) :
  steady (fun w => retried i2c (rq w) f w).
Proof.
  intros w. unfold retried.
  destruct (i2c (log w) (rq w)); cbn [fst snd log obj].
  - repeat split; try discriminate. now eexists [_].
  - destruct (i2c _ (rq w)); cbn [fst snd log obj].
    + repeat split; try discriminate. now eexists [_; _; _].
    + repeat split; try discriminate.
      * now eexists [_; _; _].
      * intros e H. now injection H as <-.
Qed.

Lemma steady_ext {A : Type} (m m' : M ENS160.t A) :
  (forall w, m w = m' w) -> steady m' -> steady m.
Proof. intros Heq H w. rewrite Heq. apply H. Qed.

Lemma steady_read_registers (reg : Z) (n : nat) :
  steady (_read_registers i2c reg n).
Proof.
  eapply steady_ext; [ apply read_registers_eq | ].
  apply (steady_retried (fun w => readfrom_mem (_address (obj w)) reg n)).
Qed.

Lemma steady_write_register (reg value : Z) :
  steady (_write_register i2c reg value).
Proof.
  eapply steady_ext; [ apply write_register_eq | ].
  apply (steady_retried (fun w => writeto_mem (_address (obj w)) reg [value])).
Qed.

Lemma steady_write_register_16 (reg value : Z) :
  steady (_write_register_16 i2c reg value).
Proof.
  eapply steady_ext; [ apply write_register_16_eq | ].
  apply (steady_retried
           (fun w => writeto_mem (_address (obj w)) reg (pack_H value))).
Qed.

Lemma steady_set_compensation (fmt : float_format)
    (temperature_c humidity_rh : pyfloat) :
  steady (set_compensation fmt i2c temperature_c humidity_rh).
Proof.
  unfold set_compensation. apply steady_bind.
  - apply steady_write_register_16.
  - intros _. apply steady_write_register_16.
Qed.

End ENS160Registers.

(** * ENS160: construction *)

Section ENS160Init.

Import ENS160.

Variable i2c : bus.

(** The identity check, for every transport: it passes only on a part
    identifier 0x0160; an acknowledged read of another identifier raises
    [ENS160InitError]; a read refused twice raises
    [ENS160CommunicationError], which the [except OSError] clause does not
    catch. *)
Lemma verify_part_id_outcome (w : world ENS160.t) :
  let rq := readfrom_mem (_address (obj w)) _REG_PART_ID 2 in
  let '(r, w') := verify_part_id i2c w in
  exists ev older,
    log w' = ev :: older ++ log w
    /\ match r with
       | Ok _ => exists b, ev = Transfer rq (Done b) /\ unpack_H b = 0x0160
       | Raise e =>
           (e = ENS160InitError
            /\ exists b, ev = Transfer rq (Done b) /\ unpack_H b <> 0x0160)
           \/ (e = ENS160CommunicationError
               /\ ev = Transfer rq Fail
               /\ older = [Sleep 10; Transfer rq Fail])
       | OutOfFuel => False
       end.
Proof.
  intros rq. unfold verify_part_id, try_except. unfold bind at 1.
  rewrite read_registers_eq. unfold retried. fold rq.
  destruct (i2c (log w) rq) as [d | ].
  - cbv zeta. cbv beta iota.
    destruct (unpack_H (as_bytes (nbytes_of rq) d) =? 352) eqn:Hid;
      cbn [negb]; unfold ret, raise; cbn [is_OSError exn_eqb log].
    + do 2 eexists. split; [ now rewrite app_nil_l | ].
      eexists. split; [ reflexivity | now apply Z.eqb_eq ].
    + do 2 eexists. split; [ now rewrite app_nil_l | ].
      left. split; [ reflexivity | ].
      eexists. split; [ reflexivity | now apply Z.eqb_neq ].
  - cbv zeta. destruct (i2c _ rq) as [d | ]; cbv beta iota.
    + destruct (unpack_H (as_bytes (nbytes_of rq) d) =? 352) eqn:Hid;
        cbn [negb]; unfold ret, raise; cbn [is_OSError exn_eqb log].
      * exists (Transfer rq (Done (as_bytes (nbytes_of rq) d))),
               [Sleep 10; Transfer rq Fail].
        split; [ reflexivity | ].
        eexists. split; [ reflexivity | now apply Z.eqb_eq ].
      * exists (Transfer rq (Done (as_bytes (nbytes_of rq) d))),
               [Sleep 10; Transfer rq Fail].
        split; [ reflexivity | ].
        left. split; [ reflexivity | ].
        eexists. split; [ reflexivity | now apply Z.eqb_neq ].
    + cbn [is_OSError exn_eqb log].
      exists (Transfer rq Fail), [Sleep 10; Transfer rq Fail].
      split; [ reflexivity | ]. right. repeat split.
Qed.

(** An unreachable device: the constructor raises
    [ENS160CommunicationError] from the identity check. *)
Lemma init_unreachable (fmt : float_format) (address : Z)
    (w : world ENS160.t) :
  let rq := readfrom_mem address _REG_PART_ID 2 in
  i2c (log w) rq = Fail ->
  i2c (Sleep 10 :: Transfer rq Fail :: log w) rq = Fail ->
  fst (__init__ fmt i2c address w) = Raise ENS160CommunicationError.
Proof.
  intros rq H1 H2. unfold __init__. unfold bind at 1, set_obj at 1.
  unfold bind at 1, verify_part_id, try_except. unfold bind at 1.
  rewrite read_registers_eq. unfold retried. cbn [log clock obj _address].
  fold rq. rewrite H1, H2. reflexivity.
Qed.

End ENS160Init.

(** C3 (the code departs from the claim). On a bus where nothing answers,
    the constructor raises [ENS160CommunicationError], not
    [ENS160InitError]: the register helper has turned the [OSError] of the
    bus into [ENS160CommunicationError] before the [except OSError] clause
    of the constructor could see it. *)
Theorem ens160_init_unreachable_raises_communication_error
    (fmt : float_format) :
  fst (ENS160.__init__ fmt dead_bus 0x53 (world0 ens_fresh))
  = Raise ENS160CommunicationError
  /\ fst (ENS160.__init__ fmt dead_bus 0x53 (world0 ens_fresh))
     <> Raise ENS160InitError
  /\ log (snd (ENS160.__init__ fmt dead_bus 0x53 (world0 ens_fresh)))
     = [Transfer (readfrom_mem 0x53 ENS160._REG_PART_ID 2) Fail;
        Sleep 10;
        Transfer (readfrom_mem 0x53 ENS160._REG_PART_ID 2) Fail].
Proof. destruct fmt; vm_compute; repeat split; discriminate. Qed.

(** A device that answers with another part identifier: [ENS160InitError];
    the right identifier: the constructor completes. *)
Example ens160_init_part_id (fmt : float_format) :
  fst (ENS160.__init__ fmt wrong_part_bus 0x53 (world0 ens_fresh))
  = Raise ENS160InitError
  /\ fst (ENS160.__init__ fmt healthy_bus 0x53 (world0 ens_fresh)) = Ok tt.
Proof. destruct fmt; vm_compute; repeat split. Qed.

(** * The float arithmetic of [set_compensation] *)

Section FloatTheory.

Local Open Scope Q_scope.

Lemma Qltb_spec (a b : Q) : BoolSpec (a < b) (b <= a) (Qltb a b).
Proof.
  unfold Qltb, Qlt, Qle. destruct (Z.ltb_spec (Qnum a * QDen b)
                                              (Qnum b * QDen a));
    constructor; lia.
Qed.

Lemma pow2_pos (e : Z) : 0 < pow2 e.
Proof. apply Qpower_0_lt. reflexivity. Qed.

Lemma pow2_add (a b : Z) : pow2 (a + b) == pow2 a * pow2 b.
Proof. apply Qpower_plus. discriminate. Qed.

Lemma pow2_nonneg_Z (e : Z) : (0 <= e)%Z -> pow2 e == inject_Z (2 ^ e).
Proof.
  revert e. apply natlike_ind; [ reflexivity | ].
  intros e He IH. unfold Z.succ. rewrite pow2_add, IH, Z.pow_add_r by lia.
  rewrite inject_Z_mult. reflexivity.
Qed.

Lemma pow2_lt_inv (a b : Z) : pow2 a < pow2 b -> (a < b)%Z.
Proof. intros H. now apply (Qpower_lt_compat_l_inv 2). Qed.

Lemma pow2_le (a b : Z) : (a <= b)%Z -> pow2 a <= pow2 b.
Proof. intros H. apply Qpower_le_compat_l; [ exact H | discriminate ]. Qed.

(** [ilog2 x] is the exponent of the binade of [x]. *)
Lemma ilog2_spec (x : Q) :
  0 < x -> pow2 (ilog2 x) <= x /\ x < pow2 (ilog2 x + 1).
Proof.
  intros Hx. unfold ilog2.
  destruct x as [n d]. cbn [Qnum Qden].
  assert (Hn : (0 < n)%Z) by (unfold Qlt in Hx; cbn in Hx; lia).
  set (ln := Z.log2 n). set (ld := Z.log2 (Z.pos d)).
  assert (Hln : (0 <= ln)%Z) by apply Z.log2_nonneg.
  assert (Hld : (0 <= ld)%Z) by apply Z.log2_nonneg.
  destruct (Z.log2_spec n Hn) as [Hn1 Hn2]. fold ln in Hn1, Hn2.
  destruct (Z.log2_spec (Z.pos d) (Pos2Z.is_pos d)) as [Hd1 Hd2].
  fold ld in Hd1, Hd2.
  assert (Hq : n # d == inject_Z n / inject_Z (Z.pos d)).
  { rewrite (Qmake_Qdiv n d). reflexivity. }
  assert (Hdpos : 0 < inject_Z (Z.pos d)) by reflexivity.
  destruct (Qltb_spec (n # d) (pow2 (ln - ld))) as [Hlt | Hge].
  - split; [ | now replace (ln - ld - 1 + 1)%Z with (ln - ld)%Z by lia ].
    (* 2^(ln - ld - 1) <= n / d *)
    rewrite Hq. apply Qle_shift_div_l; [ exact Hdpos | ].
    apply Qle_trans with (pow2 (ln - ld - 1) * pow2 (ld + 1)).
    + apply Qmult_le_l; [ apply pow2_pos | ].
      rewrite pow2_nonneg_Z by lia. rewrite <- Zle_Qle. lia.
    + rewrite <- pow2_add. replace (ln - ld - 1 + (ld + 1))%Z with ln by lia.
      rewrite pow2_nonneg_Z by lia. now rewrite <- Zle_Qle.
  - split; [ exact Hge | ].
    rewrite Hq. apply Qlt_shift_div_r; [ exact Hdpos | ].
    apply Qlt_le_trans with (pow2 (ln - ld + 1) * pow2 ld).
    + rewrite <- pow2_add. replace (ln - ld + 1 + ld)%Z with (ln + 1)%Z by lia.
      rewrite pow2_nonneg_Z by lia. rewrite <- Zlt_Qlt.
      replace (ln + 1)%Z with (Z.succ ln) by lia. exact Hn2.
    + apply Qmult_le_l; [ apply pow2_pos | ].
      rewrite pow2_nonneg_Z by lia. now rewrite <- Zle_Qle.
Qed.

Lemma py_round_cases (q : Q) :
  py_round q = Qfloor q \/ py_round q = (Qfloor q + 1)%Z.
Proof.
  unfold py_round. destruct (Qltb _ 1); [ now left | ].
  destruct (Qltb 1 _); [ now right | ].
  destruct (Z.even _); [ now left | now right ].
Qed.

Lemma py_round_ge (q : Q) (n : Z) : inject_Z n <= q -> (n <= py_round q)%Z.
Proof.
  intros H. apply Qfloor_resp_le in H. rewrite Qfloor_Z in H.
  destruct (py_round_cases q) as [-> | ->]; lia.
Qed.

Lemma py_round_le (q : Q) (n : Z) : q <= inject_Z n -> (py_round q <= n)%Z.
Proof.
  intros H. pose proof (Qfloor_resp_le _ _ H) as Hf. rewrite Qfloor_Z in Hf.
  destruct (Z.eq_dec (Qfloor q) n) as [He | Hne].
  - unfold py_round.
    assert (Hq : q == inject_Z (Qfloor q)).
    { apply Qle_antisym; [ now rewrite He | apply Qfloor_le ]. }
    destruct (Qltb_spec (2 * (q - inject_Z (Qfloor q))) 1) as [_ | Hc];
      [ lia | ].
    exfalso. rewrite <- Hq in Hc. ring_simplify in Hc.
    revert Hc. apply Qlt_not_le. reflexivity.
  - destruct (py_round_cases q) as [-> | ->]; lia.
Qed.

(** The rounded value stays on the same side of every number [n * 2^E] of a
    grid at least as coarse as the one it is rounded to. *)
Lemma round_value_bounds (fmt : float_format) (x : Q) (E n : Z) :
  (gexp fmt x <= E)%Z ->
  (inject_Z n * pow2 E <= x -> inject_Z n * pow2 E <= round_value fmt x)
  /\ (x <= inject_Z n * pow2 E -> round_value fmt x <= inject_Z n * pow2 E).
Proof.
  intros HE. unfold round_value. set (e := gexp fmt x) in *.
  assert (Hg : inject_Z n * pow2 E == inject_Z (n * 2 ^ (E - e)) * pow2 e).
  { rewrite inject_Z_mult, <- pow2_nonneg_Z by lia.
    rewrite <- Qmult_assoc, <- pow2_add.
    now replace (E - e + e)%Z with E by lia. }
  rewrite Hg. pose proof (pow2_pos e) as Hp.
  split; intros H.
  - apply Qmult_le_compat_r; [ | now apply Qlt_le_weak ].
    rewrite <- Zle_Qle. apply py_round_ge.
    apply Qle_shift_div_l; assumption.
  - apply Qmult_le_compat_r; [ | now apply Qlt_le_weak ].
    rewrite <- Zle_Qle. apply py_round_le.
    apply Qle_shift_div_r; assumption.
Qed.

Lemma gexp_le (fmt : float_format) (x : Q) (E : Z) :
  0 < x -> x < pow2 (E + prec fmt) -> (emin fmt <= E)%Z ->
  (gexp fmt x <= E)%Z.
Proof.
  intros Hx Hlt He. unfold gexp.
  assert (Ha : Qabs x = x).
  { destruct x as [[ | p | p] d]; try reflexivity; discriminate Hx. }
  rewrite Ha. destruct (ilog2_spec x Hx) as [Hlo _].
  pose proof (pow2_lt_inv _ _ (Qle_lt_trans _ _ _ Hlo Hlt)). lia.
Qed.

(** Rounding a positive number between two numbers of its grid gives a
    finite float between them. *)
Lemma fl_round_between (fmt : float_format) (x : Q) (E lo hi : Z) :
  (0 <= lo)%Z -> (emin fmt <= E)%Z -> (E + prec fmt <= emax fmt)%Z ->
  inject_Z hi * pow2 E < pow2 (E + prec fmt) ->
  0 < x -> inject_Z lo * pow2 E <= x -> x <= inject_Z hi * pow2 E ->
  exists r,
    fl_round fmt x = Finite r
    /\ inject_Z lo * pow2 E <= r /\ r <= inject_Z hi * pow2 E.
Proof.
  intros Hlo He Hmax Hhi Hx H1 H2.
  assert (Hlo' : 0 <= inject_Z lo * pow2 E).
  { apply Qmult_le_0_compat; [ | apply Qlt_le_weak, pow2_pos ].
    change 0 with (inject_Z 0). now rewrite <- Zle_Qle. }
  assert (Hg : (gexp fmt x <= E)%Z).
  { apply gexp_le; try assumption. exact (Qle_lt_trans _ _ _ H2 Hhi). }
  destruct (round_value_bounds fmt x E lo Hg) as [Hl _].
  destruct (round_value_bounds fmt x E hi Hg) as [_ Hh].
  specialize (Hl H1). specialize (Hh H2).
  unfold fl_round.
  destruct (Qeq_bool x 0) eqn:Hz.
  { apply Qeq_bool_eq in Hz. rewrite Hz in Hx. discriminate Hx. }
  cbv zeta. set (r := round_value fmt x) in *.
  assert (Hr : 0 <= r) by exact (Qle_trans _ _ _ Hlo' Hl).
  assert (Habs : Qabs r == r) by now apply Qabs_pos.
  destruct (Qltb_spec (Qabs r) (pow2 (emax fmt))) as [_ | Hov].
  - exists (Qred r). split; [ reflexivity | ].
    rewrite Qred_correct. now split.
  - exfalso. rewrite Habs in Hov.
    apply (Qlt_irrefl r). eapply Qle_lt_trans; [ exact Hh | ].
    eapply Qlt_le_trans; [ exact Hhi | ].
    eapply Qle_trans; [ | exact Hov ]. now apply pow2_le.
Qed.

Lemma py_int_floor (x : Q) : 0 <= x -> py_int (Finite x) = Qfloor x.
Proof.
  destruct x as [n d]. unfold Qle, py_int, Qfloor. cbn. intros H.
  apply Z.quot_div_nonneg; lia.
Qed.

Ltac closed_le := vm_compute; intro; discriminate.
Ltac closed_lt := vm_compute; reflexivity.

(** The temperature register value, for every clipped temperature. *)
Lemma temp_value_range (fmt : float_format) (c : Q) :
  -40 <= c -> c <= 85 ->
  exists x,
    fmul fmt (fadd fmt (Finite c) (literal fmt 27315 100)) (Finite 64)
    = Finite x
    /\ 14921 <= x /\ x < 22922.
Proof.
  intros H40 H85.
  assert (Hk : exists k,
             literal fmt 27315 100 = Finite k
             /\ (2731499 # 10000) <= k /\ k <= (2731501 # 10000)).
  { destruct fmt; eexists; (split; [ vm_compute; reflexivity | ]);
      split; closed_le. }
  destruct Hk as (k & -> & Hk1 & Hk2).
  cbn [fadd].
  assert (Hs1 : (2331499 # 10000) <= c + k).
  { setoid_replace (2331499 # 10000) with (-40 + (2731499 # 10000))
      by reflexivity.
    now apply Qplus_le_compat. }
  assert (Hs2 : c + k <= (3581501 # 10000)).
  { setoid_replace (3581501 # 10000) with (85 + (2731501 # 10000))
      by reflexivity.
    now apply Qplus_le_compat. }
  assert (Hpos : 0 < c + k).
  { eapply Qlt_le_trans; [ | exact Hs1 ]. reflexivity. }
  set (E := (9 - prec fmt)%Z).
  destruct (fl_round_between fmt (c + k) E (14921 * 2 ^ (prec fmt - 15))
              (91687 * 2 ^ (prec fmt - 17)))
    as (y & -> & Hy1 & Hy2).
  { destruct fmt; vm_compute; discriminate. }
  { destruct fmt; vm_compute; discriminate. }
  { destruct fmt; vm_compute; discriminate. }
  { destruct fmt; closed_lt. }
  { exact Hpos. }
  { eapply Qle_trans; [ | exact Hs1 ]. destruct fmt; closed_le. }
  { eapply Qle_trans; [ exact Hs2 | ]. destruct fmt; closed_le. }
  cbn [fmul].
  assert (Hy1' : (14921 # 64) <= y).
  { eapply Qle_trans; [ | exact Hy1 ]. destruct fmt; closed_le. }
  assert (Hy2' : y <= (91687 # 256)).
  { eapply Qle_trans; [ exact Hy2 | ]. destruct fmt; closed_le. }
  assert (Hm1 : (14921 # 64) * 64 <= y * 64).
  { apply Qmult_le_compat_r; [ exact Hy1' | discriminate ]. }
  assert (Hm2 : y * 64 <= (91687 # 256) * 64).
  { apply Qmult_le_compat_r; [ exact Hy2' | discriminate ]. }
  set (E2 := (15 - prec fmt)%Z).
  destruct (fl_round_between fmt (y * 64) E2 (14921 * 2 ^ (prec fmt - 15))
              (91687 * 2 ^ (prec fmt - 17)))
    as (x & -> & Hx1 & Hx2).
  { destruct fmt; vm_compute; discriminate. }
  { destruct fmt; vm_compute; discriminate. }
  { destruct fmt; vm_compute; discriminate. }
  { destruct fmt; closed_lt. }
  { eapply Qlt_le_trans; [ | exact Hm1 ]. reflexivity. }
  { eapply Qle_trans; [ | exact Hm1 ]. destruct fmt; closed_le. }
  { eapply Qle_trans; [ exact Hm2 | ]. destruct fmt; closed_le. }
  exists x. split; [ reflexivity | ]. split.
  - eapply Qle_trans; [ | exact Hx1 ]. destruct fmt; closed_le.
  - eapply Qle_lt_trans; [ exact Hx2 | ]. destruct fmt; closed_lt.
Qed.

(** The humidity register value, for every clipped humidity. *)
Lemma rh_value_range (fmt : float_format) (c : Q) :
  0 <= c -> c <= 100 ->
  exists y,
    fmul fmt (Finite c) (Finite 512) = Finite y /\ 0 <= y /\ y <= 51200.
Proof.
  intros H0 H100. cbn [fmul].
  destruct (Qeq_bool (c * 512) 0) eqn:Hz.
  { exists 0. unfold fl_round. rewrite Hz. repeat split; discriminate. }
  assert (Hpos : 0 < c * 512).
  { apply Qeq_bool_neq in Hz.
    destruct (Qlt_le_dec 0 (c * 512)) as [Hlt | Hle]; [ exact Hlt | ].
    exfalso. apply Hz. apply Qle_antisym; [ exact Hle | ].
    apply Qmult_le_0_compat; [ exact H0 | discriminate ]. }
  assert (Hup : c * 512 <= 100 * 512).
  { apply Qmult_le_compat_r; [ exact H100 | discriminate ]. }
  destruct (fl_round_between fmt (c * 512) (16 - prec fmt) 0
              (51200 * 2 ^ (prec fmt - 16)))
    as (y & -> & Hy1 & Hy2).
  { lia. }
  { destruct fmt; vm_compute; discriminate. }
  { destruct fmt; vm_compute; discriminate. }
  { destruct fmt; closed_lt. }
  { exact Hpos. }
  { rewrite Qmult_0_l. now apply Qlt_le_weak. }
  { eapply Qle_trans; [ exact Hup | ]. destruct fmt; closed_le. }
  exists y. split; [ reflexivity | ]. split.
  - now rewrite Qmult_0_l in Hy1.
  - eapply Qle_trans; [ exact Hy2 | ]. destruct fmt; closed_le.
Qed.

(** Clipping with [max(lo, min(hi, t))]: a number that is not a float
    counts as the upper bound. *)
Lemma py_clip (lo hi : Q) (t : pyfloat) :
  lo < hi ->
  exists c,
    py_max (Finite lo) (py_min (Finite hi) t) = Finite c
    /\ lo <= c /\ c <= hi
    /\ match t with
       | Nan => c = hi
       | Inf negative => c = if negative then lo else hi
       | Finite q =>
           (q < lo -> c = lo) /\ (hi < q -> c = hi)
           /\ (lo <= q -> q <= hi -> c == q)
       end.
Proof.
  intros Hlt. assert (Hlh : lo <= hi) by now apply Qlt_le_weak.
  assert (Hlohi : Qltb lo hi = true).
  { destruct (Qltb_spec lo hi) as [_ | Hc]; [ reflexivity | ].
    exfalso. exact (Qlt_irrefl _ (Qlt_le_trans _ _ _ Hlt Hc)). }
  assert (Hhilo : Qltb hi lo = false).
  { destruct (Qltb_spec hi lo) as [Hc | _]; [ | reflexivity ].
    exfalso. exact (Qlt_irrefl _ (Qlt_trans _ _ _ Hlt Hc)). }
  unfold py_max, py_min.
  destruct t as [ | [ | ] | q]; cbn [flt negb].
  - rewrite Hlohi. exists hi. repeat split; try assumption. apply Qle_refl.
  - exists lo. repeat split; try assumption. apply Qle_refl.
  - cbn [flt]. rewrite Hlohi. exists hi.
    repeat split; try assumption. apply Qle_refl.
  - destruct (Qltb_spec q hi) as [Hq | Hq]; cbn [flt].
    + destruct (Qltb_spec lo q) as [Hl | Hl].
      * exists q. split; [ reflexivity | ].
        split; [ now apply Qlt_le_weak | ].
        split; [ now apply Qlt_le_weak | ].
        split; [ | split; [ | reflexivity ] ]; intros H; exfalso.
        -- exact (Qlt_irrefl _ (Qlt_trans _ _ _ H Hl)).
        -- exact (Qlt_irrefl _ (Qlt_trans _ _ _ H Hq)).
      * exists lo. split; [ reflexivity | ].
        split; [ apply Qle_refl | ]. split; [ exact Hlh | ].
        split; [ reflexivity | ].
        split; [ | intros H _; now apply Qle_antisym ].
        intros H. exfalso. exact (Qlt_irrefl _ (Qlt_trans _ _ _ H Hq)).
    + rewrite Hlohi. exists hi. split; [ reflexivity | ].
      split; [ exact Hlh | ]. split; [ apply Qle_refl | ].
      split; [ | split; [ reflexivity | intros _ H; now apply Qle_antisym ] ].
      intros H. exfalso.
      exact (Qlt_irrefl _ (Qlt_le_trans _ _ _ (Qlt_trans _ _ _ H Hlt) Hq)).
Qed.

End FloatTheory.

(** The float model gives the results of the Standard Library's
    specification of IEEE 754 arithmetic ([SpecFloat]), in both widths: for
    the constant 273.15; for [(t + 273.15) * 64] at every tenth of a degree
    from -45 to 90; for [h * 512] at every tenth of a percent from -5 to
    105; and for the comparison [<] on not-a-number, the infinities, zero
    and numbers around the bounds of the clipping. *)
Example float_model_agrees (fmt : float_format) :
  SF2Q (sf_literal fmt 27315 100) = literal fmt 27315 100
  /\ forallb
       (fun k =>
          let n := Z.of_nat k - 450 in
          pyfloat_eqb (SF2Q (sf_temp fmt (sf_literal fmt n 10)))
            (fmul fmt (fadd fmt (literal fmt n 10) (literal fmt 27315 100))
               (Finite 64)))
       (seq 0 1351) = true
  /\ forallb
       (fun k =>
          let n := Z.of_nat k - 50 in
          pyfloat_eqb (SF2Q (sf_rh fmt (sf_literal fmt n 10)))
            (fmul fmt (literal fmt n 10) (Finite 512)))
       (seq 0 1101) = true
  /\ forallb
       (fun a =>
          forallb
            (fun b => Bool.eqb (SFltb a b) (flt (SF2Q a) (SF2Q b)))
            (sf_samples fmt))
       (sf_samples fmt) = true.
Proof. destruct fmt; vm_compute; repeat split. Qed.

(** * ENS160: the register helpers *)

Section ENS160Access.

Import ENS160.

Variable i2c : bus.

Lemma retried_outcome {A : Type} (rq : request) (f : list Z -> A)
    (w : world ENS160.t) :
  access_outcome rq f w (retried i2c rq f w).
Proof.
  unfold access_outcome, retried.
  destruct (i2c (log w) rq) as [d | ]; cbv zeta.
  - split; [ reflexivity | ]. left.
    exists (as_bytes (nbytes_of rq) d).
    split; [ apply as_bytes_length | ]. repeat split.
  - destruct (i2c _ rq) as [d | ].
    + split; [ reflexivity | ]. right; left.
      exists (as_bytes (nbytes_of rq) d).
      split; [ apply as_bytes_length | ]. repeat split.
    + split; [ reflexivity | ]. right; right. repeat split.
Qed.


End ENS160Access.

(** * ENS160: [set_compensation] *)

Section ENS160Compensation.

Import ENS160.

(** A value that fits 16 bits is packed low byte first, and unpacking gives
    it back. *)
Lemma pack_H_little_endian (v : Z) :
  0 <= v < 65536 ->
  pack_H v = [v mod 256; v / 256] /\ unpack_H (pack_H v) = v.
Proof.
  intros Hv. unfold pack_H, unpack_H, getitem. cbn [nth].
  change 0xFF with (Z.ones 8). rewrite !Z.land_ones by lia.
  rewrite Z.shiftr_div_pow2, Z.shiftl_mul_pow2 by lia.
  change (2 ^ 8) with 256.
  assert (Hhi : 0 <= v / 256 < 256).
  { split; [ apply Z.div_pos; lia | apply Z.div_lt_upper_bound; lia ]. }
  rewrite (Z.mod_small (v / 256)) by exact Hhi.
  split; [ reflexivity | ].
  rewrite Z.lor_comm. change 256 with (2 ^ 8) at 2.
  rewrite lor_disjoint.
  - change (2 ^ 8) with 256. pose proof (Z.div_mod v 256). lia.
  - lia.
  - change (2 ^ 8) with 256. apply Z.mod_pos_bound. lia.
Qed.

(** The integer part of a float between two integers. *)
Lemma Qfloor_between (x : Q) (lo hi : Z) :
  (inject_Z lo <= x)%Q -> (x < inject_Z hi)%Q -> lo <= Qfloor x < hi.
Proof.
  intros H1 H2. split.
  - apply Qfloor_resp_le in H1. now rewrite Qfloor_Z in H1.
  - rewrite Zlt_Qlt. exact (Qle_lt_trans _ _ _ (Qfloor_le x) H2).
Qed.

(** The temperature value: clipping, then the two float operations, which
    give a finite float whose integer part is the value. *)
Lemma temp_value_spec (fmt : float_format) (temperature_c : pyfloat) :
  exists tc : Q,
    clip_temperature temperature_c = Finite tc
    /\ (-40 <= tc)%Q /\ (tc <= 85)%Q
    /\ match temperature_c with
       | Nan => tc = 85%Q
       | Inf negative => tc = if negative then (-40)%Q else 85%Q
       | Finite q =>
           ((q < -40)%Q -> tc = (-40)%Q) /\ ((85 < q)%Q -> tc = 85%Q)
           /\ ((-40 <= q)%Q -> (q <= 85)%Q -> (tc == q)%Q)
       end
    /\ exists x : Q,
         fmul fmt (fadd fmt (Finite tc) (literal fmt 27315 100)) (Finite 64)
         = Finite x
         /\ temp_value fmt temperature_c = Qfloor x
         /\ 14921 <= temp_value fmt temperature_c <= 22921.
Proof.
  destruct (py_clip (-40) 85 temperature_c eq_refl)
    as (tc & Htc & Ht1 & Ht2 & Ht3).
  exists tc. split; [ exact Htc | ].
  split; [ exact Ht1 | ]. split; [ exact Ht2 | ]. split; [ exact Ht3 | ].
  destruct (temp_value_range fmt tc Ht1 Ht2) as (x & Hx & Hx1 & Hx2).
  exists x. split; [ exact Hx | ].
  assert (Hv : temp_value fmt temperature_c = Qfloor x).
  { unfold temp_value, clip_temperature. rewrite Htc, Hx.
    apply py_int_floor. eapply Qle_trans; [ | exact Hx1 ]. discriminate. }
  split; [ exact Hv | ]. rewrite Hv.
  pose proof (Qfloor_between x 14921 22922 Hx1 Hx2). lia.
Qed.

(** The humidity value, in the same way. *)
Lemma rh_value_spec (fmt : float_format) (humidity_rh : pyfloat) :
  exists hc : Q,
    clip_humidity humidity_rh = Finite hc
    /\ (0 <= hc)%Q /\ (hc <= 100)%Q
    /\ match humidity_rh with
       | Nan => hc = 100%Q
       | Inf negative => hc = if negative then 0%Q else 100%Q
       | Finite q =>
           ((q < 0)%Q -> hc = 0%Q) /\ ((100 < q)%Q -> hc = 100%Q)
           /\ ((0 <= q)%Q -> (q <= 100)%Q -> (hc == q)%Q)
       end
    /\ exists y : Q,
         fmul fmt (Finite hc) (Finite 512) = Finite y
         /\ rh_value fmt humidity_rh = Qfloor y
         /\ 0 <= rh_value fmt humidity_rh <= 51200.
Proof.
  destruct (py_clip 0 100 humidity_rh eq_refl)
    as (hc & Hhc & Hh1 & Hh2 & Hh3).
  exists hc. split; [ exact Hhc | ].
  split; [ exact Hh1 | ]. split; [ exact Hh2 | ]. split; [ exact Hh3 | ].
  destruct (rh_value_range fmt hc Hh1 Hh2) as (y & Hy & Hy1 & Hy2).
  exists y. split; [ exact Hy | ].
  assert (Hv : rh_value fmt humidity_rh = Qfloor y).
  { unfold rh_value, clip_humidity. rewrite Hhc, Hy.
    now apply py_int_floor. }
  split; [ exact Hv | ]. rewrite Hv.
  assert (Hy3 : (y < inject_Z 51201)%Q).
  { eapply Qle_lt_trans; [ exact Hy2 | ]. reflexivity. }
  pose proof (Qfloor_between y 0 51201 Hy1 Hy3). lia.
Qed.

(** The compensation that the constructor and [reset] set, in both float
    widths. *)
Lemma default_compensation (fmt : float_format) :
  temp_value fmt (Finite 25) = 19081 /\ rh_value fmt (Finite 50) = 25600.
Proof. destruct fmt; vm_compute; split; reflexivity. Qed.

(** [set_compensation] is the write of the temperature value and, when this
    one returns, the write of the humidity value. *)
Lemma set_compensation_two_writes (fmt : float_format) (i2c : bus)
    (temperature_c humidity_rh : pyfloat) (w : world ENS160.t) :
  let first :=
    _write_register_16 i2c _REG_TEMP_IN (temp_value fmt temperature_c) w in
  set_compensation fmt i2c temperature_c humidity_rh w
  = match fst first with
    | Ok _ =>
        _write_register_16 i2c _REG_RH_IN (rh_value fmt humidity_rh)
          (snd first)
    | Raise e => (Raise e, snd first)
    | OutOfFuel => (OutOfFuel, snd first)
    end.
Proof.
  cbv zeta. unfold set_compensation, bind.
  destruct (_write_register_16 i2c _REG_TEMP_IN _ w) as [[ [] | e | ] w1];
    reflexivity.
Qed.

(** C2 (as amended). For every pair of float inputs (not-a-number and the
    infinities included), both float widths and every transport:
    [set_compensation] clips the temperature to [-40, 85] and the humidity
    to [0, 100], a not-a-number counting as the upper bound; it encodes
    [temp_in] as the integer part of the float [(clipped_temp + 273.15) *
    64] (each operation rounded to the float width) and [rh_in] as the
    integer part of the float [clipped_humidity * 512], not as the nearest
    integer; both values fit 16 bits and are sent low byte first; the call
    first writes [temp_in] to register 0x13 (with the one retry of the
    helper) and then, if that write was acknowledged, [rh_in] to register
    0x15, and makes no other transfer. *)
Theorem set_compensation_encoding (fmt : float_format) (i2c : bus)
    (temperature_c humidity_rh : pyfloat) (w : world ENS160.t) :
  let a := _address (obj w) in
  let tv := temp_value fmt temperature_c in
  let rv := rh_value fmt humidity_rh in
  (exists tc : Q,
     clip_temperature temperature_c = Finite tc
     /\ (-40 <= tc)%Q /\ (tc <= 85)%Q
     /\ match temperature_c with
        | Nan => tc = 85%Q
        | Inf negative => tc = if negative then (-40)%Q else 85%Q
        | Finite q =>
            ((q < -40)%Q -> tc = (-40)%Q) /\ ((85 < q)%Q -> tc = 85%Q)
            /\ ((-40 <= q)%Q -> (q <= 85)%Q -> (tc == q)%Q)
        end
     /\ exists x : Q,
          fmul fmt (fadd fmt (Finite tc) (literal fmt 27315 100))
            (Finite 64)
          = Finite x
          /\ tv = Qfloor x)
  /\ (exists hc : Q,
        clip_humidity humidity_rh = Finite hc
        /\ (0 <= hc)%Q /\ (hc <= 100)%Q
        /\ match humidity_rh with
           | Nan => hc = 100%Q
           | Inf negative => hc = if negative then 0%Q else 100%Q
           | Finite q =>
               ((q < 0)%Q -> hc = 0%Q) /\ ((100 < q)%Q -> hc = 100%Q)
               /\ ((0 <= q)%Q -> (q <= 100)%Q -> (hc == q)%Q)
           end
        /\ exists y : Q,
             fmul fmt (Finite hc) (Finite 512) = Finite y
             /\ rv = Qfloor y)
  /\ (14921 <= tv <= 22921
      /\ pack_H tv = [tv mod 256; tv / 256] /\ unpack_H (pack_H tv) = tv)
  /\ (0 <= rv <= 51200
      /\ pack_H rv = [rv mod 256; rv / 256] /\ unpack_H (pack_H rv) = rv)
  /\ (let first := _write_register_16 i2c _REG_TEMP_IN tv w in
      let last := set_compensation fmt i2c temperature_c humidity_rh w in
      access_outcome (writeto_mem a _REG_TEMP_IN (pack_H tv)) (fun _ => tt)
        w first
      /\ match fst first with
         | Ok _ =>
             access_outcome (writeto_mem a _REG_RH_IN (pack_H rv))
               (fun _ => tt) (snd first) last
         | _ => last = (Raise ENS160CommunicationError, snd first)
         end).
Proof.
  intros a tv rv.
  destruct (temp_value_spec fmt temperature_c)
    as (tc & Htc & Ht1 & Ht2 & Ht3 & x & Hx & Hv & Hb).
  destruct (rh_value_spec fmt humidity_rh)
    as (hc & Hhc & Hh1 & Hh2 & Hh3 & y & Hy & Hv' & Hb').
  fold tv in Hv, Hb. fold rv in Hv', Hb'.
  split.
  { exists tc. repeat (split; [ assumption | ]). exists x. now split. }
  split.
  { exists hc. repeat (split; [ assumption | ]). exists y. now split. }
  split; [ split; [ exact Hb | apply pack_H_little_endian; lia ] | ].
  split; [ split; [ exact Hb' | apply pack_H_little_endian; lia ] | ].
  cbv zeta. rewrite set_compensation_two_writes. fold tv rv.
  assert (H1 : access_outcome (writeto_mem a _REG_TEMP_IN (pack_H tv))
                 (fun _ => tt) w (_write_register_16 i2c _REG_TEMP_IN tv w)).
  { rewrite write_register_16_eq. apply retried_outcome. }
  split; [ exact H1 | ].
  destruct (_write_register_16 i2c _REG_TEMP_IN tv w) as [r1 w1] eqn:E1.
  cbn [fst snd].
  destruct H1 as (Ho & [ (d & _ & -> & _) | [ (d & _ & -> & _)
                      | (-> & _) ] ]).
  - rewrite write_register_16_eq.
    unfold a. rewrite <- Ho. apply retried_outcome.
  - rewrite write_register_16_eq.
    unfold a. rewrite <- Ho. apply retried_outcome.
  - reflexivity.
Qed.

(** At 25.0 degrees the code sends 19081 in both float widths: the integer
    part of the float product, which is 19081.6 up to the rounding of the
    two float operations; the nearest integer is 19082. *)
Lemma set_compensation_does_not_round :
  temp_value Binary64 (Finite 25) = 19081
  /\ temp_value Binary32 (Finite 25) = 19081
  /\ fmul Binary64 (fadd Binary64 (clip_temperature (Finite 25))
                      (literal Binary64 27315 100)) (Finite 64)
     = Finite (2622555134571315 # 137438953472)
  /\ py_round (2622555134571315 # 137438953472) = 19082
  /\ fmul Binary32 (fadd Binary32 (clip_temperature (Finite 25))
                      (literal Binary32 27315 100)) (Finite 64)
     = Finite (9769779 # 512)
  /\ py_round (9769779 # 512) = 19082
  /\ py_round ((25 + 273.15) * 64) = 19082.
Proof. vm_compute. repeat split. Qed.

(** The values of the specification, in both float widths: (25.0, 50.0)
    gives 0x4A89 and 0x6400, sent low byte first; (-50, -10) is encoded as
    (-40, 0) and (90, 120) as (85, 100); a not-a-number is encoded as the
    upper bound. *)
Example set_compensation_values (fmt : float_format) :
  temp_value fmt (Finite 25) = 0x4A89 /\ rh_value fmt (Finite 50) = 0x6400
  /\ pack_H (temp_value fmt (Finite 25)) = [0x89; 0x4A]
  /\ pack_H (rh_value fmt (Finite 50)) = [0x00; 0x64]
  /\ temp_value fmt (Finite (-50)) = temp_value fmt (Finite (-40))
  /\ rh_value fmt (Finite (-10)) = rh_value fmt (Finite 0)
  /\ temp_value fmt (Finite 90) = temp_value fmt (Finite 85)
  /\ rh_value fmt (Finite 120) = rh_value fmt (Finite 100)
  /\ temp_value fmt Nan = 22921 /\ rh_value fmt Nan = 51200
  /\ temp_value fmt (Inf true) = 14921 /\ rh_value fmt (Inf true) = 0.
Proof. destruct fmt; vm_compute; repeat split. Qed.

(** The float width shows: at the float nearest to -39.9 the sum with
    273.15 is rounded, and the code sends 14927 with 64-bit floats and
    14928 with 32-bit floats; in exact arithmetic the product is 14928. *)
Example set_compensation_float_width :
  temp_value Binary64 (literal Binary64 (-399) 10) = 14927
  /\ temp_value Binary32 (literal Binary32 (-399) 10) = 14928
  /\ Qfloor (((-399 # 10) + 273.15) * 64) = 14928.
Proof. vm_compute. repeat split. Qed.

(** On a bus that acknowledges everything the two registers are written
    once each, temperature first. *)
Example set_compensation_on_healthy_bus (fmt : float_format) :
  set_compensation fmt healthy_bus (Finite 25) (Finite 50)
    (world0 ens_fresh)
  = (Ok tt,
     World [Transfer (writeto_mem 0x53 _REG_RH_IN [0x00; 0x64]) (Done []);
            Transfer (writeto_mem 0x53 _REG_TEMP_IN [0x89; 0x4A]) (Done [])]
       0 ens_fresh).
Proof. destruct fmt; vm_compute; reflexivity. Qed.

End ENS160Compensation.

(** * The CRC detects a corrupted byte *)

Section CRCDetection.

Import AHT21.

Lemma in_bytes (x : Z) :
  0 <= x < 256 -> In x (map Z.of_nat (seq 0 256)).
Proof.
  intros Hx. rewrite <- (Z2Nat.id x) by lia.
  apply in_map, in_seq. lia.
Qed.

(** Eight shifts of the register permute the 256 byte values. *)
Lemma crc_shifts_injective (x y : Z) :
  0 <= x < 256 -> 0 <= y < 256 ->
  Z.land (crc_shifts 8 x) 0xFF = Z.land (crc_shifts 8 y) 0xFF -> x = y.
Proof.
  intros Hx Hy Heq.
  assert (Htable :
    forallb
      (fun x => forallb
                  (fun y => implb (Z.land (crc_shifts 8 x) 0xFF
                                   =? Z.land (crc_shifts 8 y) 0xFF)
                                  (x =? y))
                  (map Z.of_nat (seq 0 256)))
      (map Z.of_nat (seq 0 256)) = true)
    by (vm_compute; reflexivity).
  rewrite forallb_forall in Htable.
  specialize (Htable x (in_bytes x Hx)). rewrite forallb_forall in Htable.
  specialize (Htable y (in_bytes y Hy)).
  apply Z.eqb_eq in Heq. rewrite Heq in Htable.
  now apply Z.eqb_eq.
Qed.

Lemma lxor_byte (x y : Z) :
  0 <= x < 256 -> 0 <= y < 256 -> 0 <= Z.lxor x y < 256.
Proof.
  intros Hx Hy.
  assert (Htable :
    forallb
      (fun x => forallb
                  (fun y => (0 <=? Z.lxor x y) && (Z.lxor x y <? 256))
                  (map Z.of_nat (seq 0 256)))
      (map Z.of_nat (seq 0 256)) = true)
    by (vm_compute; reflexivity).
  rewrite forallb_forall in Htable.
  specialize (Htable x (in_bytes x Hx)). rewrite forallb_forall in Htable.
  specialize (Htable y (in_bytes y Hy)).
  apply andb_prop in Htable as [H1 H2].
  apply Z.leb_le in H1. apply Z.ltb_lt in H2. lia.
Qed.

Lemma lxor_cancel_l (x y z : Z) : Z.lxor x y = Z.lxor x z -> y = z.
Proof.
  intros H. apply (f_equal (Z.lxor x)) in H.
  now rewrite <- !Z.lxor_assoc, Z.lxor_nilpotent, !Z.lxor_0_l in H.
Qed.

Lemma lxor_cancel_r (x y z : Z) : Z.lxor y x = Z.lxor z x -> y = z.
Proof. rewrite !(Z.lxor_comm _ x). apply lxor_cancel_l. Qed.

Lemma crc_byte_injective_acc (acc acc' byte : Z) :
  0 <= acc < 256 -> 0 <= acc' < 256 -> 0 <= byte < 256 ->
  crc_byte acc byte = crc_byte acc' byte -> acc = acc'.
Proof.
  intros Ha Ha' Hb H. unfold crc_byte in H.
  apply crc_shifts_injective in H; try (apply lxor_byte; assumption).
  exact (lxor_cancel_r _ _ _ H).
Qed.

Lemma crc_byte_injective_byte (acc byte byte' : Z) :
  0 <= acc < 256 -> 0 <= byte < 256 -> 0 <= byte' < 256 ->
  crc_byte acc byte = crc_byte acc byte' -> byte = byte'.
Proof.
  intros Ha Hb Hb' H. unfold crc_byte in H.
  apply crc_shifts_injective in H; try (apply lxor_byte; assumption).
  exact (lxor_cancel_l _ _ _ H).
Qed.

Lemma fold_crc_injective (l : list Z) (acc acc' : Z) :
  Forall (fun x => 0 <= x < 256) l ->
  0 <= acc < 256 -> 0 <= acc' < 256 ->
  fold_left crc_byte l acc = fold_left crc_byte l acc' -> acc = acc'.
Proof.
  intros Hl. revert acc acc'.
  induction Hl as [ | x l Hx Hl IH]; intros acc acc' Ha Ha' H.
  - exact H.
  - cbn [fold_left] in H.
    apply IH in H; try apply crc_byte_range.
    exact (crc_byte_injective_acc _ _ _ Ha Ha' Hx H).
Qed.

Lemma forall_firstn (P : Z -> Prop) (n : nat) (l : list Z) :
  Forall P l -> Forall P (firstn n l).
Proof.
  intros H. revert n. induction H as [ | x l Hx Hl IH]; intros [ | n];
    cbn [firstn]; constructor; auto.
Qed.

(** Two inputs that differ in one of their first six bytes have different
    checksums. *)
Lemma calculate_crc8_one_byte (pre post : list Z) (b b' : Z) :
  (length pre < 6)%nat ->
  Forall (fun x => 0 <= x < 256) (pre ++ b :: post) ->
  0 <= b' < 256 -> b <> b' ->
  _calculate_crc8 (pre ++ b :: post) <> _calculate_crc8 (pre ++ b' :: post).
Proof.
  intros Hlen Hall Hb' Hne Heq. unfold _calculate_crc8 in Heq.
  apply Forall_app in Hall as [Hpre Hpost].
  inversion Hpost as [ | ? ? Hb Hpost']; subst.
  rewrite !firstn_app, !(firstn_all2 pre) in Heq by lia.
  destruct (6 - length pre)%nat as [ | k] eqn:Hk; [ lia | ].
  cbn [firstn] in Heq. rewrite !fold_left_app in Heq. cbn [fold_left] in Heq.
  assert (Hacc : 0 <= fold_left crc_byte pre AHT21_CRC_INIT < 256).
  { apply fold_crc_range. unfold AHT21_CRC_INIT. lia. }
  apply fold_crc_injective in Heq; try apply crc_byte_range.
  - apply Hne. exact (crc_byte_injective_byte _ _ _ Hacc Hb Hb' Heq).
  - apply forall_firstn. exact Hpost'.
Qed.

(** X1. A 7-byte frame that the driver accepts (its seventh byte is the
    checksum of the first six) is rejected as a CRC mismatch as soon as any
    one of its seven bytes is replaced by another byte value. *)
Theorem crc_detects_one_corrupted_byte (a : Z) (pre post : list Z)
    (b b' : Z) :
  length (pre ++ b :: post) = 7%nat ->
  Forall (fun x => 0 <= x < 256) (pre ++ b :: post) ->
  0 <= b' < 256 -> b <> b' ->
  is_crc_mismatch (Transfer (readfrom a 7) (Done (pre ++ b :: post))) = false ->
  is_crc_mismatch (Transfer (readfrom a 7) (Done (pre ++ b' :: post))) = true.
Proof.
  intros Hlen Hall Hb' Hne Hok. unfold is_crc_mismatch in *.
  apply negb_false_iff, Z.eqb_eq in Hok.
  apply negb_true_iff, Z.eqb_neq.
  rewrite calculate_crc8_firstn in *. unfold getitem in *.
  rewrite length_app in Hlen. cbn [length] in Hlen.
  destruct (Nat.eq_dec (length pre) 6) as [H6 | H6].
  - (* the checksum byte itself *)
    destruct post as [ | ? ?]; [ | cbn [length] in Hlen; lia ].
    rewrite app_nth2, H6 in * by lia. cbn [Nat.sub nth] in *.
    unfold _calculate_crc8 in *.
    rewrite !firstn_app, H6 in *. cbn [Nat.sub firstn] in *.
    rewrite Hok. exact Hne.
  - (* one of the six data bytes *)
    assert (Hlt : (length pre < 6)%nat) by lia.
    intros Heq.
    apply (calculate_crc8_one_byte pre post b b' Hlt Hall Hb' Hne).
    rewrite Hok, Heq.
    rewrite !app_nth2 by lia.
    destruct (6 - length pre)%nat as [ | k] eqn:Hk; [ lia | reflexivity ].
Qed.

Lemma crc_detects_one_corrupted_byte_witness :
  is_crc_mismatch (Transfer (readfrom 0x38 7) (Done good_frame)) = false
  /\ is_crc_mismatch
       (Transfer (readfrom 0x38 7)
          (Done [0x1C; 0x80; 0x01; 0x05; 0x00; 0x00; 0x84])) = true.
Proof.
  assert (Hok : is_crc_mismatch
                  (Transfer (readfrom 0x38 7)
                     (Done ([0x1C; 0x80] ++ 0x00 :: [0x05; 0x00; 0x00; 0x84])))
                = false) by (vm_compute; reflexivity).
  split; [ exact Hok | ].
  apply (crc_detects_one_corrupted_byte 0x38 [0x1C; 0x80]
           [0x05; 0x00; 0x00; 0x84] 0x00 0x01).
  - reflexivity.
  - repeat constructor; lia.
  - lia.
  - discriminate.
  - exact Hok.
Defined.

End CRCDetection.

(** * AHT21: how long a read blocks *)

Section AHT21Time.

Import AHT21.

Variable i2c : bus.
Context {Ob : Type}.
Variable self : AHT21.t.

Lemma is_busy_clock (w : world Ob) :
  clock (snd (_is_busy i2c self w)) = clock w.
Proof.
  pose proof (is_busy_spec i2c self w) as H.
  destruct (_is_busy i2c self w) as [r w1].
  destruct H as (evs & _ & Hclk & _). exact Hclk.
Qed.

Lemma busy_loop_clock (start_time : Z) (fuel : nat) :
  forall w : world Ob,
    let '(r, w') := busy_loop i2c self start_time fuel w in
    clock w <= clock w'
    /\ clock w' <= Z.max (clock w) (start_time + AHT21_BUSY_TIMEOUT + 5).
Proof.
  unfold AHT21_BUSY_TIMEOUT.
  induction fuel as [ | fuel IH]; intros w.
  - cbn. lia.
  - cbn [busy_loop]. unfold bind at 1.
    pose proof (is_busy_clock w) as Hclk.
    destruct (_is_busy i2c self w) as [[[ | ] | e | ] w1]; cbn [snd] in *.
    + unfold bind at 1, ticks_ms at 1, ticks_diff.
      destruct (clock w1 - start_time >? AHT21_BUSY_TIMEOUT) eqn:Ht.
      * unfold raise. lia.
      * unfold AHT21_BUSY_TIMEOUT in Ht.
        rewrite Z.gtb_ltb in Ht. apply Z.ltb_ge in Ht.
        unfold bind at 1, sleep_ms at 1.
        set (w2 := World (Sleep 5 :: log w1) (clock w1 + 5) (obj w1)).
        specialize (IH w2).
        destruct (busy_loop i2c self start_time fuel w2) as [r w3].
        subst w2. cbn [clock] in IH. lia.
    + unfold ret. lia.
    + lia.
    + lia.
Qed.

Lemma measure_clock (w : world Ob) :
  let '(r, w') := measure i2c self w in
  clock w <= clock w'
  /\ clock w' <= clock w + AHT21_MEASUREMENT_DELAY + AHT21_BUSY_TIMEOUT + 5
  /\ (forall v, r = Ok v -> clock w + AHT21_MEASUREMENT_DELAY <= clock w').
Proof.
  unfold measure. unfold bind at 1, transfer at 1.
  destruct (i2c (log w) _) as [d0 | ]; cbn [nbytes_of].
  2:{ cbn [clock]. unfold AHT21_MEASUREMENT_DELAY, AHT21_BUSY_TIMEOUT.
      split; [ lia | ]. split; [ lia | discriminate ]. }
  unfold bind at 1, sleep_ms at 1. unfold bind at 1, ticks_ms at 1.
  cbn [log clock obj]. unfold bind at 1.
  set (w1 := World _ (clock w + AHT21_MEASUREMENT_DELAY) _).
  change (clock w + AHT21_MEASUREMENT_DELAY) with (clock w1).
  pose proof (busy_loop_clock (clock w1) poll_fuel w1) as H.
  destruct (busy_loop i2c self (clock w1) poll_fuel w1) as [[[] | e | ] w2];
    unfold AHT21_MEASUREMENT_DELAY, AHT21_BUSY_TIMEOUT in *;
    subst w1; cbn [clock] in *.
  - unfold bind at 1, transfer at 1. cbv beta.
    destruct (i2c (log w2) (readfrom (_address self) 7)) as [d1 | ];
      cbn [nbytes_of].
    + destruct (negb _); unfold raise, ret; cbn [clock];
        (split; [ lia | ]); (split; [ lia | ]); intros v Hv;
        try discriminate Hv; lia.
    + cbn [clock]. split; [ lia | ]. split; [ lia | discriminate ].
  - split; [ lia | ]. split; [ lia | discriminate ].
  - split; [ lia | ]. split; [ lia | discriminate ].
Qed.

Lemma retry_loop_clock (retries : Z) (n : nat) :
  forall (attempt : Z) (w : world Ob),
    (0 < n)%nat -> attempt + Z.of_nat n = retries ->
    let '(r, w') := retry_loop i2c self retries attempt n w in
    clock w <= clock w'
    /\ clock w' <= clock w + 285 * Z.of_nat n - 50
    /\ (forall v, r = Ok (Some v) -> clock w + 80 <= clock w').
Proof.
  induction n as [ | n IH]; intros attempt w Hpos Hn; [ inversion Hpos | ].
  cbn [retry_loop]. unfold bind at 1, try_except at 1. unfold bind at 1.
  pose proof (measure_clock w) as H.
  unfold AHT21_MEASUREMENT_DELAY, AHT21_BUSY_TIMEOUT in H.
  destruct (measure i2c self w) as [[v | e | ] w1].
  - destruct H as (H1 & H2 & H3). unfold ret.
    split; [ lia | ]. split; [ lia | ].
    intros v' _. exact (H3 v eq_refl).
  - destruct H as (H1 & H2 & _).
    destruct (crc_or_timeout e).
    + destruct (attempt =? retries - 1) eqn:Hlast.
      * unfold raise. split; [ lia | ]. split; [ lia | discriminate ].
      * apply Z.eqb_neq in Hlast.
        unfold bind at 1, sleep_ms at 1, ret at 1. cbv beta iota.
        set (w2 := World (Sleep 50 :: log w1) (clock w1 + 50) (obj w1)).
        specialize (IH (attempt + 1) w2).
        destruct (retry_loop i2c self retries (attempt + 1) n w2) as [r w3].
        destruct IH as (I1 & I2 & I3); [ lia | lia | ].
        subst w2. cbn [clock] in *.
        split; [ lia | ]. split; [ lia | ].
        intros v Hv. specialize (I3 v Hv). lia.
    + split; [ lia | ]. split; [ lia | discriminate ].
  - destruct H as (H1 & H2 & _).
    split; [ lia | ]. split; [ lia | discriminate ].
Qed.

End AHT21Time.

(** X2. For every transport and every [retries >= 1], the waits of one call
    of [read_temperature_humidity] add up to at most
    [retries * (80 + 155) + (retries - 1) * 50] ms (805 ms for the default
    of 3), and to at least the 80 ms conversion delay when the call returns
    a reading. *)
Theorem read_temperature_humidity_blocking_time (i2c : bus) (Ob : Type)
    (self : AHT21.t) (retries : Z) (w : world Ob) :
  1 <= retries ->
  let '(r, w') := AHT21.read_temperature_humidity i2c self retries w in
  clock w <= clock w'
  /\ clock w' - clock w <= retries * (80 + 155) + (retries - 1) * 50
  /\ (forall v, r = Ok (Some v) -> 80 <= clock w' - clock w).
Proof.
  intros Hr. unfold AHT21.read_temperature_humidity.
  pose proof (retry_loop_clock i2c self retries (Z.to_nat retries) 0 w) as H.
  destruct (AHT21.retry_loop i2c self retries 0 (Z.to_nat retries) w)
    as [r w'].
  rewrite Z2Nat.id in H by lia.
  destruct H as (H1 & H2 & H3); [ lia | lia | ].
  split; [ lia | ]. split; [ lia | ].
  intros v Hv. specialize (H3 v Hv). lia.
Qed.

Lemma read_temperature_humidity_blocking_time_witness :
  1 <= 3
  /\ clock (snd (AHT21.read_temperature_humidity crc_twice_bus sensor 3
                   (world0 tt))) - 0
     <= 3 * (80 + 155) + (3 - 1) * 50.
Proof.
  split; [ lia | ].
  pose proof (read_temperature_humidity_blocking_time
                crc_twice_bus unit sensor 3 (world0 tt) ltac:(lia)) as H.
  destruct (AHT21.read_temperature_humidity crc_twice_bus sensor 3
              (world0 tt)) as [r w'].
  destruct H as (_ & H & _). exact H.
Defined.

(** * AHT21: a sensor that stays busy *)

Section AHT21AlwaysBusy.

Import AHT21.

Variable i2c : bus.
Context {Ob : Type}.
Variable self : AHT21.t.
Hypothesis Hbusy : always_busy (_address self) i2c.

Lemma is_busy_always (w : world Ob) :
  exists w1, _is_busy i2c self w = (Ok true, w1) /\ clock w1 = clock w.
Proof.
  unfold _is_busy, _read_status, bind, transfer, ret. cbv beta.
  destruct (Hbusy (log w)) as [Hw _].
  destruct (i2c (log w) (writeto (_address self) [AHT21_CMD_STATUS]))
    as [d0 | ] eqn:E0; [ | contradiction (Hw _ E0) ].
  cbn [log clock obj nbytes_of].
  match goal with
  | |- context [i2c ?h (readfrom (_address self) 1)] =>
      destruct (Hbusy h) as [_ (d & Hd & Hbit)]; rewrite Hd
  end.
  cbn [log clock obj nbytes_of].
  apply Z.eqb_neq in Hbit. rewrite Hbit. cbn [negb].
  eexists. split; reflexivity.
Qed.

Lemma busy_loop_always_busy (start_time : Z) (fuel : nat) :
  forall (w : world Ob) (j : Z),
    0 <= j <= 31 -> clock w = start_time + 5 * j ->
    32 - j <= Z.of_nat fuel ->
    exists w',
      busy_loop i2c self start_time fuel w = (Raise AHT21TimeoutError, w')
      /\ clock w' = start_time + 155.
Proof.
  induction fuel as [ | fuel IH]; intros w j Hj Hclk Hfuel; [ lia | ].
  cbn [busy_loop]. unfold bind at 1.
  destruct (is_busy_always w) as (w1 & -> & Hclk1).
  unfold bind at 1, ticks_ms at 1, ticks_diff, AHT21_BUSY_TIMEOUT.
  destruct (clock w1 - start_time >? 150) eqn:Ht.
  - rewrite Z.gtb_ltb in Ht. apply Z.ltb_lt in Ht.
    unfold raise. eexists. split; [ reflexivity | lia ].
  - rewrite Z.gtb_ltb in Ht. apply Z.ltb_ge in Ht.
    unfold bind at 1, sleep_ms at 1.
    apply (IH _ (j + 1)); cbn [clock]; lia.
Qed.

Lemma measure_always_busy (w : world Ob) :
  exists w',
    measure i2c self w = (Raise AHT21TimeoutError, w')
    /\ clock w' = clock w + 235.
Proof.
  unfold measure. unfold bind at 1, transfer at 1.
  destruct (Hbusy (log w)) as [Hw _].
  destruct (i2c (log w) (writeto (_address self) [AHT21_CMD_TRIGGER; 51; 0]))
    as [d0 | ] eqn:E0; [ | contradiction (Hw _ E0) ].
  cbn [nbytes_of]. unfold bind at 1, sleep_ms at 1.
  unfold bind at 1, ticks_ms at 1. cbn [log clock obj]. unfold bind at 1.
  set (w1 := World _ (clock w + AHT21_MEASUREMENT_DELAY) _).
  change (clock w + AHT21_MEASUREMENT_DELAY) with (clock w1).
  destruct (busy_loop_always_busy (clock w1) poll_fuel w1 0)
    as (w2 & -> & Hclk); [ lia | lia | change poll_fuel with 32%nat; lia | ].
  eexists. split; [ reflexivity | ].
  rewrite Hclk. subst w1. cbn [clock]. unfold AHT21_MEASUREMENT_DELAY. lia.
Qed.

Lemma retry_loop_always_busy (retries : Z) (n : nat) :
  forall (attempt : Z) (w : world Ob),
    (0 < n)%nat -> attempt + Z.of_nat n = retries ->
    exists w',
      retry_loop i2c self retries attempt n w = (Raise AHT21TimeoutError, w')
      /\ clock w' = clock w + 285 * Z.of_nat n - 50.
Proof.
  induction n as [ | n IH]; intros attempt w Hpos Hn; [ inversion Hpos | ].
  cbn [retry_loop]. unfold bind at 1, try_except at 1. unfold bind at 1.
  destruct (measure_always_busy w) as (w1 & -> & Hclk).
  cbn [crc_or_timeout].
  destruct (attempt =? retries - 1) eqn:Hlast.
  - apply Z.eqb_eq in Hlast. unfold raise.
    eexists. split; [ reflexivity | lia ].
  - apply Z.eqb_neq in Hlast.
    unfold bind at 1, sleep_ms at 1, ret at 1. cbv beta iota.
    destruct (IH (attempt + 1)
                (World (Sleep 50 :: log w1) (clock w1 + 50) (obj w1)))
      as (w2 & -> & Hclk2); [ lia | lia | ].
    eexists. split; [ reflexivity | ]. cbn [clock] in Hclk2. lia.
Qed.

End AHT21AlwaysBusy.

(** X3. On a transport where the sensor acknowledges every command and
    reports itself busy at every status read, the call with [retries >= 1]
    raises [AHT21TimeoutError] after exactly [retries] attempts; each
    attempt waits 80 ms and then polls for 155 ms, so the waits of the call
    add up to [retries * 235 + (retries - 1) * 50] ms. *)
Theorem read_temperature_humidity_always_busy (i2c : bus) (Ob : Type)
    (self : AHT21.t) (retries : Z) (w : world Ob) :
  always_busy (AHT21._address self) i2c -> 1 <= retries ->
  let '(r, w') := AHT21.read_temperature_humidity i2c self retries w in
  r = Raise AHT21TimeoutError
  /\ clock w' = clock w + retries * 235 + (retries - 1) * 50
  /\ exists evs,
       log w' = evs ++ log w
       /\ count (is_trigger (AHT21._address self)) evs = retries.
Proof.
  intros Hbusy Hr.
  pose proof (read_spec i2c Ob self retries w Hr) as Hspec.
  unfold AHT21.read_temperature_humidity in *.
  destruct (retry_loop_always_busy i2c self Hbusy retries
              (Z.to_nat retries) 0 w) as (w1 & Heq & Hclk); [ lia | lia | ].
  rewrite Heq in *. rewrite Z2Nat.id in Hclk by lia.
  split; [ reflexivity | ]. split; [ lia | ].
  destruct Hspec as (evs & rp & Hlog & _ & _ & _ & _ & _
                     & ev & older & _ & _ & Hcount).
  eexists. split; [ exact Hlog | ]. now apply Hcount.
Qed.

Lemma read_temperature_humidity_always_busy_witness :
  always_busy 0x38 always_busy_bus /\ 1 <= 3
  /\ fst (AHT21.read_temperature_humidity always_busy_bus sensor 3
            (world0 tt)) = Raise AHT21TimeoutError
  /\ clock (snd (AHT21.read_temperature_humidity always_busy_bus sensor 3
                   (world0 tt))) = 805.
Proof.
  assert (Hb : always_busy 0x38 always_busy_bus).
  { intros h. split; [ discriminate | ].
    exists [0x80]. split; [ reflexivity | discriminate ]. }
  split; [ exact Hb | ]. split; [ lia | ].
  pose proof (read_temperature_humidity_always_busy
                always_busy_bus unit sensor 3 (world0 tt) Hb ltac:(lia)) as H.
  destruct (AHT21.read_temperature_humidity always_busy_bus sensor 3
              (world0 tt)) as [r w'].
  destruct H as (H1 & H2 & _). split; [ exact H1 | exact H2 ].
Defined.

(** * ENS160: the constructor and [reset] *)

Section ENS160StartUp.

Import ENS160.

Variable fmt : float_format.
Variable i2c : bus.

Lemma bind_assoc {A B C : Type} (m : M t A) (k : A -> M t B)
    (h : B -> M t C) (w : world t) :
  bind (bind m k) h w = bind m (fun x => bind (k x) h) w.
Proof.
  unfold bind. destruct (m w) as [[x | e | ] w1]; reflexivity.
Qed.

Lemma bind_ext {A B : Type} (m : M t A) (k k' : A -> M t B) (w : world t) :
  (forall x w1, k x w1 = k' x w1) -> bind m k w = bind m k' w.
Proof.
  intros H. unfold bind. destruct (m w) as [[x | e | ] w1]; auto.
Qed.

Lemma bind_retried {A B : Type} (rq : request) (f : list Z -> A)
    (k : A -> M t B) (w : world t) :
  bind (retried i2c rq f) k w
  = match i2c (log w) rq with
    | Done d =>
        let d' := as_bytes (nbytes_of rq) d in
        k (f d') (World (Transfer rq (Done d') :: log w) (clock w) (obj w))
    | Fail =>
        let l1 := Sleep 10 :: Transfer rq Fail :: log w in
        match i2c l1 rq with
        | Done d =>
            let d' := as_bytes (nbytes_of rq) d in
            k (f d')
              (World (Transfer rq (Done d') :: l1) (clock w + 10) (obj w))
        | Fail =>
            (Raise ENS160CommunicationError,
             World (Transfer rq Fail :: l1) (clock w + 10) (obj w))
        end
    end.
Proof.
  unfold bind, retried.
  destruct (i2c (log w) rq); [ reflexivity | ].
  destruct (i2c _ rq); reflexivity.
Qed.

Lemma bind_write_register {B : Type} (reg value : Z) (k : unit -> M t B)
    (w : world t) :
  bind (_write_register i2c reg value) k w
  = bind (retried i2c (writeto_mem (_address (obj w)) reg [value])
            (fun _ => tt)) k w.
Proof. unfold bind. now rewrite write_register_eq. Qed.

Lemma bind_write_register_16 {B : Type} (reg value : Z) (k : unit -> M t B)
    (w : world t) :
  bind (_write_register_16 i2c reg value) k w
  = bind (retried i2c (writeto_mem (_address (obj w)) reg (pack_H value))
            (fun _ => tt)) k w.
Proof. unfold bind. now rewrite write_register_16_eq. Qed.

Lemma bind_sleep {B : Type} (ms : Z) (k : unit -> M t B) (w : world t) :
  bind (sleep_ms ms) k w
  = k tt (World (Sleep ms :: log w) (clock w + ms) (obj w)).
Proof. reflexivity. Qed.

Ltac ask_bus :=
  match goal with
  | |- context [match i2c ?h ?rq with _ => _ end] =>
      destruct (i2c h rq); cbv beta iota zeta
  end.

Ltac run_bus :=
  repeat first
    [ rewrite bind_write_register
    | rewrite bind_write_register_16
    | rewrite bind_assoc
    | rewrite bind_sleep; cbn [log clock obj]
    | rewrite bind_retried;
      cbn [nbytes_of as_bytes firstn map log clock obj _address]; ask_bus
    | ask_bus ].

Ltac prefix_of l base :=
  lazymatch l with
  | base => constr:(@nil event)
  | ?x :: ?tl => let r := prefix_of tl base in constr:(x :: r)
  end.

Ltac give_events :=
  match goal with
  | |- exists evs, ?l = evs ++ ?base /\ _ =>
      let p := prefix_of l base in exists p; split; [ reflexivity | ]
  end.

Ltac read_log :=
  repeat first
    [ rewrite Z.eqb_refl
    | progress cbn [last_acked_write andb Z.eqb Pos.eqb] ].

Ltac read_run :=
  cbn [rev app];
  repeat first
    [ rewrite run_of_wait
    | rewrite run_of_ack
    | rewrite run_of_retry_ack
    | rewrite run_of_refused ];
  reflexivity.

(** The sequence that both the constructor and [reset] run: Reset, 20 ms,
    Idle, 10 ms, the default compensation, Standard, 10 ms. *)
Lemma startup_outcome (w : world ENS160.t) :
  let a := _address (obj w) in
  let '(r, w') :=
    (_write_register i2c _REG_OPMODE _OPMODE_RESET ;;
     sleep_ms _TIMING_RESET ;;
     _write_register i2c _REG_OPMODE _OPMODE_IDLE ;;
     sleep_ms _TIMING_MODE_SWITCH ;;
     set_compensation fmt i2c (Finite 25) (Finite 50) ;;
     _write_register i2c _REG_OPMODE _OPMODE_STANDARD ;;
     sleep_ms _TIMING_MODE_SWITCH) w in
  exists evs,
    log w' = evs ++ log w
    /\ adjacent settle_discipline evs = true
    /\ clock w <= clock w' <= clock w + 90
    /\ obj w' = obj w
    /\ forallb (fun ev => is_write ev || is_sleep 10 ev || is_sleep 20 ev) evs
       = true
    /\ count (is_sleep 200) evs = 0
    /\ match r with
       | Ok _ =>
           run_of true (ens160_startup_script a) (rev evs) = Some Completed
           /\ clock w + 40 <= clock w'
           /\ hd_error evs = Some (Sleep _TIMING_MODE_SWITCH)
           /\ last_acked_write a _REG_OPMODE evs = Some [_OPMODE_STANDARD]
           /\ last_acked_write a _REG_TEMP_IN evs = Some (pack_H 19081)
           /\ last_acked_write a _REG_RH_IN evs = Some (pack_H 25600)
       | Raise e =>
           run_of true (ens160_startup_script a) (rev evs) = Some Aborted
           /\ e = ENS160CommunicationError
           /\ exists rq older, evs = Transfer rq Fail :: older
       | OutOfFuel => False
       end.
Proof.
  intros a. unfold set_compensation.
  rewrite (proj1 (default_compensation fmt)),
    (proj2 (default_compensation fmt)).
  run_bus.
  all: unfold sleep_ms; cbv beta iota zeta; cbn [log clock obj].
  all: give_events.
  all: (split; [ vm_compute; reflexivity | ]).
  all: (split; [ cbn [clock]; unfold _TIMING_RESET, _TIMING_MODE_SWITCH; lia | ]).
  all: (split; [ reflexivity | ]).
  all: (split; [ vm_compute; reflexivity | ]).
  all: (split; [ vm_compute; reflexivity | ]).
  all: (split; [ unfold ens160_startup_script;
                 change [137; 74] with (pack_H 19081);
                 change [0; 100] with (pack_H 25600); read_run | ]).
  all: try (split; [ reflexivity | ]; do 2 eexists; reflexivity).
  all: (split; [ cbn [clock]; unfold _TIMING_RESET, _TIMING_MODE_SWITCH; lia | ]).
  all: (split; [ reflexivity | ]).
  all: fold a; split; [ read_log; reflexivity | split; read_log; reflexivity ].
Qed.

Lemma reset_eq (w : world ENS160.t) :
  reset fmt i2c w
  = bind (_write_register i2c _REG_OPMODE _OPMODE_RESET ;;
          sleep_ms _TIMING_RESET ;;
          _write_register i2c _REG_OPMODE _OPMODE_IDLE ;;
          sleep_ms _TIMING_MODE_SWITCH ;;
          set_compensation fmt i2c (Finite 25) (Finite 50) ;;
          _write_register i2c _REG_OPMODE _OPMODE_STANDARD ;;
          sleep_ms _TIMING_MODE_SWITCH)
      (fun _ => set_aqi 0 ;; set_tvoc 0 ;; set_eco2 400 ;;
                set_validity_flag 1) w.
Proof.
  unfold reset. rewrite !bind_assoc.
  repeat (apply bind_ext; intros; rewrite ?bind_assoc).
  reflexivity.
Qed.

Lemma reset_cache (w : world ENS160.t) :
  let '(r, w') := reset fmt i2c w in
  exists evs,
    log w' = evs ++ log w
    /\ clock w <= clock w'
    /\ count (is_sleep 200) evs = 0
    /\ match r with
       | Ok _ => obj w' = default_cache (_address (obj w))
       | Raise e => e = ENS160CommunicationError /\ obj w' = obj w
       | OutOfFuel => False
       end.
Proof.
  rewrite reset_eq. unfold bind at 1.
  pose proof (startup_outcome w) as H. cbv zeta in H.
  match type of H with
  | (let '(_, _) := ?m in _) => destruct m as [[[] | e | ] w1]
  end; destruct H as (evs & Hl & _ & Hc & Ho & _ & Hn & H); exists evs.
  - cbn. rewrite Ho. repeat split; try assumption; lia.
  - repeat split; try assumption; try lia. apply H.
  - destruct H.
Qed.

(** X5. [reset], for every transport. It only writes and waits, and every
    acknowledged mode switch is directly followed by its settle time (20 ms
    after Reset, 10 ms after Idle and Standard); the call takes at most
    90 ms. When it returns, it took at least 40 ms, the cached reading is
    back at the constructor's values (AQI 0, TVOC 0, eCO2 400, validity
    Warm-up), the device was last told to run in Standard mode and to
    compensate for 25 degrees C (19081) and 50 %RH (25600). When a write
    is refused twice it raises [ENS160CommunicationError], the refused
    transfer being the last thing that happened, and the cached reading is
    untouched. *)
Theorem reset_restores_defaults (w : world ENS160.t) :
  let a := _address (obj w) in
  let '(r, w') := reset fmt i2c w in
  exists evs,
    log w' = evs ++ log w
    /\ adjacent settle_discipline evs = true
    /\ clock w <= clock w' <= clock w + 90
    /\ forallb (fun ev => is_write ev || is_sleep 10 ev || is_sleep 20 ev) evs
       = true
    /\ match r with
       | Ok _ =>
           obj w' = default_cache a
           /\ clock w + 40 <= clock w'
           /\ hd_error evs = Some (Sleep _TIMING_MODE_SWITCH)
           /\ last_acked_write a _REG_OPMODE evs = Some [_OPMODE_STANDARD]
           /\ last_acked_write a _REG_TEMP_IN evs = Some (pack_H 19081)
           /\ last_acked_write a _REG_RH_IN evs = Some (pack_H 25600)
       | Raise e =>
           e = ENS160CommunicationError /\ obj w' = obj w
           /\ exists rq older, evs = Transfer rq Fail :: older
       | OutOfFuel => False
       end.
Proof.
  intros a. rewrite reset_eq. unfold bind at 1.
  pose proof (startup_outcome w) as H. cbv zeta in H. fold a in H.
  match type of H with
  | (let '(_, _) := ?m in _) => destruct m as [[[] | e | ] w1]
  end.
  - destruct H as (evs & Hl & Had & Hc & Ho & Hw & Hn & _ & Hc' & Hhd & H1
                   & H2 & H3).
    cbn. exists evs. rewrite Ho. subst a. now repeat split.
  - destruct H as (evs & Hl & Had & Hc & Ho & Hw & Hn & _ & He & Hev).
    exists evs. now repeat split.
  - destruct H as (evs & _ & _ & _ & _ & _ & _ & []).
Qed.

Lemma verify_part_id_events (w : world ENS160.t) :
  let rq := readfrom_mem (_address (obj w)) _REG_PART_ID 2 in
  let '(r, w') := verify_part_id i2c w in
  obj w' = obj w
  /\ exists ev older,
       log w' = ev :: older ++ log w
       /\ (older = [] /\ clock w' = clock w
           \/ older = [Sleep 10; Transfer rq Fail]
              /\ clock w' = clock w + 10)
       /\ match r with
          | Ok _ => exists b, ev = Transfer rq (Done b) /\ unpack_H b = 0x0160
          | Raise e =>
              (e = ENS160InitError
               /\ exists b,
                    ev = Transfer rq (Done b) /\ unpack_H b <> 0x0160)
              \/ (e = ENS160CommunicationError /\ ev = Transfer rq Fail
                  /\ older = [Sleep 10; Transfer rq Fail])
          | OutOfFuel => False
          end.
Proof.
  intros rq. unfold verify_part_id, try_except. unfold bind at 1.
  rewrite read_registers_eq. unfold retried. fold rq.
  destruct (i2c (log w) rq) as [d | ].
  - cbv zeta. cbv beta iota.
    destruct (unpack_H (as_bytes (nbytes_of rq) d) =? 352) eqn:Hid;
      cbn [negb]; unfold ret, raise; cbn [is_OSError exn_eqb log clock obj];
      (split; [ reflexivity | ]); exists (Transfer rq (Done (as_bytes (nbytes_of rq) d))), [];
      (split; [ reflexivity | ]); (split; [ now left | ]).
    + eexists. split; [ reflexivity | now apply Z.eqb_eq ].
    + left. split; [ reflexivity | ].
      eexists. split; [ reflexivity | now apply Z.eqb_neq ].
  - cbv zeta. destruct (i2c _ rq) as [d | ]; cbv beta iota.
    + destruct (unpack_H (as_bytes (nbytes_of rq) d) =? 352) eqn:Hid;
        cbn [negb]; unfold ret, raise; cbn [is_OSError exn_eqb log clock obj];
        (split; [ reflexivity | ]);
        exists (Transfer rq (Done (as_bytes (nbytes_of rq) d))),
               [Sleep 10; Transfer rq Fail];
        (split; [ reflexivity | ]); (split; [ now right | ]).
      * eexists. split; [ reflexivity | now apply Z.eqb_eq ].
      * left. split; [ reflexivity | ].
        eexists. split; [ reflexivity | now apply Z.eqb_neq ].
    + cbn [is_OSError exn_eqb log clock obj]. split; [ reflexivity | ].
      exists (Transfer rq Fail), [Sleep 10; Transfer rq Fail].
      split; [ reflexivity | ]. split; [ now right | ]. right.
      now repeat split.
Qed.

Lemma verified_after (a : Z) (xs ys : list event) :
  existsb (is_part_id_ok a) ys = true ->
  verified_before_write a ys = true ->
  verified_before_write a (xs ++ ys) = true.
Proof.
  intros He Hv. induction xs as [ | x xs IH]; [ exact Hv | ].
  cbn [app verified_before_write].
  rewrite existsb_app, He, IH, !orb_true_r. reflexivity.
Qed.

Lemma last_acked_write_app (a reg : Z) (xs ys : list event) (v : list Z) :
  last_acked_write a reg xs = Some v ->
  last_acked_write a reg (xs ++ ys) = Some v.
Proof.
  induction xs as [ | x xs IH]; [ discriminate | ].
  cbn [app last_acked_write].
  destruct x as [[ | | | ] [d | ] | ms]; auto.
  destruct (_ && _); auto.
Qed.

(** A read of the part identifier that the bus acknowledged, at the first
    attempt or at the retry, is a completed run of the identity check. *)
Lemma identity_run (a : Z) (b : list Z) (older : list event) :
  let rq := readfrom_mem a _REG_PART_ID 2 in
  older = [] \/ older = [Sleep 10; Transfer rq Fail] ->
  run_of true (ens160_identity_script a) (rev (Transfer rq (Done b) :: older))
  = Some Completed.
Proof.
  intros rq [-> | ->]; unfold ens160_identity_script; fold rq; read_run.
Qed.

(** X6. The constructor, for every transport. The events of a construction
    that returns are exactly a run of: the read of the part identifier,
    Reset, 20 ms, Idle, 10 ms, the compensation for 25 degrees C and
    50 %RH (temperature register, then humidity register), Standard, 10 ms
    (each access with the one retry of the register helpers); it took
    between 40 and 100 ms and leaves the device in Standard mode. Nothing
    is written to the device before its part identifier was read as
    0x0160: a wrong identifier raises [ENS160InitError], the events being
    the identity check alone, with no write at all. A transfer refused
    twice raises [ENS160CommunicationError], the events being the run of
    the same script up to that transfer. Every acknowledged mode switch is
    directly followed by its settle time, and the cached reading is the
    default one in every case. *)
Theorem ens160_init_verifies_then_starts (address : Z) (w : world ENS160.t) :
  let rq := readfrom_mem address _REG_PART_ID 2 in
  let '(r, w') := __init__ fmt i2c address w in
  exists evs,
    log w' = evs ++ log w
    /\ obj w' = default_cache address
    /\ verified_before_write address evs = true
    /\ adjacent settle_discipline evs = true
    /\ clock w <= clock w' <= clock w + 100
    /\ match r with
       | Ok _ =>
           run_of true (ens160_init_script address) (rev evs)
           = Some Completed
           /\ hd_error evs = Some (Sleep _TIMING_MODE_SWITCH)
           /\ clock w + 40 <= clock w'
           /\ last_acked_write address _REG_OPMODE evs
              = Some [_OPMODE_STANDARD]
           /\ last_acked_write address _REG_TEMP_IN evs
              = Some (pack_H 19081)
           /\ last_acked_write address _REG_RH_IN evs
              = Some (pack_H 25600)
       | Raise e =>
           (e = ENS160InitError
            /\ run_of true (ens160_identity_script address) (rev evs)
               = Some Completed
            /\ forallb (fun ev => negb (is_write ev)) evs = true
            /\ exists b older,
                 evs = Transfer rq (Done b) :: older
                 /\ unpack_H b <> 0x0160)
           \/ (e = ENS160CommunicationError
               /\ run_of true (ens160_init_script address) (rev evs)
                  = Some Aborted
               /\ exists rq' older, evs = Transfer rq' Fail :: older)
       | OutOfFuel => False
       end.
Proof.
  intros rq. unfold __init__. unfold bind at 1, set_obj at 1.
  change {| _address := address; _aqi := 0; _tvoc := 0; _eco2 := 400;
            _validity_flag := 1 |} with (default_cache address).
  set (w0 := World (log w) (clock w) (default_cache address)).
  unfold bind at 1.
  pose proof (verify_part_id_events w0) as Hv. cbv zeta in Hv.
  change (_address (obj w0)) with address in Hv. fold rq in Hv.
  destruct (verify_part_id i2c w0) as [[[] | e | ] w1].
  - destruct Hv as (Ho & ev & older & Hl & Hold & b & -> & Hb).
    pose proof (startup_outcome w1) as Hs. cbv zeta in Hs.
    rewrite Ho in Hs. change (_address (obj w0)) with address in Hs.
    assert (Hok : existsb (is_part_id_ok address)
                    (Transfer rq (Done b) :: older) = true).
    { cbn [existsb is_part_id_ok rq]. rewrite Hb, !Z.eqb_refl. reflexivity. }
    assert (Hvw : verified_before_write address
                    (Transfer rq (Done b) :: older) = true).
    { destruct Hold as [[-> _] | [-> _]]; reflexivity. }
    assert (Hadj : adjacent settle_discipline
                     (Transfer rq (Done b) :: older) = true).
    { destruct Hold as [[-> _] | [-> _]]; reflexivity. }
    assert (Hck : clock w <= clock w1 <= clock w + 10).
    { change (clock w0) with (clock w) in Hold.
      destruct Hold as [[_ ->] | [_ ->]]; lia. }
    assert (Hid : run_of true (ens160_identity_script address)
                    (rev (Transfer rq (Done b) :: older)) = Some Completed).
    { apply identity_run. destruct Hold as [[-> _] | [-> _]]; auto. }
    assert (Hrun : forall evs,
              run_of true (ens160_init_script address)
                (rev (evs ++ Transfer rq (Done b) :: older))
              = run_of true (ens160_startup_script address) (rev evs)).
    { intros evs. rewrite rev_app_distr. unfold ens160_init_script.
      now apply run_of_app. }
    match type of Hs with
    | (let '(_, _) := ?m in _) => destruct m as [[[] | e | ] w2]
    end; destruct Hs as (evs & Hl2 & Had & Hc & Ho2 & Hw & Hn & Hs);
      exists (evs ++ Transfer rq (Done b) :: older).
    + split; [ rewrite Hl2, Hl, <- app_assoc; reflexivity | ].
      split; [ now rewrite Ho2 | ].
      split; [ now apply verified_after | ].
      split; [ apply adjacent_app_any; auto | ].
      split; [ lia | ].
      destruct Hs as (Hr & H40 & Hhd & H1 & H2 & H3).
      split; [ now rewrite Hrun | ].
      split; [ destruct evs; [ discriminate Hhd | exact Hhd ] | ].
      split; [ lia | ].
      now rewrite !(last_acked_write_app _ _ _ _ _ H1),
        !(last_acked_write_app _ _ _ _ _ H2),
        !(last_acked_write_app _ _ _ _ _ H3).
    + split; [ rewrite Hl2, Hl, <- app_assoc; reflexivity | ].
      split; [ now rewrite Ho2 | ].
      split; [ now apply verified_after | ].
      split; [ apply adjacent_app_any; auto | ].
      split; [ lia | ].
      right. destruct Hs as (Hr & -> & rq' & older' & ->).
      split; [ reflexivity | ].
      split; [ now rewrite Hrun | ].
      now exists rq', (older' ++ Transfer rq (Done b) :: older).
    + destruct Hs.
  - destruct Hv as (Ho & ev & older & Hl & Hold & Hv).
    exists (ev :: older).
    split; [ exact Hl | ]. split; [ exact Ho | ].
    assert (Hck : clock w <= clock w1 <= clock w + 10).
    { change (clock w0) with (clock w) in Hold.
      destruct Hold as [[_ ->] | [_ ->]]; lia. }
    destruct Hv as [(-> & b & -> & Hb) | (-> & -> & ->)].
    + split; [ destruct Hold as [[-> _] | [-> _]]; reflexivity | ].
      split; [ destruct Hold as [[-> _] | [-> _]]; reflexivity | ].
      split; [ lia | ]. left. split; [ reflexivity | ].
      split; [ apply identity_run;
               destruct Hold as [[-> _] | [-> _]]; auto | ].
      split; [ destruct Hold as [[-> _] | [-> _]]; reflexivity | ].
      now exists b, older.
    + split; [ reflexivity | ]. split; [ reflexivity | ].
      split; [ lia | ]. right. split; [ reflexivity | ].
      split.
      { unfold ens160_init_script, ens160_identity_script. fold rq.
        cbn [app]. read_run. }
      now exists rq, [Sleep 10; Transfer rq Fail].
  - destruct Hv as (_ & ? & ? & _ & _ & []).
Qed.

End ENS160StartUp.

(** * ENS160: what [update] leaves in the cache *)

Section ENS160Cache.

Import ENS160.

Variable fmt : float_format.
Variable i2c : bus.

Lemma retried_cases {A : Type} (rq : request) (f : list Z -> A)
    (w : world ENS160.t) :
  let '(r, w1) := retried i2c rq f w in
  obj w1 = obj w
  /\ clock w <= clock w1
  /\ exists rp older,
       log w1 = Transfer rq rp :: older ++ log w
       /\ count (is_sleep 200) older = 0
       /\ match rp with
          | Done d =>
              length d = nbytes_of rq
              /\ Forall (fun b => 0 <= b < 256) d
              /\ r = Ok (f d)
          | Fail => r = Raise ENS160CommunicationError
          end.
Proof.
  unfold retried.
  destruct (i2c (log w) rq) as [d | ]; cbv zeta.
  - cbn [obj clock log]. split; [ reflexivity | ]. split; [ lia | ].
    exists (Done (as_bytes (nbytes_of rq) d)), [].
    split; [ reflexivity | ]. split; [ reflexivity | ].
    split; [ apply as_bytes_length | ]. split; [ apply as_bytes_range | ].
    reflexivity.
  - destruct (i2c _ rq) as [d | ]; cbn [obj clock log];
      (split; [ reflexivity | ]); (split; [ lia | ]).
    + exists (Done (as_bytes (nbytes_of rq) d)), [Sleep 10; Transfer rq Fail].
      split; [ reflexivity | ]. split; [ reflexivity | ].
      split; [ apply as_bytes_length | ]. split; [ apply as_bytes_range | ].
      reflexivity.
    + exists Fail, [Sleep 10; Transfer rq Fail]. repeat split.
Qed.

Lemma unpack_H_bytes (lo hi : Z) :
  0 <= lo < 256 -> 0 <= hi < 256 -> unpack_H [lo; hi] = lo + 256 * hi.
Proof.
  intros Hlo Hhi. unfold unpack_H, getitem. cbn [nth].
  rewrite Z.shiftl_mul_pow2 by lia. rewrite Z.lor_comm.
  rewrite lor_disjoint; change (2 ^ 8) with 256; lia.
Qed.

Lemma land_ones_range (x k : Z) :
  0 <= k -> 0 <= Z.land x (Z.ones k) < 2 ^ k.
Proof.
  intros Hk. rewrite Z.land_ones by exact Hk. apply Z.mod_pos_bound. lia.
Qed.

Lemma decode_burst_in_range (a : Z) (data : list Z) :
  length data = 6%nat -> Forall (fun b => 0 <= b < 256) data ->
  cache_in_range (decode_burst a data).
Proof.
  intros Hlen Hr.
  destruct data as [ | b0 [ | b1 [ | b2 [ | b3 [ | b4 [ | b5 [ | ? ?]]]]]]];
    try discriminate.
  repeat match goal with
         | H : Forall _ (_ :: _) |- _ => inversion H; subst; clear H
         end.
  unfold cache_in_range, decode_burst.
  cbn [_aqi _tvoc _eco2 _validity_flag firstn skipn getitem nth].
  rewrite !unpack_H_bytes by assumption.
  pose proof (land_ones_range b1 3) as Ha.
  pose proof (land_ones_range (Z.shiftr b0 2) 2) as Hv.
  change (Z.ones 3) with 7 in Ha. change (2 ^ 3) with 8 in Ha.
  change (Z.ones 2) with 3 in Hv. change (2 ^ 2) with 4 in Hv. lia.
Qed.

Lemma default_cache_in_range (a : Z) : cache_in_range (default_cache a).
Proof. unfold cache_in_range, default_cache. cbn. lia. Qed.

Lemma update_outcome (fuel : nat) (w : world ENS160.t) :
  let a := _address (obj w) in
  let '(r, w') := update fmt i2c fuel w in
  exists evs,
    log w' = evs ++ log w
    /\ clock w <= clock w'
    /\ _address (obj w') = a
    /\ (cache_in_range (obj w) -> cache_in_range (obj w'))
    /\ match r with
       | Ok b =>
           count (is_sleep 200) evs < Z.of_nat fuel
           /\ ((exists s older,
                  evs = Transfer (readfrom_mem a _REG_DEVICE_STATUS 1)
                          (Done [s]) :: older
                  /\ Z.land s 0x02 = 0
                  /\ b = false
                  /\ obj w' = if count (is_sleep 200) evs =? 0 then obj w
                              else default_cache a)
               \/ (exists data older,
                     evs = Transfer (readfrom_mem a _REG_DEVICE_STATUS 6)
                             (Done data) :: older
                     /\ length data = 6%nat
                     /\ obj w' = decode_burst a data
                     /\ _validity_flag (obj w') <> 3
                     /\ b = (_validity_flag (obj w') =? 0)))
       | Raise e =>
           e = ENS160CommunicationError
           /\ count (is_sleep 200) evs < Z.of_nat fuel
       | OutOfFuel => count (is_sleep 200) evs = Z.of_nat fuel
       end.
Proof.
  revert w. induction fuel as [ | n IH]; intros w a.
  - cbn. exists []. split; [ reflexivity | ]. split; [ lia | ].
    split; [ reflexivity | ]. split; [ auto | reflexivity ].
  - cbn [update]. unfold bind at 1. rewrite read_register_eq.
    pose proof (retried_cases (readfrom_mem (_address (obj w)) _REG_DEVICE_STATUS 1)
                  (fun d => getitem d 0) w) as H1.
    fold a in H1 |- *.
    destruct (retried i2c _ _ w) as [r1 w1].
    destruct H1 as (Ho1 & Hc1 & rp1 & older1 & Hl1 & Hn1 & H1).
    destruct rp1 as [d1 | ].
    2:{ subst r1. exists (Transfer (readfrom_mem a _REG_DEVICE_STATUS 1) Fail :: older1).
        split; [ exact Hl1 | ]. split; [ exact Hc1 | ].
        split; [ now rewrite Ho1 | ]. split; [ now rewrite Ho1 | ].
        split; [ reflexivity | ]. rewrite count_cons, Hn1. cbn. lia. }
    destruct H1 as (Hlen1 & Hr1 & ->).
    destruct d1 as [ | s [ | ? ?]]; try discriminate. clear Hlen1.
    change (getitem [s] 0) with s.
    destruct (Z.land s 2 =? 0) eqn:Hnew.
    { exists (Transfer (readfrom_mem a _REG_DEVICE_STATUS 1) (Done [s])
                :: older1).
      cbn [ret]. split; [ exact Hl1 | ]. split; [ exact Hc1 | ].
      split; [ now rewrite Ho1 | ]. split; [ now rewrite Ho1 | ].
      assert (Hz : count (is_sleep 200)
                     (Transfer (readfrom_mem a _REG_DEVICE_STATUS 1)
                        (Done [s]) :: older1) = 0).
      { rewrite count_cons, Hn1. reflexivity. }
      split; [ lia | ]. left. exists s, older1.
      rewrite Hz. split; [ reflexivity | ].
      split; [ now apply Z.eqb_eq | ]. now split. }
    unfold bind at 1. rewrite read_registers_eq.
    pose proof (retried_cases
                  (readfrom_mem (_address (obj w1)) _REG_DEVICE_STATUS 6)
                  (fun d => d) w1) as H2.
    rewrite Ho1 in H2 |- *. fold a in H2 |- *.
    destruct (retried i2c _ _ w1) as [r2 w2].
    destruct H2 as (Ho2 & Hc2 & rp2 & older2 & Hl2 & Hn2 & H2).
    destruct rp2 as [data | ].
    2:{ subst r2. eexists (_ :: older2 ++ _ :: older1).
        split; [ rewrite Hl2, Hl1; cbn [app]; rewrite <- app_assoc;
                 reflexivity | ].
        split; [ lia | ]. split; [ now rewrite Ho2 | ].
        split; [ now rewrite Ho2 | ]. split; [ reflexivity | ].
        rewrite count_cons, count_app, count_cons, Hn1, Hn2. cbn. lia. }
    destruct H2 as (Hlen2 & Hr2 & ->). cbn [nbytes_of] in Hlen2.
    unfold set_validity_flag, set_aqi, set_tvoc, set_eco2, bind at 1 2 3 4 5 6 7 8 9,
      get_obj, set_obj.
    cbn [obj log clock _address _aqi _tvoc _eco2 _validity_flag].
    rewrite Ho2. fold a. fold (decode_burst a data).
    set (w3 := World (log w2) (clock w2) (decode_burst a data)).
    set (v := Z.land (Z.shiftr (getitem data 0) 2) 3).
    set (burst := Transfer (readfrom_mem a _REG_DEVICE_STATUS 6) (Done data)).
    set (stat := Transfer (readfrom_mem a _REG_DEVICE_STATUS 1) (Done [s])).
    fold burst in Hl2. fold stat in Hl1.
    assert (Hlog : log w2 = (burst :: older2 ++ stat :: older1) ++ log w).
    { rewrite Hl2, Hl1. cbn [app]. rewrite <- app_assoc. reflexivity. }
    assert (Hcnt : count (is_sleep 200) (burst :: older2 ++ stat :: older1)
                   = 0).
    { rewrite count_cons, count_app, count_cons, Hn1, Hn2. reflexivity. }
    assert (Hin : cache_in_range (decode_burst a data))
      by now apply decode_burst_in_range.
    destruct (v =? 3) eqn:Herr.
    2:{ exists (burst :: older2 ++ stat :: older1). subst w3.
        unfold ret. cbn [log clock obj].
        split; [ exact Hlog | ]. split; [ lia | ].
        split; [ reflexivity | ]. split; [ auto | ].
        split; [ rewrite Hcnt; lia | ]. right. exists data, (older2 ++ stat :: older1).
        split; [ reflexivity | ]. split; [ exact Hlen2 | ].
        split; [ reflexivity | ]. split; [ | reflexivity ].
        now apply Z.eqb_neq. }
    unfold bind at 1.
    pose proof (reset_cache fmt i2c w3) as H3.
    change (_address (obj w3)) with a in H3. change (log w3) with (log w2) in H3.
    change (clock w3) with (clock w2) in H3.
    change (obj w3) with (decode_burst a data) in H3.
    destruct (reset fmt i2c w3) as [[[] | e | ] w4];
      destruct H3 as (evs3 & Hl3 & Hc3 & Hn3 & H3).
    3:{ destruct H3. }
    2:{ destruct H3 as (-> & Ho3).
        exists (evs3 ++ burst :: older2 ++ stat :: older1).
        split; [ rewrite Hl3, Hlog, <- app_assoc; reflexivity | ].
        split; [ lia | ]. split; [ now rewrite Ho3 | ].
        split; [ now rewrite Ho3 | ]. split; [ reflexivity | ].
        rewrite count_app, Hn3, Hcnt. lia. }
    unfold bind at 1, sleep_ms at 1.
    set (w5 := World (Sleep 200 :: log w4) (clock w4 + 200) (obj w4)).
    pose proof (IH w5) as H5. cbv zeta in H5.
    change (obj w5) with (obj w4) in H5. rewrite H3 in H5.
    change (_address (default_cache a)) with a in H5.
    change (log w5) with (Sleep 200 :: log w4) in H5.
    change (clock w5) with (clock w4 + 200) in H5.
    destruct (update fmt i2c n w5) as [r w6].
    destruct H5 as (evs5 & Hl5 & Hc5 & Ha5 & Hr5 & H5).
    exists (evs5 ++ Sleep 200 :: evs3 ++ burst :: older2 ++ stat :: older1).
    assert (Hcnt' : count (is_sleep 200)
                      (evs5 ++ Sleep 200 :: evs3
                         ++ burst :: older2 ++ stat :: older1)
                    = count (is_sleep 200) evs5 + 1).
    { rewrite count_app, count_cons, count_app, Hn3, Hcnt. cbn. lia. }
    split.
    { rewrite Hl5, Hl3, Hlog.
      repeat first [ rewrite <- app_assoc | progress cbn [app] ].
      reflexivity. }
    split; [ lia | ]. split; [ exact Ha5 | ].
    split; [ intros _; apply Hr5, default_cache_in_range | ].
    rewrite Hcnt'. pose proof (count_nonneg (is_sleep 200) evs5) as Hnn.
    destruct r as [b | e | ].
    + destruct H5 as (Hlt & H5). split; [ lia | ].
      destruct H5 as [(s' & older' & -> & Hs' & Hb & Ho') | (data' & older' & -> & H5)].
      * left. exists s', (older' ++ Sleep 200 :: evs3
                            ++ burst :: older2 ++ stat :: older1).
        split; [ reflexivity | ]. split; [ exact Hs' | ].
        split; [ exact Hb | ].
        match goal with
        | |- context [?c + 1 =? 0] =>
            replace (c + 1 =? 0) with false
              by (symmetry; apply Z.eqb_neq; lia)
        end.
        rewrite Ho'. destruct (count _ _ =? 0); reflexivity.
      * right. exists data', (older' ++ Sleep 200 :: evs3
                            ++ burst :: older2 ++ stat :: older1).
        split; [ reflexivity | exact H5 ].
    + destruct H5 as (-> & Hlt). split; [ reflexivity | lia ].
    + lia.
Qed.

End ENS160Cache.


(** X7. What a returning [update] leaves behind, for every transport.
    Either the call ended on a status read without the new-data bit: it
    returns [False], and the cached reading is the one before the call, or
    the default one when the call went through a recovery. Or it ended on
    an acknowledged 6-byte burst read: the cached reading is the decoding
    of these six bytes (validity from bits 2-3 of byte 0, AQI from the low
    three bits of byte 1, TVOC and eCO2 little-endian from bytes 2-3 and
    4-5), its validity is not Error, and the call returns [True] exactly
    when it is Normal. *)
Theorem update_result_reflects_newest_read (fmt : float_format) (i2c : bus)
    (fuel : nat)
    (w w' : world ENS160.t) (b : bool) :
  ENS160.update fmt i2c fuel w = (Ok b, w') ->
  let a := ENS160._address (obj w) in
  exists evs,
    log w' = evs ++ log w
    /\ ((exists s older,
           evs = Transfer (readfrom_mem a ENS160._REG_DEVICE_STATUS 1)
                   (Done [s]) :: older
           /\ Z.land s 0x02 = 0
           /\ b = false
           /\ obj w' = if count (is_sleep 200) evs =? 0 then obj w
                       else default_cache a)
        \/ (exists data older,
              evs = Transfer (readfrom_mem a ENS160._REG_DEVICE_STATUS 6)
                      (Done data) :: older
              /\ length data = 6%nat
              /\ obj w' = decode_burst a data
              /\ ENS160._validity_flag (obj w') <> 3
              /\ b = (ENS160._validity_flag (obj w') =? 0))).
Proof.
  intros H a. pose proof (update_outcome fmt i2c fuel w) as Hu.
  cbv zeta in Hu. rewrite H in Hu.
  destruct Hu as (evs & Hl & _ & _ & _ & _ & Hb).
  exists evs. split; [ exact Hl | exact Hb ].
Qed.


(** X7 on a device that reports Error once and then a valid reading. *)
Lemma update_result_reflects_newest_read_witness :
  let w := world0 ens_fresh in
  let w' := snd (ENS160.update Binary32 (error_times_bus 1) 2 w) in
  exists evs,
    log w' = evs ++ log w
    /\ ((exists s older,
           evs = Transfer (readfrom_mem 0x53 ENS160._REG_DEVICE_STATUS 1)
                   (Done [s]) :: older
           /\ Z.land s 0x02 = 0
           /\ true = false
           /\ obj w' = if count (is_sleep 200) evs =? 0 then obj w
                       else default_cache 0x53)
        \/ (exists data older,
              evs = Transfer (readfrom_mem 0x53 ENS160._REG_DEVICE_STATUS 6)
                      (Done data) :: older
              /\ length data = 6%nat
              /\ obj w' = decode_burst 0x53 data
              /\ ENS160._validity_flag (obj w') <> 3
              /\ true = (ENS160._validity_flag (obj w') =? 0))).
Proof.
  intros w w'.
  assert (H : ENS160.update Binary32 (error_times_bus 1) 2 w
              = (Ok true, w'))
    by (vm_compute; reflexivity).
  exact (update_result_reflects_newest_read _ _ _ _ _ _ H).
Defined.


(** X8. Invariants of [update], for every transport and every outcome: a
    cached reading within the ranges of its fields (AQI 0..7, TVOC and eCO2
    16 bits, validity 0..3) stays within them; the address is not changed;
    time does not go back; the only exception is
    [ENS160CommunicationError]; and the self-calls run out of the depth
    [fuel] only after [fuel] recoveries (each with its 200 ms wait), a call
    that ends having made fewer. *)
Theorem update_keeps_cache_in_range (fmt : float_format) (i2c : bus)
    (fuel : nat)
    (w : world ENS160.t) :
  cache_in_range (obj w) ->
  let '(r, w') := ENS160.update fmt i2c fuel w in
  cache_in_range (obj w')
  /\ ENS160._address (obj w') = ENS160._address (obj w)
  /\ clock w <= clock w'
  /\ (forall e, r = Raise e -> e = ENS160CommunicationError)
  /\ exists evs,
       log w' = evs ++ log w
       /\ match r with
          | OutOfFuel => count (is_sleep 200) evs = Z.of_nat fuel
          | _ => count (is_sleep 200) evs < Z.of_nat fuel
          end.
Proof.
  intros Hin. pose proof (update_outcome fmt i2c fuel w) as Hu. cbv zeta in Hu.
  destruct (ENS160.update fmt i2c fuel w) as [r w'].
  destruct Hu as (evs & Hl & Hc & Ha & Hr & Hu).
  split; [ now apply Hr | ]. split; [ exact Ha | ]. split; [ exact Hc | ].
  split.
  - intros e ->. apply Hu.
  - exists evs. split; [ exact Hl | ]. destruct r; apply Hu.
Qed.


(** X8 on a device that reports Error for ever. *)
Lemma update_keeps_cache_in_range_witness :
  let w := world0 ens_cached in
  cache_in_range (obj w)
  /\ let '(r, w') := ENS160.update Binary32 always_error_bus 3 w in
     cache_in_range (obj w')
     /\ ENS160._address (obj w') = ENS160._address (obj w)
     /\ clock w <= clock w'
     /\ (forall e, r = Raise e -> e = ENS160CommunicationError)
     /\ exists evs,
          log w' = evs ++ log w
          /\ match r with
             | OutOfFuel => count (is_sleep 200) evs = Z.of_nat 3
             | _ => count (is_sleep 200) evs < Z.of_nat 3
             end.
Proof.
  intros w.
  assert (Hin : cache_in_range (obj w))
    by (unfold cache_in_range; cbn; lia).
  split; [ exact Hin | ].
  exact (update_keeps_cache_in_range Binary32 always_error_bus 3 w Hin).
Defined.


(** X9. [update] followed by the [status] and [warming_up] properties: the
    properties make no transfer and change nothing; after [update] on a
    cached reading within range the status is one of the four names, never
    "Unknown"; [warming_up] holds exactly when the status is "Warm-up"; when
    [update] returned [True] the status is "OK"; and a returning [update]
    never leaves a status "Error" that it read itself: the status can be
    "Error" then only if the cached reading is the one before the call. *)
Theorem update_then_status (fmt : float_format) (i2c : bus) (fuel : nat)
    (w : world ENS160.t) :
  cache_in_range (obj w) ->
  let '(r, w1) := ENS160.update fmt i2c fuel w in
  let '(s, w2) := ENS160.status w1 in
  let '(wu, w3) := ENS160.warming_up w2 in
  w3 = w1
  /\ (s = Ok "OK"%string \/ s = Ok "Warm-up"%string
      \/ s = Ok "Initial Startup"%string \/ s = Ok "Error"%string)
  /\ (wu = Ok true <-> s = Ok "Warm-up"%string)
  /\ (r = Ok true -> s = Ok "OK"%string)
  /\ (forall b, r = Ok b -> s = Ok "Error"%string -> obj w1 = obj w).
Proof.
  intros Hin. pose proof (update_outcome fmt i2c fuel w) as Hu. cbv zeta in Hu.
  destruct (ENS160.update fmt i2c fuel w) as [r w1].
  destruct Hu as (evs & Hl & Hc & Ha & Hr & Hu).
  specialize (Hr Hin). destruct Hr as (_ & _ & _ & Hv).
  unfold ENS160.status, ENS160.warming_up, bind, get_obj, ret.
  cbn [obj].
  split; [ reflexivity | ].
  assert (Hcase : ENS160._validity_flag (obj w1) = 0
                  \/ ENS160._validity_flag (obj w1) = 1
                  \/ ENS160._validity_flag (obj w1) = 2
                  \/ ENS160._validity_flag (obj w1) = 3) by lia.
  assert (Htrue : r = Ok true -> ENS160._validity_flag (obj w1) = 0).
  { intros ->. destruct Hu as (_ & [(? & ? & _ & _ & Hb & _) | (? & ? & _ & _ & _ & _ & Hb)]).
    - discriminate.
    - symmetry in Hb. now apply Z.eqb_eq in Hb. }
  assert (Herr : forall b, r = Ok b -> ENS160._validity_flag (obj w1) = 3 ->
                 obj w1 = obj w).
  { intros b -> H3.
    destruct Hu as (_ & [(? & ? & _ & _ & _ & Ho) | (? & ? & _ & _ & _ & Hn & _)]).
    - destruct (count (is_sleep 200) evs =? 0); [ exact Ho | ].
      rewrite Ho in H3. discriminate.
    - contradiction. }
  destruct Hcase as [H | [H | [H | H]]]; rewrite H in *; cbn [dict_get Z.eqb Pos.eqb].
  all: split; [ tauto | ].
  all: split; [ split; intros Hx; (discriminate || reflexivity) | ].
  all: split; [ intros Hx; try reflexivity; specialize (Htrue Hx); discriminate | ].
  all: intros b Hb Hs; try discriminate; now apply (Herr b).
Qed.


(** X9 on a healthy device. *)
Lemma update_then_status_witness :
  let w := world0 ens_fresh in
  cache_in_range (obj w)
  /\ let '(r, w1) := ENS160.update Binary32 healthy_bus 1 w in
     let '(s, w2) := ENS160.status w1 in
     let '(wu, w3) := ENS160.warming_up w2 in
     w3 = w1
     /\ (s = Ok "OK"%string \/ s = Ok "Warm-up"%string
         \/ s = Ok "Initial Startup"%string \/ s = Ok "Error"%string)
     /\ (wu = Ok true <-> s = Ok "Warm-up"%string)
     /\ (r = Ok true -> s = Ok "OK"%string)
     /\ (forall b, r = Ok b -> s = Ok "Error"%string -> obj w1 = obj w).
Proof.
  intros w.
  assert (Hin : cache_in_range (obj w))
    by (unfold cache_in_range; cbn; lia).
  split; [ exact Hin | ].
  exact (update_then_status Binary32 healthy_bus 1 w Hin).
Defined.

(** * ENS160: [get_raw_resistance] *)

Section ENS160Resistance.
Import ENS160.
Variable i2c : bus.

Lemma unpack_H_slice (d : list Z) (k : nat) :
  length d = 8%nat -> Forall (fun b => 0 <= b < 256) d ->
  (k = 0 \/ k = 6)%nat ->
  unpack_H (firstn 2 (skipn k d)) = getitem d k + 256 * getitem d (S k)
  /\ 0 <= getitem d k + 256 * getitem d (S k) < 65536.
Proof.
  intros Hlen Hr Hk.
  destruct d as [ | b0 [ | b1 [ | b2 [ | b3 [ | b4 [ | b5 [ | b6 [ | b7
    [ | ? ?]]]]]]]]]; try discriminate.
  repeat match goal with
         | H : Forall _ (_ :: _) |- _ => inversion H; subst; clear H
         end.
  destruct Hk as [-> | ->]; cbn [firstn skipn getitem nth];
    rewrite unpack_H_bytes by assumption; split; lia.
Qed.


(** X10. [get_raw_resistance], for every transport: a sensor number other
    than 1 and 4 raises [ValueError] before any transfer; for 1 and 4 the
    call makes one 8-byte read of the general-purpose registers (with the
    one retry of the helper) and no write, leaves the cached reading alone,
    and returns the little-endian value of bytes 0-1 (sensor 1) or 6-7
    (sensor 4), which lies in 0..65535; a read refused twice raises
    [ENS160CommunicationError]. *)
Theorem get_raw_resistance_outcome (sensor_num : Z) (w : world ENS160.t) :
  match get_raw_resistance i2c sensor_num with
  | ValueError => sensor_num <> 1 /\ sensor_num <> 4
  | Checked body =>
      (sensor_num = 1 \/ sensor_num = 4)
      /\ let rq := readfrom_mem (_address (obj w)) _REG_GPR_READ 8 in
         let k := if sensor_num =? 1 then 0%nat else 6%nat in
         let '(r, w') := body w in
         obj w' = obj w
         /\ exists rp older,
              log w' = Transfer rq rp :: older ++ log w
              /\ (older = [] \/ older = [Sleep 10; Transfer rq Fail])
              /\ match rp with
                 | Done d =>
                     length d = 8%nat
                     /\ r = Ok (getitem d k + 256 * getitem d (S k))
                     /\ 0 <= getitem d k + 256 * getitem d (S k) < 65536
                 | Fail =>
                     r = Raise ENS160CommunicationError
                     /\ older = [Sleep 10; Transfer rq Fail]
                 end
  end.
Proof.
  unfold get_raw_resistance.
  destruct (sensor_num =? 1) eqn:H1; cbn [orb negb].
  - apply Z.eqb_eq in H1. split; [ now left | ]. cbv zeta.
    unfold bind. rewrite read_registers_eq. unfold retried.
    cbn [nbytes_of].
    set (rq := readfrom_mem (_address (obj w)) _REG_GPR_READ 8).
    destruct (i2c (log w) rq) as [d | ]; cbv zeta.
    + cbn [obj log]. split; [ reflexivity | ].
      exists (Done (as_bytes 8 d)), []. split; [ reflexivity | ].
      split; [ now left | ].
      split; [ apply as_bytes_length | ].
      destruct (unpack_H_slice (as_bytes 8 d) 0 (as_bytes_length _ _)
                  (as_bytes_range _ _) (or_introl eq_refl)) as [-> Hr].
      now split.
    + destruct (i2c _ rq) as [d | ]; cbn [obj log];
        (split; [ reflexivity | ]).
      * exists (Done (as_bytes 8 d)), [Sleep 10; Transfer rq Fail].
        split; [ reflexivity | ]. split; [ now right | ].
        split; [ apply as_bytes_length | ].
        destruct (unpack_H_slice (as_bytes 8 d) 0 (as_bytes_length _ _)
                    (as_bytes_range _ _) (or_introl eq_refl)) as [-> Hr].
        now split.
      * exists Fail, [Sleep 10; Transfer rq Fail].
           split; [ reflexivity | ]. split; [ now right | ]. now split.
  - destruct (sensor_num =? 4) eqn:H4; cbn [negb].
    + apply Z.eqb_eq in H4. split; [ now right | ]. cbv zeta.
      unfold bind. rewrite read_registers_eq. unfold retried.
      cbn [nbytes_of].
      set (rq := readfrom_mem (_address (obj w)) _REG_GPR_READ 8).
      destruct (i2c (log w) rq) as [d | ]; cbv zeta.
      * cbn [obj log]. split; [ reflexivity | ].
        exists (Done (as_bytes 8 d)), []. split; [ reflexivity | ].
        split; [ now left | ].
        split; [ apply as_bytes_length | ].
        destruct (unpack_H_slice (as_bytes 8 d) 6 (as_bytes_length _ _)
                    (as_bytes_range _ _) (or_intror eq_refl)) as [-> Hr].
        now split.
      * destruct (i2c _ rq) as [d | ]; cbn [obj log];
          (split; [ reflexivity | ]).
        -- exists (Done (as_bytes 8 d)), [Sleep 10; Transfer rq Fail].
           split; [ reflexivity | ]. split; [ now right | ].
           split; [ apply as_bytes_length | ].
           destruct (unpack_H_slice (as_bytes 8 d) 6 (as_bytes_length _ _)
                       (as_bytes_range _ _) (or_intror eq_refl)) as [-> Hr].
           now split.
        -- exists Fail, [Sleep 10; Transfer rq Fail].
           split; [ reflexivity | ]. split; [ now right | ]. now split.
    + apply Z.eqb_neq in H1, H4. now split.
Qed.

End ENS160Resistance.

(** * ENS160: [get_firmware_version] *)

Section ENS160Version.

Import ENS160.

Variable i2c : bus.

Lemma as_bytes_0 (d : list Z) : as_bytes 0 d = [].
Proof. reflexivity. Qed.

Lemma getitem_byte (d : list Z) (i : nat) :
  Forall (fun b => 0 <= b < 256) d -> 0 <= getitem d i < 256.
Proof.
  intros H. unfold getitem.
  destruct (nth_in_or_default i d 0) as [Hin | ->]; [ | lia ].
  rewrite Forall_forall in H. now apply H.
Qed.

Lemma bind_read_registers {B : Type} (reg : Z) (n : nat)
    (k : list Z -> M t B) (w : world t) :
  bind (_read_registers i2c reg n) k w
  = bind (retried i2c (readfrom_mem (_address (obj w)) reg n) (fun d => d))
      k w.
Proof. unfold bind. now rewrite read_registers_eq. Qed.

Ltac ask_bus :=
  match goal with
  | |- context [match i2c ?h ?rq with _ => _ end] =>
      destruct (i2c h rq); cbv beta iota zeta
  end.

Ltac run_version :=
  repeat first
    [ rewrite bind_write_register
    | rewrite bind_read_registers
    | rewrite bind_assoc
    | rewrite bind_sleep; cbn [log clock obj]
    | rewrite bind_retried; cbn [nbytes_of log clock obj _address];
      rewrite ?as_bytes_0; ask_bus
    | ask_bus
    | progress (unfold ret; cbv beta iota zeta) ].

Ltac prefix_of l base :=
  lazymatch l with
  | base => constr:(@nil event)
  | ?x :: ?tl => let r := prefix_of tl base in constr:(x :: r)
  end.

Ltac newest_read l base :=
  lazymatch l with
  | Transfer (readfrom_mem _ _ _) (Done ?d) :: ?tl =>
      let s := prefix_of tl base in constr:((@nil event, d, s))
  | ?x :: ?tl =>
      let r := newest_read tl base in
      lazymatch r with
      | (?p, ?d, ?s) => constr:((x :: p, d, s))
      end
  end.

(* The events of the [finally] block are the newest ones: waits and
   writes of Standard. *)
Ltac restore_of l :=
  lazymatch l with
  | Sleep ?ms :: ?tl => let r := restore_of tl in constr:(Sleep ms :: r)
  | Transfer (writeto_mem ?a ?reg [_OPMODE_STANDARD]) ?rp :: ?tl =>
      let r := restore_of tl in
      constr:(Transfer (writeto_mem a reg [_OPMODE_STANDARD]) rp :: r)
  | _ => constr:(@nil event)
  end.

Ltac before_restore l :=
  lazymatch l with
  | Sleep _ :: ?tl => before_restore tl
  | Transfer (writeto_mem _ _ [_OPMODE_STANDARD]) _ :: ?tl =>
      before_restore tl
  | _ => l
  end.

Ltac read_log :=
  repeat first
    [ rewrite Z.eqb_refl
    | progress cbn [last_write last_acked_write andb app Z.eqb Pos.eqb] ].

Ltac read_run :=
  cbn [rev app];
  repeat first
    [ rewrite run_of_wait
    | rewrite run_of_ack
    | rewrite run_of_retry_ack
    | rewrite run_of_refused ];
  reflexivity.

(** C7 (as amended). [get_firmware_version], for every transport. The
    events of the call are a run of the [try] block (Idle, 10 ms, the
    command GET_APPVER, 10 ms, the 8-byte read), complete or ended by a
    transfer refused twice, followed by a run of the [finally] block
    (Standard, 10 ms): the newest write to the operating-mode register that
    the call issues is Standard (0x02) on every exit. When the bus
    acknowledges that write (at the first attempt or at the retry) the
    register holds Standard after the call and the call ends with the 10 ms
    settle; it then returns bytes 4, 5 and 6 of the read if the [try] block
    completed and raises [ENS160CommunicationError] if not. When the bus
    refuses that write twice, the call raises [ENS160CommunicationError],
    the refused Standard write being the last thing that happens, and the
    operating-mode register holds what was last acknowledged: Idle, if the
    Idle switch of this call was acknowledged, and otherwise nothing that
    this call wrote. The call raises nothing else and leaves the driver
    object as it was. *)
Theorem get_firmware_version_restores_standard (w : world ENS160.t) :
  let a := _address (obj w) in
  let '(r, w') := get_firmware_version i2c w in
  exists body restore tried restored,
    log w' = restore ++ body ++ log w /\ obj w' = obj w
    /\ run_of true (version_script a) (rev body) = Some tried
    /\ run_of true (restore_script a) (rev restore) = Some restored
    /\ match restored with
       | Completed =>
           (exists d,
              last_write a _REG_OPMODE (restore ++ body)
              = Some ([_OPMODE_STANDARD], Done d))
           /\ last_acked_write a _REG_OPMODE (restore ++ body)
              = Some [_OPMODE_STANDARD]
           /\ hd_error restore = Some (Sleep _TIMING_MODE_SWITCH)
           /\ match tried with
              | Completed =>
                  exists d older,
                    body = Transfer (readfrom_mem a _REG_GPR_READ 8) (Done d)
                           :: older
                    /\ r = Ok (getitem d 4, getitem d 5, getitem d 6)
              | Aborted => r = Raise ENS160CommunicationError
              end
       | Aborted =>
           r = Raise ENS160CommunicationError
           /\ last_write a _REG_OPMODE (restore ++ body)
              = Some ([_OPMODE_STANDARD], Fail)
           /\ hd_error restore
              = Some (Transfer (writeto_mem a _REG_OPMODE [_OPMODE_STANDARD])
                        Fail)
           /\ last_acked_write a _REG_OPMODE (restore ++ body)
              = (if existsb (is_acked_opmode_write _OPMODE_IDLE) body
                 then Some [_OPMODE_IDLE] else None)
       end.
Proof.
  cbv zeta. unfold get_firmware_version, try_finally.
  run_version.
  all: unfold sleep_ms, ret; cbv beta iota zeta; cbn [log clock obj].
  all: match goal with
       | |- exists body restore tried restored,
              ?l = _ /\ _ =>
           let rs := restore_of l in
           let rest := before_restore l in
           let bd := prefix_of rest (log w) in
           exists bd, rs; do 2 eexists
       end.
  all: (split; [ reflexivity | ]).
  all: (split; [ reflexivity | ]).
  all: (split; [ unfold version_script; read_run | ]).
  all: (split; [ unfold restore_script; read_run | ]).
  all: cbv beta iota.
  all: try (split; [ reflexivity | ];
            split; [ read_log; reflexivity | ];
            split; [ reflexivity | ]; read_log; reflexivity).
  all: (split; [ eexists; read_log; reflexivity | ]).
  all: (split; [ read_log; reflexivity | ]).
  all: (split; [ reflexivity | ]).
  all: try reflexivity.
  all: do 2 eexists; split; reflexivity.
Qed.

(** X12. When [get_firmware_version] returns (major, minor, release), the
    events of the call are exactly, in this order: the switch to Idle,
    10 ms, the command GET_APPVER, 10 ms, an acknowledged 8-byte read of
    the general-purpose registers, the switch to Standard, 10 ms (each
    access with the one retry of the register helpers), the last 10 ms
    being the last thing that happens; the three numbers are bytes 4, 5
    and 6 of that read, each in 0..255; every acknowledged mode switch is
    directly followed by its 10 ms; and the call took between 30 and
    70 ms. *)
Theorem get_firmware_version_reads_gpr (w w' : world ENS160.t)
    (major minor release : Z) :
  get_firmware_version i2c w = (Ok (major, minor, release), w') ->
  let a := _address (obj w) in
  exists d newer older,
    log w' = newer
             ++ Transfer (readfrom_mem a _REG_GPR_READ 8) (Done d)
             :: older ++ log w
    /\ run_of true (version_script a)
         (rev (Transfer (readfrom_mem a _REG_GPR_READ 8) (Done d) :: older))
       = Some Completed
    /\ run_of true (restore_script a) (rev newer) = Some Completed
    /\ hd_error newer = Some (Sleep _TIMING_MODE_SWITCH)
    /\ length d = 8%nat
    /\ major = getitem d 4 /\ minor = getitem d 5 /\ release = getitem d 6
    /\ 0 <= major < 256 /\ 0 <= minor < 256 /\ 0 <= release < 256
    /\ last_acked_write a _REG_OPMODE older = Some [_OPMODE_IDLE]
    /\ last_acked_write a _REG_COMMAND older = Some [_CMD_GET_APPVER]
    /\ last_acked_write a _REG_OPMODE newer = Some [_OPMODE_STANDARD]
    /\ adjacent settle_discipline
         (newer ++ Transfer (readfrom_mem a _REG_GPR_READ 8) (Done d)
            :: older) = true
    /\ forallb (fun ev => negb (is_write ev) || is_failed ev
                          || is_opmode_write _OPMODE_STANDARD ev) newer
       = true
    /\ clock w + 30 <= clock w' <= clock w + 70.
Proof.
  intros H a. revert H.
  unfold get_firmware_version, try_finally.
  run_version.
  all: unfold sleep_ms, ret; cbv beta iota zeta; cbn [log clock obj].
  all: intros H; try discriminate H.
  all: injection H as <- <- <- <-; cbn [log clock].
  all: match goal with
       | |- exists d newer older, ?l = _ /\ _ =>
           let r := newest_read l (log w) in
           lazymatch r with
           | (?p, ?d, ?s) => exists d, p, s
           end
       end.
  all: (split; [ reflexivity | ]).
  all: subst a.
  all: (split; [ unfold version_script; read_run | ]).
  all: (split; [ unfold restore_script; read_run | ]).
  all: (split; [ reflexivity | ]).
  all: (split; [ apply as_bytes_length | ]).
  all: (do 3 (split; [ reflexivity | ])).
  all: (do 3 (split; [ apply getitem_byte, as_bytes_range | ])).
  all: (do 3 (split; [ read_log; reflexivity | ])).
  all: (do 2 (split; [ vm_compute; reflexivity | ])).
  all: unfold _TIMING_MODE_SWITCH; lia.
Qed.

End ENS160Version.


(** X12 on a healthy device with firmware 7.3.1. *)
Lemma get_firmware_version_reads_gpr_witness :
  exists w',
    ENS160.get_firmware_version healthy_bus (world0 ens_fresh)
    = (Ok (7, 3, 1), w')
    /\ exists d newer older,
         log w' = newer
                  ++ Transfer (readfrom_mem 0x53 ENS160._REG_GPR_READ 8)
                       (Done d)
                  :: older
         /\ run_of true (restore_script 0x53) (rev newer) = Some Completed
         /\ 7 = getitem d 4 /\ 3 = getitem d 5 /\ 1 = getitem d 6
         /\ clock w' = 30.
Proof.
  let r := eval vm_compute in
      (ENS160.get_firmware_version healthy_bus (world0 ens_fresh)) in
  lazymatch r with
  | (_, ?w') =>
      exists w';
      assert (H : ENS160.get_firmware_version healthy_bus (world0 ens_fresh)
                  = (Ok (7, 3, 1), w'))
        by (vm_compute; reflexivity);
      split; [ exact H | ];
      destruct (get_firmware_version_reads_gpr _ _ _ _ _ _ H)
        as (d & newer & older & Hl & _ & Hr & _ & _ & H4 & H5 & H6 & _)
  end.
  exists d, newer, older. rewrite app_nil_r in Hl.
  split; [ exact Hl | ]. split; [ exact Hr | ].
  split; [ exact H4 | ]. split; [ exact H5 | ].
  split; [ exact H6 | reflexivity ].
Defined.

(** The version is read and the device is back in Standard mode. *)
Example get_firmware_version_healthy :
  fst (ENS160.get_firmware_version healthy_bus (world0 ens_fresh))
  = Ok (7, 3, 1)
  /\ last_acked_write 0x53 ENS160._REG_OPMODE
       (log (snd (ENS160.get_firmware_version healthy_bus (world0 ens_fresh))))
     = Some [ENS160._OPMODE_STANDARD].
Proof. vm_compute. repeat split. Qed.

(** The bus acknowledges the switch to Idle and refuses everything after it:
    the command write is refused twice, the call issues the Standard write
    (twice), which is refused too, and raises; the last write that the
    device acknowledged is the one to Idle: the device is left in Idle. *)
Lemma get_firmware_version_bus_dies :
  fst (ENS160.get_firmware_version dies_after_first_bus (world0 ens_fresh))
  = Raise ENS160CommunicationError
  /\ last_write 0x53 ENS160._REG_OPMODE
       (log (snd (ENS160.get_firmware_version dies_after_first_bus
                    (world0 ens_fresh))))
     = Some ([ENS160._OPMODE_STANDARD], Fail)
  /\ last_acked_write 0x53 ENS160._REG_OPMODE
       (log (snd (ENS160.get_firmware_version dies_after_first_bus
                    (world0 ens_fresh))))
     = Some [ENS160._OPMODE_IDLE].
Proof. vm_compute. repeat split. Qed.

(** * AHT21: how long the constructor takes *)

Section AHT21InitTime.

Import AHT21.

Variable i2c : bus.
Context {Ob : Type}.


End AHT21InitTime.
